(** * TriFinger simulation: reach environment and collision objects

    A shallow embedding of
      - [trifinger_simulation/gym_wrapper/envs/trifinger_reach.py]
        (class [TriFingerReach]) and
      - [python/trifinger_simulation/collision_objects.py]
        (class [BaseCollisionObject] and its subclasses),
    together with the properties of them that are verified below.

    Python numbers are duck-typed; the embedding is written once over an
    interface of numbers ([PyNumber]) with two instances: IEEE binary64 (what
    CPython and NumPy compute with, evaluated by the kernel's primitive
    floats) and the rationals (arithmetic without rounding).  Properties of
    the control flow hold for every number type and are stated so.  A
    property of the arithmetic is stated for the arithmetic it holds in: for
    binary64 it is proved from the specification of the primitive floats,
    for exact arithmetic over the rationals, and where the two part, the
    binary64 instance shows it by evaluation.

    Methods are computations on the object that return or raise; what the
    object does to the world outside (robot, logger, marker, clock) is a
    platform of collaborators and a trace of events. *)

From Stdlib Require Import ZArith QArith Qround Qabs Lia Lqa.
From Stdlib Require Import Floats.PrimFloat Floats.FloatOps Floats.SpecFloat.
From Stdlib Require Import Floats.FloatAxioms.
From stdpp Require Import base option list gmap strings.

Set Warnings "-inexact-float".
Local Open Scope Z_scope.

(** ** Python exceptions and results *)

(** The exceptions that the embedded code can raise.  All of them derive
    from Python's [Exception]. *)
Inductive exception : Type :=
  | AssertionError
  | ZeroDivisionError
  | ValueError
  | OverflowError
  | TypeError
  | AttributeError (attr : string)
  | KeyError (key : string)
  | RuntimeError (msg : string).

(** The outcome of evaluating a Python expression: a value, or an exception
    that propagates. *)
Inductive pyresult (A : Type) : Type :=
  | Ok (a : A)
  | Raise (e : exception).
Arguments Ok {A} a.
Arguments Raise {A} e.

Definition pyresult_bind {A B} (r : pyresult A) (k : A -> pyresult B) : pyresult B :=
  match r with
  | Ok a => k a
  | Raise e => Raise e
  end.

Declare Scope pyresult_scope.
Delimit Scope pyresult_scope with pyresult.
Notation "x <-? r ; k" := (pyresult_bind r (fun x => k))
  (at level 100, r at next level, right associativity) : pyresult_scope.

Definition is_ok {A} (r : pyresult A) : bool :=
  match r with Ok _ => true | Raise _ => false end.

(** ** Numbers *)

(** [round(x)] on an exact value: to the nearest integer, a tie going to the
    even one (Python 3). *)
Definition Qround_half_even (x : Q) : Z :=
  let f := Qfloor x in
  match Qcompare (x - inject_Z f) (1 # 2) with
  | Lt => f
  | Gt => f + 1
  | Eq => if Z.even f then f else f + 1
  end.

(** [int(x)] on an exact value: truncation towards zero. *)
Definition Qtruncate (x : Q) : Z :=
  if Qle_bool 0 x then Qfloor x else Qceiling x.

(** The outcome of converting a number to an [int]. *)
Inductive conversion :=
  | Integer (z : Z)
  | Not_a_number
  | Infinity.

(** What the embedded code asks of a number type.  [num_div] is true
    division as the arithmetic unit does it; the Python operator [/], which
    raises on a zero divisor, is [py_truediv] below.  [num_round] is
    [round(x)] and [num_int] is [int(x)], which Python refuses for a NaN and
    for an infinity. *)
Class PyNumber (T : Type) := {
  num_of_Z : Z -> T;
  num_add : T -> T -> T;
  num_sub : T -> T -> T;
  num_mul : T -> T -> T;
  num_div : T -> T -> T;
  num_opp : T -> T;
  num_abs : T -> T;
  num_eqb : T -> T -> bool;
  num_leb : T -> T -> bool;
  num_round : T -> conversion;
  num_int : T -> conversion;
}.

Declare Scope num_scope.
Delimit Scope num_scope with num.
Infix "+" := num_add : num_scope.
Infix "-" := num_sub : num_scope.
Infix "*" := num_mul : num_scope.
Notation "- x" := (num_opp x) : num_scope.
Infix "<=?" := num_leb : num_scope.

(** The exact value of a finite binary64 number, converted by [to_int]. *)
Definition SF_convert (to_int : Q -> Z) (f : spec_float) : conversion :=
  match f with
  | S754_zero _ => Integer 0
  | S754_infinity _ => Infinity
  | S754_nan => Not_a_number
  | S754_finite s m e =>
      let v := if (0 <=? e)%Z
               then inject_Z (Z.pos m * 2 ^ e)
               else (Z.pos m # Pos.shiftl 1 (Z.to_N (- e)))%Q in
      Integer (to_int (if s then (- v)%Q else v))
  end.

Definition float_of_Z (z : Z) : float :=
  SF2Prim (binary_normalize prec emax z 0 false).

(** IEEE 754 binary64 with round-to-nearest-even: Python's [float] and
    NumPy's [float64]. *)
#[export] Instance float_number : PyNumber float := {
  num_of_Z := float_of_Z;
  num_add := PrimFloat.add;
  num_sub := PrimFloat.sub;
  num_mul := PrimFloat.mul;
  num_div := PrimFloat.div;
  num_opp := PrimFloat.opp;
  num_abs := PrimFloat.abs;
  num_eqb := PrimFloat.eqb;
  num_leb := PrimFloat.leb;
  num_round x := SF_convert Qround_half_even (Prim2SF x);
  num_int x := SF_convert Qtruncate (Prim2SF x);
}.

(** The rationals: the same operations without rounding. *)
#[export] Instance Q_number : PyNumber Q := {
  num_of_Z := inject_Z;
  num_add := Qplus;
  num_sub := Qminus;
  num_mul := Qmult;
  num_div := Qdiv;
  num_opp := Qopp;
  num_abs := Qabs;
  num_eqb := Qeq_bool;
  num_leb := Qle_bool;
  num_round x := Integer (Qround_half_even x);
  num_int x := Integer (Qtruncate x);
}.

Section Numbers.
Context {T : Type} {num : PyNumber T}.

(** The Python operator [x / y] on numbers. *)
Definition py_truediv (x y : T) : pyresult T :=
  if num_eqb y (num_of_Z 0) then Raise ZeroDivisionError else Ok (num_div x y).

(** [x / n] for an [int] [n]. *)
Definition py_truediv_int (x : T) (n : Z) : pyresult T :=
  if (n =? 0)%Z then Raise ZeroDivisionError else Ok (num_div x (num_of_Z n)).

(** A conversion as Python reports it: [ValueError] for a NaN,
    [OverflowError] for an infinity. *)
Definition converted (c : conversion) : pyresult Z :=
  match c with
  | Integer z => Ok z
  | Not_a_number => Raise ValueError
  | Infinity => Raise OverflowError
  end.

(** [int(round(x))] *)
Definition py_round (x : T) : pyresult Z := converted (num_round x).

(** [int(x)] *)
Definition py_int (x : T) : pyresult Z := converted (num_int x).

(** A decimal literal of the source, such as [0.000001]: the number
    nearest to the quotient. *)
Definition literal (q : Q) : T :=
  num_div (num_of_Z (Qnum q)) (num_of_Z (Z.pos (Qden q))).

End Numbers.

(** ** The reach environment *)

Section Environment.
Context {T : Type} {num : PyNumber T}.
Local Open Scope num_scope.

(** *** Collaborators *)

(** A robot observation: joint positions and joint velocities. *)
Record Observation := {
  position : list T;
  velocity : list T;
}.

(** A [gym.spaces.Box]: the lower and upper bound of each dimension. *)
Record Box := {
  low : list T;
  high : list T;
}.

(** Modelled from the spec: [utils.scale] of
    [trifinger_simulation/gym_wrapper/utils.py], which is not among the
    sources.  The spec defines the scaled space as the linear remapping of
    a quantity's range to [-1, 1] by min-max normalisation. *)
Definition scale_value (lo hi x : T) : T :=
  num_div (num_of_Z 2 * (x - lo)) (hi - lo) - num_of_Z 1.

Definition scale (x : list T) (space : Box) : list T :=
  zip_with (fun xi b => scale_value b.1 b.2 xi) x (zip (low space) (high space)).

(** Modelled from the spec: [utils.unscale] of the same missing file, the
    remapping of [-1, 1] back to the quantity's range. *)
Definition unscale_value (lo hi y : T) : T :=
  lo + num_div (y + num_of_Z 1) (num_of_Z 2) * (hi - lo).

Definition unscale (y : list T) (space : Box) : list T :=
  zip_with (fun yi b => unscale_value b.1 b.2 yi) y (zip (low space) (high space)).

(** What the environment does to the outside world besides driving the
    robot: console output, the episode logger, the goal marker and the
    wall-clock wait. *)
Inductive event :=
  | Print_smoothing (episode : Z) (alpha : T)
  | Sleep_until (t : Z)
  | Marker_set_state (goal : list (list T))
  | Logger_new_episode (target_joint_config : list T) (goal : list (list T))
  | Logger_append (joint_positions end_effector_position : list T).

(** The code this environment is glue for: the robot proxy ([SimFinger] or
    [RealFinger]), its kinematics, the sampler of feasible joint
    configurations (whose random state lives with the robot), the distance
    of [utils] and the bounds that [FingerSpaces] derives from the number of
    fingers.  A call that steps the robot or reads its observation returns
    or raises, and leaves a new robot state either way.  The constructors
    of the robot, the reset of the robot, the sampler, the kinematics and the
    distance are taken to return: what the environment does when one of
    them raises is outside this embedding. *)
Class Platform := {
  robot : Type;
  SimFinger : string -> bool -> robot;
  RealFinger : string -> string -> bool -> robot;
  get_number_of_fingers : string -> nat;
  time_step_s : robot -> T;
  append_desired_action : list T -> robot -> pyresult Z * robot;
  get_observation : Z -> robot -> pyresult Observation * robot;
  reset_finger_positions_and_velocities : list T -> robot -> Observation * robot;
  forward_kinematics : list T -> list (list T);
  feasible_random_joint_positions_for_reaching : Box -> robot -> list T * robot;
  compute_distance : list (list T) -> list (list T) -> T;
  observation_bounds : nat -> Box;
  action_bounds_of : nat -> Box;
}.
Context {platform : Platform}.

(** Modelled from the spec: [FingerSpaces] of
    [trifinger_simulation/gym_wrapper/finger_spaces.py], which is not among
    the sources.  Each observation key names a slice of fixed size of the
    flat observation vector, in the order of the keys. *)
Fixpoint slices_from (start : nat) (keys : list string) (sizes : list nat)
  : gmap string (nat * nat) :=
  match keys, sizes with
  | k :: keys, n :: sizes =>
      <[k := (start, (start + n)%nat)]> (slices_from (start + n) keys sizes)
  | _, _ => ∅
  end.

Record FingerSpaces := {
  key_to_index : gmap string (nat * nat);
  action_bounds : Box;
  get_unscaled_observation_space : Box;
  get_unscaled_action_space : Box;
}.

Definition make_FingerSpaces (num_fingers : nat)
    (observations_keys : list string) (observations_sizes : list nat) : FingerSpaces :=
  {| key_to_index := slices_from 0 observations_keys observations_sizes;
     action_bounds := action_bounds_of num_fingers;
     get_unscaled_observation_space := observation_bounds num_fingers;
     get_unscaled_action_space := action_bounds_of num_fingers |}.

(** *** The environment object *)

(** [smoothing_stop_episode] is an [int], or [math.inf] under [is_test]. *)
Inductive episode_bound := Finite (n : Z) | Infinite.

Definition below (count : Z) (b : episode_bound) : bool :=
  match b with
  | Finite n => count <? n
  | Infinite => true
  end.

(** The attributes of a [TriFingerReach] object, and in [trace] the events
    it has caused so far (latest first).  [observation] is an attribute
    that only [step] assigns, and only when [synchronize] is set; [goal] is
    assigned by [reset] before anything reads it. *)
Record TriFingerReach := {
  finger : robot;
  num_fingers : nat;
  steps_per_control : Z;
  observations_keys : list string;
  observations_sizes : list nat;
  spaces : FingerSpaces;
  unscaled_observation_space : Box;
  unscaled_action_space : Box;
  smoothing_start_episode : Z;
  smoothing_alpha : T;
  smoothing_increase_step : T;
  smoothing_stop_episode : episode_bound;
  smoothed_action : option (list T);
  episode_count : Z;
  enable_visualization : bool;
  synchronize : bool;
  next_start_time : option Z;
  observation : option Observation;
  goal : list (list T);
  trace : list event;
}.

(** Assignment to the attributes that change after construction. *)
Definition assign (self : TriFingerReach) (f : robot) (alpha : T)
    (sa : option (list T)) (count : Z) (nst : option Z)
    (obs : option Observation) (g : list (list T)) (tr : list event)
  : TriFingerReach :=
  {| finger := f;
     num_fingers := num_fingers self;
     steps_per_control := steps_per_control self;
     observations_keys := observations_keys self;
     observations_sizes := observations_sizes self;
     spaces := spaces self;
     unscaled_observation_space := unscaled_observation_space self;
     unscaled_action_space := unscaled_action_space self;
     smoothing_start_episode := smoothing_start_episode self;
     smoothing_alpha := alpha;
     smoothing_increase_step := smoothing_increase_step self;
     smoothing_stop_episode := smoothing_stop_episode self;
     smoothed_action := sa;
     episode_count := count;
     enable_visualization := enable_visualization self;
     synchronize := synchronize self;
     next_start_time := nst;
     observation := obs;
     goal := g;
     trace := tr |}.

Definition set_finger f self :=
  assign self f (smoothing_alpha self) (smoothed_action self) (episode_count self)
    (next_start_time self) (observation self) (goal self) (trace self).
Definition set_smoothing_alpha a self :=
  assign self (finger self) a (smoothed_action self) (episode_count self)
    (next_start_time self) (observation self) (goal self) (trace self).
Definition set_smoothed_action sa self :=
  assign self (finger self) (smoothing_alpha self) sa (episode_count self)
    (next_start_time self) (observation self) (goal self) (trace self).
Definition set_episode_count c self :=
  assign self (finger self) (smoothing_alpha self) (smoothed_action self) c
    (next_start_time self) (observation self) (goal self) (trace self).
Definition set_next_start_time t self :=
  assign self (finger self) (smoothing_alpha self) (smoothed_action self)
    (episode_count self) t (observation self) (goal self) (trace self).
Definition set_observation o self :=
  assign self (finger self) (smoothing_alpha self) (smoothed_action self)
    (episode_count self) (next_start_time self) o (goal self) (trace self).
Definition set_goal g self :=
  assign self (finger self) (smoothing_alpha self) (smoothed_action self)
    (episode_count self) (next_start_time self) (observation self) g (trace self).
Definition set_trace tr self :=
  assign self (finger self) (smoothing_alpha self) (smoothed_action self)
    (episode_count self) (next_start_time self) (observation self) (goal self) tr.

(** *** Methods: computations on the object that return or raise *)

(** A method body: from the object before to the outcome and the object
    after.  What was assigned before an exception stays assigned. *)
Definition method (A : Type) : Type := TriFingerReach -> pyresult A * TriFingerReach.

Definition ret {A} (a : A) : method A := fun self => (Ok a, self).

Definition bind {A B} (m : method A) (k : A -> method B) : method B :=
  fun self =>
    match m self with
    | (Ok a, self') => k a self'
    | (Raise e, self') => (Raise e, self')
    end.

(** [try: body  except Exception: pass] *)
Definition try_except_pass (body : method unit) : method unit :=
  fun self =>
    match body self with
    | (Ok _, self') => (Ok tt, self')
    | (Raise _, self') => (Ok tt, self')
    end.

Definition getattr {A} (f : TriFingerReach -> A) : method A :=
  fun self => (Ok (f self), self).

Definition setattr (f : TriFingerReach -> TriFingerReach) : method unit :=
  fun self => (Ok tt, f self).

Definition lift {A} (r : pyresult A) : method A := fun self => (r, self).

(** A call on [self.finger]. *)
Definition call_finger {A} (op : robot -> pyresult A * robot) : method A :=
  fun self => let (r, f) := op (finger self) in (r, set_finger f self).

Definition emit (ev : event) : method unit :=
  setattr (fun self => set_trace (ev :: trace self) self).

End Environment.

Arguments Observation T : clear implicits.
Arguments Box T : clear implicits.
Arguments event T : clear implicits.
Arguments Platform T : clear implicits.

Declare Scope method_scope.
Delimit Scope method_scope with method.
Notation "x <- m ;; k" := (bind m (fun x => k))
  (at level 100, m at next level, right associativity) : method_scope.
Notation "m ;; k" := (bind m (fun _ => k))
  (at level 100, right associativity) : method_scope.

(** Subscripting a dict: [d[k]]. *)
Definition dict_get {A} (d : gmap string A) (k : string) : pyresult A :=
  match d !! k with
  | Some v => Ok v
  | None => Raise (KeyError k)
  end.

(** Subscripting a list with [slice(start, stop)]. *)
Definition slice {A} (idx : nat * nat) (l : list A) : list A :=
  take (idx.2 - idx.1)%nat (drop idx.1 l).

(** Using a value that may be [None] where an array is needed. *)
Definition the {A} (o : option A) : pyresult A :=
  match o with
  | Some a => Ok a
  | None => Raise TypeError
  end.

Section Methods.
Context {T : Type} {num : PyNumber T} {platform : Platform T}.
Local Open Scope num_scope.
Local Open Scope method_scope.

(** [[v for key in keys for v in observation_dict[key]]] *)
Fixpoint comprehension (observation_dict : gmap string (list T)) (keys : list string)
  : pyresult (list T) :=
  match keys with
  | [] => Ok []
  | key :: keys =>
      (vs <-? dict_get observation_dict key;
       rest <-? comprehension observation_dict keys;
       Ok (vs ++ rest))%pyresult
  end.

(** [TriFingerReach.update_smoothing] *)
Definition update_smoothing : method unit :=
  start <- getattr smoothing_start_episode;;
  count <- getattr episode_count;;
  stop <- getattr smoothing_stop_episode;;
  (if (start <=? count)%Z && below count stop
   then
     alpha <- getattr smoothing_alpha;;
     increase <- getattr smoothing_increase_step;;
     setattr (set_smoothing_alpha (alpha + increase))
   else ret tt);;
  count <- getattr episode_count;;
  alpha <- getattr smoothing_alpha;;
  emit (Print_smoothing count alpha).

(** [TriFingerReach._compute_reward] *)
Definition _compute_reward (observation : option (list T)) (goal : list (list T))
  : method (T * bool) :=
  sp <- getattr spaces;;
  idx <- lift (dict_get (key_to_index sp) "joint_positions");;
  state <- lift (the observation);;
  let joint_positions := slice idx state in
  let end_effector_positions := forward_kinematics joint_positions in
  let distance_to_goal := compute_distance end_effector_positions goal in
  let reward := - distance_to_goal in
  let done := false in
  n <- getattr steps_per_control;;
  ret (reward * num_of_Z n, done).

(** [TriFingerReach._get_state] *)
Definition _get_state (observation : Observation T) (action : list T)
    (log_observation : bool) : method (list T) :=
  let tip_positions := forward_kinematics (position observation) in
  let end_effector_position := concat tip_positions in
  let joint_positions := position observation in
  let joint_velocities := velocity observation in
  g <- getattr goal;;
  let flat_goals := concat g in
  let end_effector_to_goal := zip_with num_sub flat_goals end_effector_position in
  let observation_dict : gmap string (list T) :=
    <["action_joint_positions" := action]>
      (<["goal_position" := flat_goals]>
        (<["end_effector_to_goal" := end_effector_to_goal]>
          (<["joint_velocities" := joint_velocities]>
            (<["joint_positions" := joint_positions]>
              (<["end_effector_position" := end_effector_position]> ∅))))) in
  (if log_observation
   then emit (Logger_append joint_positions end_effector_position)
   else ret tt);;
  keys <- getattr observations_keys;;
  lift (comprehension observation_dict keys).

(** The control loop of [step]: the same action for [n] robot steps. *)
Fixpoint control_loop (n : nat) (finger_action : list T) (state : option (list T))
  : method (option (list T)) :=
  match n with
  | O => ret state
  | S n =>
      t <- call_finger (append_desired_action finger_action);;
      obs <- call_finger (get_observation t);;
      state <- match state with
               | None =>
                   sa <- getattr smoothed_action;;
                   action <- lift (the sa);;
                   s <- _get_state obs action true;;
                   ret (Some s)
               | Some _ => ret state
               end;;
      sync <- getattr synchronize;;
      (if sync then setattr (set_observation (Some obs)) else ret tt);;
      control_loop n finger_action state
  end.

(** [alpha * previous + (1 - alpha) * unscaled], on arrays of one shape, as
    the vectors of the environment are: entry by entry. *)
Definition blend (alpha : T) (previous unscaled_action : list T) : list T :=
  zip_with num_add
    (map (num_mul alpha) previous)
    (map (num_mul (num_of_Z 1 - alpha)) unscaled_action).

(** The [info] dict of [step]: [{"is_success": np.float32(done)}]. *)
Definition info_of (done : bool) : gmap string T :=
  {[ "is_success" := num_of_Z (Z.b2z done) ]}.

(** [TriFingerReach.step] *)
Definition step (action : list T)
  : method (list T * T * bool * gmap string T) :=
  space <- getattr unscaled_action_space;;
  let unscaled_action := unscale action space in
  sa <- getattr smoothed_action;;
  (match sa with
   | None => setattr (set_smoothed_action (Some unscaled_action))
   | Some _ => ret tt
   end);;
  alpha <- getattr smoothing_alpha;;
  sa <- getattr smoothed_action;;
  previous <- lift (the sa);;
  setattr (set_smoothed_action (Some (blend alpha previous unscaled_action)));;
  sa <- getattr smoothed_action;;
  finger_action <- lift (the sa);;
  n <- getattr steps_per_control;;
  state <- control_loop (Z.to_nat n) finger_action None;;
  g <- getattr goal;;
  rd <- _compute_reward state g;;
  let info := info_of rd.2 in
  s <- lift (the state);;
  obs_space <- getattr unscaled_observation_space;;
  let scaled_observation := scale s obs_space in
  ret (scaled_observation, rd.1, rd.2, info).

(** The freeze-in-place step of [reset]: hold the last observed position. *)
Definition freeze_in_place : method unit :=
  o <- getattr observation;;
  obs <- lift (match o with
               | Some obs => Ok obs
               | None => Raise (AttributeError "observation")
               end);;
  t <- call_finger (append_desired_action (position obs));;
  _ <- call_finger (get_observation t);;
  ret tt.

(** A robot or sampler call that returns. *)
Definition call_finger_total {A} (op : robot -> A * robot) : method A :=
  fun self => let (a, f) := op (finger self) in (Ok a, set_finger f self).

(** [TriFingerReach.reset] *)
Definition reset : method (list T) :=
  nst <- getattr next_start_time;;
  (match nst with
   | Some start_time =>
       try_except_pass freeze_in_place;;
       emit (Sleep_until start_time);;
       setattr (set_next_start_time (Some (start_time + 4)%Z))
   | None => ret tt
   end);;
  update_smoothing;;
  count <- getattr episode_count;;
  setattr (set_episode_count (count + 1)%Z);;
  setattr (set_smoothed_action None);;
  sp <- getattr spaces;;
  action <- call_finger_total
              (feasible_random_joint_positions_for_reaching (action_bounds sp));;
  obs <- call_finger_total (reset_finger_positions_and_velocities action);;
  sp <- getattr spaces;;
  target_joint_config <- call_finger_total
              (feasible_random_joint_positions_for_reaching (action_bounds sp));;
  setattr (set_goal (forward_kinematics target_joint_config));;
  vis <- getattr enable_visualization;;
  g <- getattr goal;;
  (if vis then emit (Marker_set_state g) else ret tt);;
  emit (Logger_new_episode target_joint_config g);;
  s <- _get_state obs action false;;
  obs_space <- getattr unscaled_observation_space;;
  ret (scale s obs_space).

(** The smoothing schedule that [__init__] derives from [smoothing_params]:
    start episode, initial alpha, increase step and stop episode. *)
Definition smoothing_setup (smoothing_params : gmap string T)
  : pyresult (Z * T * T * episode_bound) :=
  (if bool_decide (is_Some (smoothing_params !! "is_test"))
   then
     final_alpha <-? dict_get smoothing_params "final_alpha";
     Ok (0%Z, final_alpha, num_of_Z 0, Infinite)
   else
     num_episodes <-? dict_get smoothing_params "num_episodes";
     stop_after <-? dict_get smoothing_params "stop_after";
     smoothing_stop_episode <-? py_int (num_episodes * stop_after);
     num_episodes <-? dict_get smoothing_params "num_episodes";
     start_after <-? dict_get smoothing_params "start_after";
     smoothing_start_episode <-? py_int (num_episodes * start_after);
     let num_smoothing_increase_steps :=
       (smoothing_stop_episode - smoothing_start_episode)%Z in
     final_alpha <-? dict_get smoothing_params "final_alpha";
     increase <-? py_truediv_int final_alpha num_smoothing_increase_steps;
     Ok (smoothing_start_episode, num_of_Z 0, increase,
         Finite smoothing_stop_episode))%pyresult.

(** The number of robot steps per environment step, and the assertion that
    the control period is that many physics time steps. *)
Definition derive_steps_per_control (control_rate_s time_step : T) : pyresult Z :=
  (ratio <-? py_truediv control_rate_s time_step;
   n <-? py_round ratio;
   if num_abs (control_rate_s - num_of_Z n * time_step) <=? literal (1 # 1000000)
   then Ok n
   else Raise AssertionError)%pyresult.

(** [datetime.datetime(now.year, now.month, now.day, now.hour,
    now.minute + 1)], with time in seconds: the start of the next minute,
    and [ValueError] for minute 60. *)
Definition next_minute (now : Z) : pyresult Z :=
  if ((now / 60) mod 60 =? 59)%Z
  then Raise ValueError
  else Ok ((now / 60 + 1) * 60)%Z.

(** [TriFingerReach.__init__]; [now] is the reading of
    [datetime.datetime.now()].  The object exists when the constructor
    returns.  The call [self.seed()] before the first [reset] assigns none of
    the attributes kept here. *)
Definition __init__ (control_rate_s : T) (finger_type : string)
    (enable_visualization : bool) (smoothing_params : gmap string T)
    (use_real_robot : bool) (finger_config_suffix : string) (synchronize : bool)
    (now : Z) : pyresult TriFingerReach :=
  (let finger :=
     if use_real_robot
     then RealFinger finger_type finger_config_suffix enable_visualization
     else SimFinger finger_type enable_visualization in
   let num_fingers := get_number_of_fingers finger_type in
   steps_per_control <-? derive_steps_per_control control_rate_s (time_step_s finger);
   let observations_keys :=
     ["joint_positions"; "joint_velocities"; "goal_position";
      "action_joint_positions"] in
   let observations_sizes :=
     [3 * num_fingers; 3 * num_fingers; 3 * num_fingers; 3 * num_fingers]%nat in
   let spaces := make_FingerSpaces num_fingers observations_keys observations_sizes in
   smoothing <-? smoothing_setup smoothing_params;
   next_start_time <-? (if synchronize
                        then t <-? next_minute now; Ok (Some t)
                        else Ok None);
   let self :=
     {| finger := finger;
        num_fingers := num_fingers;
        steps_per_control := steps_per_control;
        observations_keys := observations_keys;
        observations_sizes := observations_sizes;
        spaces := spaces;
        unscaled_observation_space := get_unscaled_observation_space spaces;
        unscaled_action_space := get_unscaled_action_space spaces;
        smoothing_start_episode := smoothing.1.1.1;
        smoothing_alpha := smoothing.1.1.2;
        smoothing_increase_step := smoothing.1.2;
        smoothing_stop_episode := smoothing.2;
        smoothed_action := None;
        episode_count := 0;
        enable_visualization := enable_visualization;
        synchronize := synchronize;
        next_start_time := next_start_time;
        observation := None;
        goal := [];
        trace := [] |} in
   match reset self with
   | (Ok _, self') => Ok self'
   | (Raise e, _) => Raise e
   end)%pyresult.

End Methods.

(** ** A small concrete platform

    A one-finger robot that the definitions above can be run on: each robot
    step moves every joint half of the way to its target, the tip position of
    the finger is read off its three joint values, and the draws of the
    sampler are the list [draws], taken in turn (zeros when it is used up).
    A robot with [breaks_after] set raises on every call once it has made
    that many steps. *)

Section SmallPlatform.
Context {T : Type} {num : PyNumber T}.
Local Open Scope num_scope.

Record small_robot := {
  joints : list T;
  ticks : Z;
  draws : list (list T);
  breaks_after : option Z;
}.

Definition zeros : list T := replicate 3 (num_of_Z 0).

Definition broken (r : small_robot) : bool :=
  match breaks_after r with
  | Some k => (k <=? ticks r)%Z
  | None => false
  end.

Definition small_append (a : list T) (r : small_robot) : pyresult Z * small_robot :=
  if broken r then (Raise (RuntimeError "robot backend stopped"), r)
  else
    (Ok (ticks r),
     {| joints := zip_with (fun j target => j + num_div (target - j) (num_of_Z 2))
                    (joints r) a;
        ticks := (ticks r + 1)%Z;
        draws := draws r;
        breaks_after := breaks_after r |}).

Definition small_observe (t : Z) (r : small_robot)
  : pyresult (Observation T) * small_robot :=
  if broken r then (Raise (RuntimeError "robot backend stopped"), r)
  else (Ok {| position := joints r; velocity := zeros |}, r).

Definition small_reset (a : list T) (r : small_robot) : Observation T * small_robot :=
  ({| position := a; velocity := zeros |},
   {| joints := a; ticks := ticks r; draws := draws r;
      breaks_after := breaks_after r |}).

Definition small_sample (bounds : Box T) (r : small_robot) : list T * small_robot :=
  match draws r with
  | [] => (zeros, r)
  | d :: ds =>
      (d, {| joints := joints r; ticks := ticks r; draws := ds;
             breaks_after := breaks_after r |})
  end.

Definition small_bounds (lo hi : Z) (n : nat) : Box T :=
  {| low := replicate n (num_of_Z lo); high := replicate n (num_of_Z hi) |}.

(** The platform, given the distance of tip positions to the goal and the
    robot that the constructors return. *)
Definition small_platform (distance : list (list T) -> list (list T) -> T)
    (r0 : small_robot) : Platform T :=
  {| robot := small_robot;
     SimFinger := fun _ _ => r0;
     RealFinger := fun _ _ _ => r0;
     get_number_of_fingers := fun _ => 1%nat;
     time_step_s := fun _ => literal (4 # 1000);
     append_desired_action := small_append;
     get_observation := small_observe;
     reset_finger_positions_and_velocities := small_reset;
     forward_kinematics := fun js => [js];
     feasible_random_joint_positions_for_reaching := small_sample;
     compute_distance := distance;
     observation_bounds := fun n => small_bounds (-8) 8 (12 * n);
     action_bounds_of := fun n => small_bounds (-1) 1 (3 * n) |}.

(** The sum of the squares of the entries of [a - b], on nested lists. *)
Definition sum_of_squares (a b : list (list T)) : T :=
  foldr num_add (num_of_Z 0)
    (zip_with (fun x y => (x - y) * (x - y)) (concat a) (concat b)).

(** The sum of the absolute values of the entries of [a - b]. *)
Definition manhattan (a b : list (list T)) : T :=
  foldr num_add (num_of_Z 0)
    (zip_with (fun x y => num_abs (x - y)) (concat a) (concat b)).

End SmallPlatform.

Arguments small_robot T : clear implicits.

(** Modelled from the spec: [utils.compute_distance] of the missing
    [utils.py], the Euclidean distance of the tip positions to the goal, in
    binary64. *)
Definition euclidean (a b : list (list float)) : float :=
  PrimFloat.sqrt (sum_of_squares a b).

(** ** Collision objects *)

Module CollisionObjects.

(** The calls that reach the physics engine. *)
Inductive api_call :=
  | Call_isConnected (client : Z)
  | Call_removeBody (body client : Z)
  | Call_createCollisionShape (client : Z)
  | Call_createVisualShape (client : Z)
  | Call_createMultiBody (client : Z)
  | Call_changeDynamics (body client : Z)
  | Call_loadURDF (client : Z)
  | Call_resetBasePositionAndOrientation (body client : Z)
  | Call_getBasePositionAndOrientation (body client : Z).

Section Engine.
(** The type of coordinates. *)
Context {V : Type}.

(** A pose: position and orientation quaternion. *)
Definition pose : Type := list V * list V.

(** The physics engine as this code sees it: the clients that are
    connected; the bodies of each client with the pose last given to them;
    for each client the next free identifier of a body, of a collision
    shape and of a visual shape (the engine numbers the three separately,
    from 0, for each client); the unit quaternion that the engine reports
    for an orientation it was given; and the calls made so far (latest
    first). *)
Record pybullet := {
  connected : gset Z;
  bodies : gmap (Z * Z) pose;
  next_body : gmap Z Z;
  next_collision_shape : gmap Z Z;
  next_visual_shape : gmap Z Z;
  normalised : list V -> list V;
  calls : list api_call;
}.

Definition log (c : api_call) (p : pybullet) : pybullet :=
  {| connected := connected p; bodies := bodies p;
     next_body := next_body p;
     next_collision_shape := next_collision_shape p;
     next_visual_shape := next_visual_shape p;
     normalised := normalised p; calls := c :: calls p |}.

Definition set_bodies (b : gmap (Z * Z) pose) (p : pybullet) : pybullet :=
  {| connected := connected p; bodies := b;
     next_body := next_body p;
     next_collision_shape := next_collision_shape p;
     next_visual_shape := next_visual_shape p;
     normalised := normalised p; calls := calls p |}.

(** The next free identifier of a client, and the counter after it has
    been handed out. *)
Definition next_of (counter : gmap Z Z) (client : Z) : Z :=
  default 0 (counter !! client).

Definition advance (counter : gmap Z Z) (client : Z) : gmap Z Z :=
  <[client := next_of counter client + 1]> counter.

(** [pybullet.error], raised by every call but [isConnected] on a client
    that is not connected. *)
Definition not_connected : exception :=
  RuntimeError "Not connected to physics server.".

Definition isConnected (client : Z) (p : pybullet) : bool * pybullet :=
  (bool_decide (client ∈ connected p), log (Call_isConnected client) p).

Definition removeBody (body client : Z) (p : pybullet) : pyresult unit * pybullet :=
  let p := log (Call_removeBody body client) p in
  if bool_decide (client ∈ connected p)
  then (Ok tt, set_bodies (delete (client, body) (bodies p)) p)
  else (Raise not_connected, p).

Definition createCollisionShape (client : Z) (p : pybullet) : pyresult Z * pybullet :=
  let p := log (Call_createCollisionShape client) p in
  if bool_decide (client ∈ connected p)
  then (Ok (next_of (next_collision_shape p) client),
        {| connected := connected p; bodies := bodies p;
           next_body := next_body p;
           next_collision_shape := advance (next_collision_shape p) client;
           next_visual_shape := next_visual_shape p;
           normalised := normalised p; calls := calls p |})
  else (Raise not_connected, p).

Definition createVisualShape (client : Z) (p : pybullet) : pyresult Z * pybullet :=
  let p := log (Call_createVisualShape client) p in
  if bool_decide (client ∈ connected p)
  then (Ok (next_of (next_visual_shape p) client),
        {| connected := connected p; bodies := bodies p;
           next_body := next_body p;
           next_collision_shape := next_collision_shape p;
           next_visual_shape := advance (next_visual_shape p) client;
           normalised := normalised p; calls := calls p |})
  else (Raise not_connected, p).

(** Creating a body ([createMultiBody], [loadURDF]) at a pose. *)
Definition create_body (c : api_call) (at_pose : pose) (client : Z) (p : pybullet)
  : pyresult Z * pybullet :=
  let p := log c p in
  if bool_decide (client ∈ connected p)
  then (Ok (next_of (next_body p) client),
        {| connected := connected p;
           bodies := <[(client, next_of (next_body p) client) := at_pose]> (bodies p);
           next_body := advance (next_body p) client;
           next_collision_shape := next_collision_shape p;
           next_visual_shape := next_visual_shape p;
           normalised := normalised p; calls := calls p |})
  else (Raise not_connected, p).

Definition changeDynamics (body client : Z) (p : pybullet) : pyresult unit * pybullet :=
  let p := log (Call_changeDynamics body client) p in
  if bool_decide (client ∈ connected p) then (Ok tt, p) else (Raise not_connected, p).

(** A body that the client does not have (any more) is left alone. *)
Definition resetBasePositionAndOrientation (body : Z) (to : pose) (client : Z)
    (p : pybullet) : pyresult unit * pybullet :=
  let p := log (Call_resetBasePositionAndOrientation body client) p in
  if bool_decide (client ∈ connected p)
  then match bodies p !! (client, body) with
       | Some _ => (Ok tt, set_bodies (<[(client, body) := to]> (bodies p)) p)
       | None => (Ok tt, p)
       end
  else (Raise not_connected, p).

(** The position as it was given, and the orientation as a unit
    quaternion. *)
Definition getBasePositionAndOrientation (body client : Z) (p : pybullet)
  : pyresult pose * pybullet :=
  let p := log (Call_getBasePositionAndOrientation body client) p in
  if bool_decide (client ∈ connected p)
  then match bodies p !! (client, body) with
       | Some q => (Ok (q.1, normalised p q.2), p)
       | None => (Raise (RuntimeError "GetBasePositionAndOrientation failed."), p)
       end
  else (Raise not_connected, p).

(** [pybullet.disconnect]: the client and its bodies are gone. *)
Definition disconnect (client : Z) (p : pybullet) : pybullet :=
  {| connected := connected p ∖ {[ client ]};
     bodies := filter (fun kv => kv.1.1 ≠ client) (bodies p);
     next_body := next_body p;
     next_collision_shape := next_collision_shape p;
     next_visual_shape := next_visual_shape p;
     normalised := normalised p; calls := calls p |}.

(** An instance of [BaseCollisionObject] or of a subclass.  An attribute
    that has not been assigned (yet) is [None]: the base class assigns
    only [_pybullet_client_id]. *)
Record BaseCollisionObject := {
  _pybullet_client_id : Z;
  _object_id : option Z;
  block_id : option Z;
  visual_shape_id : option Z;
}.

(** [BaseCollisionObject.__init__] *)
Definition BaseCollisionObject_init (pybullet_client_id : Z) : BaseCollisionObject :=
  {| _pybullet_client_id := pybullet_client_id;
     _object_id := None; block_id := None; visual_shape_id := None |}.

(** [BaseCollisionObject.set_state] *)
Definition set_state (self : BaseCollisionObject) (position orientation : list V)
    (p : pybullet) : pyresult unit * pybullet :=
  match _object_id self with
  | None => (Raise (AttributeError "_object_id"), p)
  | Some id =>
      resetBasePositionAndOrientation id (position, orientation)
        (_pybullet_client_id self) p
  end.

(** [BaseCollisionObject.get_state] *)
Definition get_state (self : BaseCollisionObject) (p : pybullet)
  : pyresult pose * pybullet :=
  match _object_id self with
  | None => (Raise (AttributeError "_object_id"), p)
  | Some id => getBasePositionAndOrientation id (_pybullet_client_id self) p
  end.

(** [BaseCollisionObject.__del__] *)
Definition __del__ (self : BaseCollisionObject) (p : pybullet)
  : pyresult unit * pybullet :=
  let (running, p) := isConnected (_pybullet_client_id self) p in
  if running
  then match _object_id self with
       | None => (Raise (AttributeError "_object_id"), p)
       | Some id => removeBody id (_pybullet_client_id self) p
       end
  else (Ok tt, p).

(** [Cuboid.__init__]; [color_rgba] is [None] or a colour.  The object is
    returned with the attributes assigned so far also when a call raises:
    Python finalises such an object as well. *)
Definition Cuboid (position orientation half_extents : list V) (mass : V)
    (color_rgba : option (list V)) (pybullet_client_id : Z) (p : pybullet)
  : pyresult unit * BaseCollisionObject * pybullet :=
  let self := BaseCollisionObject_init pybullet_client_id in
  match createCollisionShape pybullet_client_id p with
  | (Raise e, p) => (Raise e, self, p)
  | (Ok block, p) =>
      let self := {| _pybullet_client_id := pybullet_client_id; _object_id := None;
                     block_id := Some block; visual_shape_id := None |} in
      let visual :=
        match color_rgba with
        | Some _ => createVisualShape pybullet_client_id p
        | None => (Ok (-1), p)
        end in
      match visual with
      | (Raise e, p) => (Raise e, self, p)
      | (Ok vis, p) =>
          let self := {| _pybullet_client_id := pybullet_client_id;
                         _object_id := None;
                         block_id := Some block; visual_shape_id := Some vis |} in
          match create_body (Call_createMultiBody pybullet_client_id)
                  (position, orientation) pybullet_client_id p with
          | (Raise e, p) => (Raise e, self, p)
          | (Ok body, p) =>
              let self := {| _pybullet_client_id := pybullet_client_id;
                             _object_id := Some body;
                             block_id := Some block; visual_shape_id := Some vis |} in
              match changeDynamics body pybullet_client_id p with
              | (Raise e, p) => (Raise e, self, p)
              | (Ok _, p) => (Ok tt, self, p)
              end
          end
      end
  end.

(** [Cube.__init__] *)
Definition Cube (position orientation : list V) (half_width mass : V)
    (color_rgba : option (list V)) (pybullet_client_id : Z) (p : pybullet)
  : pyresult unit * BaseCollisionObject * pybullet :=
  Cuboid position orientation (replicate 3 half_width) mass color_rgba
    pybullet_client_id p.

(** [ColoredCubeV2.__init__] *)
Definition ColoredCubeV2 (position orientation : list V) (pybullet_client_id : Z)
    (p : pybullet) : pyresult unit * BaseCollisionObject * pybullet :=
  let self := BaseCollisionObject_init pybullet_client_id in
  match create_body (Call_loadURDF pybullet_client_id) (position, orientation)
          pybullet_client_id p with
  | (Raise e, p) => (Raise e, self, p)
  | (Ok body, p) =>
      (Ok tt,
       {| _pybullet_client_id := pybullet_client_id; _object_id := Some body;
          block_id := None; visual_shape_id := None |},
       p)
  end.

(** The [removeBody] calls among [cs]. *)
Definition is_removal (c : api_call) : bool :=
  match c with
  | Call_removeBody _ _ => true
  | _ => false
  end.

Definition removals (cs : list api_call) : list api_call :=
  List.filter is_removal cs.

End Engine.

Arguments pybullet V : clear implicits.
Arguments BaseCollisionObject : clear implicits.

End CollisionObjects.

(** ** Objects in use, and the vocabulary of the properties *)

Section Reachability.
Context {T : Type} {num : PyNumber T} {platform : Platform T}.
Local Open Scope num_scope.
Local Open Scope method_scope.

(** The objects a program can hold: one that the constructor returned for
    [smoothing_params], after any calls of [reset] and [step] (a call that
    raised included: the object stays in use as the call left it). *)
Inductive reachable (smoothing_params : gmap string T) : TriFingerReach -> Prop :=
  | reachable_init control_rate_s finger_type visualization use_real_robot
      finger_config_suffix sync now self :
      __init__ control_rate_s finger_type visualization smoothing_params
        use_real_robot finger_config_suffix sync now = Ok self ->
      reachable smoothing_params self
  | reachable_reset self :
      reachable smoothing_params self ->
      reachable smoothing_params (reset self).2
  | reachable_step action self :
      reachable smoothing_params self ->
      reachable smoothing_params (step action self).2.

(** [n] calls of [reset] in a row. *)
Fixpoint resets (n : nat) (self : TriFingerReach) : TriFingerReach :=
  match n with
  | O => self
  | S n => resets n (reset self).2
  end.

(** The attributes that are assigned once, in the constructor. *)
Definition configuration (self : TriFingerReach) :=
  (num_fingers self, steps_per_control self, observations_keys self,
   observations_sizes self, spaces self, unscaled_observation_space self,
   unscaled_action_space self, smoothing_start_episode self,
   smoothing_increase_step self, smoothing_stop_episode self,
   enable_visualization self, synchronize self).

(** What the constructor establishes about the layout of observations. *)
Definition well_formed (self : TriFingerReach) : Prop :=
  observations_keys self =
    ["joint_positions"; "joint_velocities"; "goal_position"; "action_joint_positions"]
  /\ key_to_index (spaces self) !! "joint_positions"
     = Some (0, 3 * num_fingers self)%nat.

(** The action that [step action] sends to the robot. *)
Definition smoothed (self : TriFingerReach) (action : list T) : list T :=
  let unscaled_action := unscale action (unscaled_action_space self) in
  blend (smoothing_alpha self)
    (default unscaled_action (smoothed_action self)) unscaled_action.

(** Whether the robot returns from all calls of [n] steps with the action. *)
Fixpoint robot_answers (n : nat) (finger_action : list T) (r : robot) : bool :=
  match n with
  | O => true
  | S n =>
      match append_desired_action finger_action r with
      | (Ok t, r) =>
          match get_observation t r with
          | (Ok _, r) => robot_answers n finger_action r
          | (Raise _, _) => false
          end
      | (Raise _, _) => false
      end
  end.

(** The observations that the robot returns in [n] steps with the action. *)
Fixpoint substep_observations (n : nat) (finger_action : list T) (r : robot)
  : list (Observation T) :=
  match n with
  | O => []
  | S n =>
      match append_desired_action finger_action r with
      | (Ok t, r) =>
          match get_observation t r with
          | (Ok o, r) => o :: substep_observations n finger_action r
          | (Raise _, _) => []
          end
      | (Raise _, _) => []
      end
  end.

(** The distance of the finger tips to the goal at an observation. *)
Definition distance_at (g : list (list T)) (o : Observation T) : T :=
  compute_distance (forward_kinematics (position o)) g.

(** The reward in the words of the spec: minus the sum, over the substeps,
    of the distance of the finger tips at that substep to the goal. *)
Definition negative_sum_of_distances (g : list (list T))
    (obs : list (Observation T)) : T :=
  - foldr num_add (num_of_Z 0) (map (distance_at g) obs).

(** The flat observation that [_get_state] builds for the keys of the
    constructor. *)
Definition flat_state (g : list (list T)) (obs : Observation T) (action : list T)
  : list T :=
  position obs ++ velocity obs ++ concat g ++ action.

Definition logged (log_observation : bool) (obs : Observation T)
    (self : TriFingerReach) : TriFingerReach :=
  if log_observation
  then set_trace
         (Logger_append (position obs) (concat (forward_kinematics (position obs)))
            :: trace self) self
  else self.

(** A method leaves the reading [f] of the object as it was. *)
Definition preserves {A X} (f : TriFingerReach -> X) (m : method A) : Prop :=
  forall self, f (m self).2 = f self.

(** A reading of the object that does not look at the robot, at the last
    observation kept for synchronisation, or at the trace. *)
Definition ignores_robot {X} (f : TriFingerReach -> X) : Prop :=
  (forall r self, f (set_finger r self) = f self)
  /\ (forall o self, f (set_observation o self) = f self)
  /\ (forall tr self, f (set_trace tr self) = f self).

(** [step] assigns to [smoothed_action] and to nothing else of the
    episode. *)
Definition schedule (self : TriFingerReach) :=
  (smoothing_alpha self, episode_count self, next_start_time self, goal self).

(** The first of the observations decides the state that the loop
    returns. *)
Definition first_state (g : list (list T)) (sa : list T)
    (obs : list (Observation T)) : option (list T) :=
  match obs with
  | o :: _ => Some (flat_state g o sa)
  | [] => None
  end.

(** The object when the control loop of [step action] starts. *)
Definition smoothing_done (action : list T) (self : TriFingerReach) : TriFingerReach :=
  set_smoothed_action (Some (smoothed self action)) self.

(** The smoothing coefficient that [update_smoothing] assigns. *)
Definition next_alpha (self : TriFingerReach) : T :=
  if (smoothing_start_episode self <=? episode_count self)%Z
     && below (episode_count self) (smoothing_stop_episode self)
  then smoothing_alpha self + smoothing_increase_step self
  else smoothing_alpha self.

(** The events of the synchronisation block of [reset], and the start time
    it leaves. *)
Definition synchronisation_events (self : TriFingerReach) : list (event T) :=
  match next_start_time self with
  | Some start_time => [Sleep_until start_time]
  | None => []
  end.

Definition following_start_time (self : TriFingerReach) : option Z :=
  match next_start_time self with
  | Some start_time => Some (start_time + 4)%Z
  | None => None
  end.

(** [reset] from [update_smoothing] on. *)
Definition reset_episode : method (list T) :=
  update_smoothing;;
  count <- getattr episode_count;;
  setattr (set_episode_count (count + 1)%Z);;
  setattr (set_smoothed_action None);;
  sp <- getattr spaces;;
  action <- call_finger_total
              (feasible_random_joint_positions_for_reaching (action_bounds sp));;
  obs <- call_finger_total (reset_finger_positions_and_velocities action);;
  sp <- getattr spaces;;
  target_joint_config <- call_finger_total
              (feasible_random_joint_positions_for_reaching (action_bounds sp));;
  setattr (set_goal (forward_kinematics target_joint_config));;
  vis <- getattr enable_visualization;;
  g <- getattr goal;;
  (if vis then emit (Marker_set_state g) else ret tt);;
  emit (Logger_new_episode target_joint_config g);;
  s <- _get_state obs action false;;
  obs_space <- getattr unscaled_observation_space;;
  ret (scale s obs_space).

(** The synchronisation block of [reset]. *)
Definition synchronise_start : method unit :=
  nst <- getattr next_start_time;;
  match nst with
  | Some start_time =>
      try_except_pass freeze_in_place;;
      emit (Sleep_until start_time);;
      setattr (set_next_start_time (Some (start_time + 4)%Z))
  | None => ret tt
  end.

End Reachability.

(** How many of the episodes [0 .. count - 1] lie in [start .. stop - 1]. *)
Definition increases (start stop count : Z) : Z :=
  Z.max 0 (Z.min count stop - start).

(** The sum of [n] increase steps, added one by one to 0 as
    [update_smoothing] does. *)
Definition accumulated {T : Type} {num : PyNumber T} (n : nat) (increase : T) : T :=
  Nat.iter n (fun alpha => num_add alpha increase) (num_of_Z 0).





(** ** Concrete inputs *)

(** A robot at rest whose sampler always draws the zero configuration. *)
Definition idle_robot (T : Type) {num : PyNumber T} : small_robot T :=
  {| joints := zeros; ticks := 0; draws := []; breaks_after := None |}.

(** The same robot, except that its backend stops after two steps. *)
Definition frail_robot (T : Type) {num : PyNumber T} : small_robot T :=
  {| joints := zeros; ticks := 0; draws := []; breaks_after := Some 2 |}.

(** The small platform in binary64, with the Euclidean distance. *)
Definition binary64_platform : Platform float :=
  small_platform euclidean (idle_robot float).

Definition frail_platform : Platform float :=
  small_platform euclidean (frail_robot float).

(** The small platform in exact arithmetic.  The Euclidean distance needs a
    square root, which the rationals lack; the sum of absolute differences
    stands in for it. *)
Definition exact_platform : Platform Q :=
  small_platform manhattan (idle_robot Q).

(** [{"num_episodes": .., "start_after": .., "stop_after": .., "final_alpha": ..}] *)
Definition plain_params {T : Type} (num_episodes start_after stop_after final_alpha : T)
  : gmap string T :=
  <["num_episodes" := num_episodes]>
    (<["start_after" := start_after]>
      (<["stop_after" := stop_after]>
        (<["final_alpha" := final_alpha]> ∅))).

(** [{"is_test": True, "final_alpha": ..}] *)
Definition test_params {T : Type} {num : PyNumber T} (final_alpha : T) : gmap string T :=
  <["is_test" := num_of_Z 1]> (<["final_alpha" := final_alpha]> ∅).

(** ** More vocabulary: robot runs, episodes and programs *)

Section Robot_runs.
Context {T : Type} {num : PyNumber T} {platform : Platform T}.

(** The exception of the first robot call that raises in [n] steps with the
    action, if any does. *)
Fixpoint robot_failure (n : nat) (finger_action : list T) (r : robot)
  : option exception :=
  match n with
  | O => None
  | S n =>
      match append_desired_action finger_action r with
      | (Ok t, r) =>
          match get_observation t r with
          | (Ok _, r) => robot_failure n finger_action r
          | (Raise e, _) => Some e
          end
      | (Raise e, _) => Some e
      end
  end.

(** The robot after the calls of [n] steps with the action, up to and
    including the first call that raises. *)
Fixpoint robot_after (n : nat) (finger_action : list T) (r : robot) : robot :=
  match n with
  | O => r
  | S n =>
      match append_desired_action finger_action r with
      | (Ok t, r) =>
          match get_observation t r with
          | (Ok _, r) => robot_after n finger_action r
          | (Raise _, r) => r
          end
      | (Raise _, r) => r
      end
  end.

(** The observation that the control loop leaves in [self.observation]. *)
Definition kept_observation (self : TriFingerReach)
    (obs : list (Observation T)) : option (Observation T) :=
  if synchronize self
  then match last obs with
       | Some o => Some o
       | None => observation self
       end
  else observation self.

(** The trace after a control loop that started without a state. *)
Definition trace_after (self : TriFingerReach) (obs : list (Observation T))
  : list (event T) :=
  match obs with
  | o :: _ =>
      Logger_append (position o) (concat (forward_kinematics (position o)))
        :: trace self
  | [] => trace self
  end.

(** A program that uses the object: calls of [reset] and [step], whether
    they return or raise. *)
Inductive call :=
  | Call_reset
  | Call_step (action : list T).

Fixpoint run (calls : list call) (self : TriFingerReach) : TriFingerReach :=
  match calls with
  | [] => self
  | Call_reset :: calls => run calls (reset self).2
  | Call_step action :: calls => run calls (step action self).2
  end.

Definition is_reset (c : call) : bool :=
  match c with
  | Call_reset => true
  | Call_step _ => false
  end.

Definition count_resets (calls : list call) : Z :=
  Z.of_nat (length (List.filter is_reset calls)).

End Robot_runs.

Arguments call T : clear implicits.


Section Engine_states.
Import CollisionObjects.
Context {V : Type}.

(** The three constructors of collision objects with a body. *)
Inductive constructor :=
  | New_Cuboid (position orientation half_extents : list V) (mass : V)
      (color_rgba : option (list V))
  | New_Cube (position orientation : list V) (half_width mass : V)
      (color_rgba : option (list V))
  | New_ColoredCubeV2 (position orientation : list V).

Definition construct (c : constructor) (pybullet_client_id : Z) (p : pybullet V)
  : pyresult unit * BaseCollisionObject * pybullet V :=
  match c with
  | New_Cuboid position orientation half_extents mass color_rgba =>
      Cuboid position orientation half_extents mass color_rgba pybullet_client_id p
  | New_Cube position orientation half_width mass color_rgba =>
      Cube position orientation half_width mass color_rgba pybullet_client_id p
  | New_ColoredCubeV2 position orientation =>
      ColoredCubeV2 position orientation pybullet_client_id p
  end.

(** The engine calls of a constructor that returns, latest first; [body]
    is the identifier of the body that the engine creates. *)
Definition engine_calls (c : constructor) (body client : Z) : list api_call :=
  match c with
  | New_Cuboid _ _ _ _ color_rgba | New_Cube _ _ _ _ color_rgba =>
      Call_changeDynamics body client :: Call_createMultiBody client
      :: match color_rgba with
         | Some _ => [Call_createVisualShape client]
         | None => []
         end
      ++ [Call_createCollisionShape client]
  | New_ColoredCubeV2 _ _ => [Call_loadURDF client]
  end.

End Engine_states.

Arguments constructor V : clear implicits.

(** A connected engine without bodies. *)
Definition empty_world : CollisionObjects.pybullet Q :=
  {| CollisionObjects.connected := {[ 0 ]}; CollisionObjects.bodies := ∅;
     CollisionObjects.next_body := ∅;
     CollisionObjects.next_collision_shape := ∅;
     CollisionObjects.next_visual_shape := ∅;
     CollisionObjects.normalised := fun orientation => orientation;
     CollisionObjects.calls := [] |}.

(** * Proofs *)
(** ** Running a method *)

(** Reads attributes through assignments. *)
Ltac fields :=
  cbn [finger num_fingers steps_per_control observations_keys observations_sizes
       spaces unscaled_observation_space unscaled_action_space
       smoothing_start_episode smoothing_alpha smoothing_increase_step
       smoothing_stop_episode smoothed_action episode_count enable_visualization
       synchronize next_start_time observation goal trace
       assign set_finger set_smoothing_alpha set_smoothed_action set_episode_count
       set_next_start_time set_observation set_goal set_trace fst snd].

Section Running.
Context {T : Type} {num : PyNumber T} {platform : Platform T}.
Local Open Scope method_scope.

Lemma bind_ok {A B} (m : method A) (k : A -> method B) self a self' :
  m self = (Ok a, self') -> bind m k self = k a self'.
Proof. unfold bind. intros ->. reflexivity. Qed.

Lemma update_smoothing_runs self :
  update_smoothing self =
    (let alpha :=
       if (smoothing_start_episode self <=? episode_count self)
          && below (episode_count self) (smoothing_stop_episode self)
       then num_add (smoothing_alpha self) (smoothing_increase_step self)
       else smoothing_alpha self in
     (Ok tt,
      set_trace (Print_smoothing (episode_count self) alpha :: trace self)
        (set_smoothing_alpha alpha self))).
Proof.
  unfold update_smoothing, bind, getattr, setattr, emit, ret.
  destruct (_ && _); reflexivity.
Qed.
End Running.

Section Observing.
Context {T : Type} {num : PyNumber T} {platform : Platform T}.
Local Open Scope method_scope.

Lemma _get_state_runs obs action log_observation self :
  well_formed self ->
  _get_state obs action log_observation self =
    (Ok (flat_state (goal self) obs action), logged log_observation obs self).
Proof.
  intros [Hkeys _].
  unfold _get_state, logged, bind, getattr, lift, emit, setattr, ret.
  assert (Hk : forall tr, observations_keys (set_trace tr self) = observations_keys self)
    by reflexivity.
  destruct log_observation; rewrite ?Hk, Hkeys; unfold flat_state; cbn;
    unfold dict_get;
    repeat (rewrite lookup_insert_eq || rewrite lookup_insert_ne by done); cbn;
    rewrite app_nil_r; reflexivity.
Qed.

Lemma _compute_reward_runs s g self idx :
  key_to_index (spaces self) !! "joint_positions" = Some idx ->
  _compute_reward (Some s) g self =
    (Ok (num_mul (num_opp (compute_distance (forward_kinematics (slice idx s)) g))
           (num_of_Z (steps_per_control self)),
         false),
     self).
Proof.
  intros Hidx.
  unfold _compute_reward, bind, getattr, lift, ret, dict_get.
  rewrite Hidx. reflexivity.
Qed.

Lemma _compute_reward_none g self :
  is_ok (_compute_reward None g self).1 = false.
Proof.
  unfold _compute_reward, bind, getattr, lift, ret.
  destruct (dict_get _ _); reflexivity.
Qed.

Lemma _compute_reward_done o g self reward done :
  (_compute_reward o g self).1 = Ok (reward, done) -> done = false.
Proof.
  unfold _compute_reward, bind, getattr, lift, ret.
  destruct (dict_get _ _); [|discriminate].
  destruct (the o); [|discriminate].
  cbn. congruence.
Qed.

Lemma slice_joint_positions n (obs : Observation T) g action :
  length (position obs) = n ->
  slice (0, n)%nat (flat_state g obs action) = position obs.
Proof.
  intros <-. unfold slice, flat_state. cbn.
  rewrite Nat.sub_0_r. apply take_app_length.
Qed.
End Observing.

Section Frames.
Context {T : Type} {num : PyNumber T} {platform : Platform T}.
Local Open Scope method_scope.

Context {X : Type} (f : TriFingerReach -> X).

Lemma preserves_ret {A} (a : A) : preserves f (ret a).
Proof. intros self. reflexivity. Qed.

Lemma preserves_getattr {A} (g : TriFingerReach -> A) : preserves f (getattr g).
Proof. intros self. reflexivity. Qed.

Lemma preserves_lift {A} (r : pyresult A) : preserves f (lift r).
Proof. intros self. reflexivity. Qed.

Lemma preserves_bind {A B} (m : method A) (k : A -> method B) :
  preserves f m -> (forall a, preserves f (k a)) -> preserves f (bind m k).
Proof.
  intros Hm Hk self. unfold bind.
  specialize (Hm self). destruct (m self) as [[a|e] self']; cbn in *.
  - rewrite Hk. exact Hm.
  - exact Hm.
Qed.

Lemma preserves_try body : preserves f body -> preserves f (try_except_pass body).
Proof.
  intros Hm self. unfold try_except_pass.
  specialize (Hm self). destruct (body self) as [[a|e] self']; exact Hm.
Qed.

Lemma preserves_setattr g :
  (forall self, f (g self) = f self) -> preserves f (setattr g).
Proof. intros Hg self. apply Hg. Qed.

Lemma preserves_call_finger {A} (op : robot -> pyresult A * robot) :
  (forall r self, f (set_finger r self) = f self) -> preserves f (call_finger op).
Proof.
  intros Hg self. unfold call_finger.
  destruct (op (finger self)) as [r fi]. apply Hg.
Qed.

Lemma preserves_call_finger_total {A} (op : robot -> A * robot) :
  (forall r self, f (set_finger r self) = f self) ->
  preserves f (call_finger_total op).
Proof.
  intros Hg self. unfold call_finger_total.
  destruct (op (finger self)) as [r fi]. apply Hg.
Qed.

Lemma preserves_emit ev :
  (forall tr self, f (set_trace tr self) = f self) -> preserves f (emit ev).
Proof. intros Hg self. apply Hg. Qed.

End Frames.

(** Splits a method along its binds, branches included. *)
Ltac frame_step :=
  lazymatch goal with
  | |- preserves _ (bind _ _) => apply preserves_bind
  | |- preserves _ (ret _) => apply preserves_ret
  | |- preserves _ (getattr _) => apply preserves_getattr
  | |- preserves _ (lift _) => apply preserves_lift
  | |- preserves _ (try_except_pass _) => apply preserves_try
  | |- preserves _ (emit _) => apply preserves_emit
  | |- preserves _ (setattr _) => apply preserves_setattr
  | |- preserves _ (call_finger _) => apply preserves_call_finger
  | |- preserves _ (call_finger_total _) => apply preserves_call_finger_total
  | |- preserves _ (match ?x with _ => _ end) => destruct x
  | |- forall _, _ => intro
  end.

Ltac frame := repeat frame_step; try reflexivity; auto.

Section Frames_of_methods.
Context {T : Type} {num : PyNumber T} {platform : Platform T}.
Local Open Scope method_scope.

Lemma configuration_ignores_robot : ignores_robot configuration.
Proof. repeat split. Qed.

Lemma freeze_in_place_preserves {X} (f : TriFingerReach -> X) :
  ignores_robot f -> preserves f freeze_in_place.
Proof. intros (Hf & Ho & Ht). unfold freeze_in_place. frame. Qed.

Lemma _get_state_preserves {X} (f : TriFingerReach -> X) obs action log_observation :
  ignores_robot f -> preserves f (_get_state obs action log_observation).
Proof. intros (Hf & Ho & Ht). unfold _get_state. frame. Qed.

Lemma _compute_reward_preserves {X} (f : TriFingerReach -> X) o g :
  preserves f (_compute_reward o g).
Proof. unfold _compute_reward. frame. Qed.

Lemma control_loop_preserves {X} (f : TriFingerReach -> X) n finger_action state :
  ignores_robot f -> preserves f (control_loop n finger_action state).
Proof.
  intros Hf. revert state. induction n as [|n IH]; intros state; cbn.
  - apply preserves_ret.
  - pose proof (_get_state_preserves f) as Hg.
    destruct Hf as (Hf & Ho & Ht). frame; auto. apply Hg. repeat split; auto.
Qed.

Lemma update_smoothing_configuration : preserves configuration update_smoothing.
Proof. unfold update_smoothing. frame. Qed.

Lemma reset_configuration : preserves configuration reset.
Proof.
  pose proof (freeze_in_place_preserves configuration configuration_ignores_robot).
  pose proof update_smoothing_configuration.
  pose proof (fun o a l =>
    _get_state_preserves configuration o a l configuration_ignores_robot).
  unfold reset. frame.
Qed.

Lemma step_configuration action : preserves configuration (step action).
Proof.
  pose proof (fun n a s =>
    control_loop_preserves configuration n a s configuration_ignores_robot).
  pose proof (_compute_reward_preserves configuration).
  unfold step. frame.
Qed.

Lemma schedule_ignores_robot : ignores_robot schedule.
Proof. repeat split. Qed.

Lemma step_schedule action : preserves schedule (step action).
Proof.
  pose proof (fun n a s =>
    control_loop_preserves schedule n a s schedule_ignores_robot).
  pose proof (_compute_reward_preserves schedule).
  unfold step. frame.
Qed.

End Frames_of_methods.

Section Stepping.
Context {T : Type} {num : PyNumber T} {platform : Platform T}.
Local Open Scope method_scope.

Lemma call_finger_ok {A} (op : robot -> pyresult A * robot) self a r :
  op (finger self) = (Ok a, r) -> call_finger op self = (Ok a, set_finger r self).
Proof. unfold call_finger. intros ->. reflexivity. Qed.

Lemma well_formed_ignores_robot self self' :
  configuration self' = configuration self -> well_formed self -> well_formed self'.
Proof.
  unfold configuration, well_formed. intros Hc [Hk Hi].
  injection Hc as Hn _ Hkeys _ Hsp _ _ _ _ _ _ _.
  rewrite Hkeys, Hsp, Hn. auto.
Qed.

Lemma control_loop_runs n finger_action sa state self :
  well_formed self ->
  smoothed_action self = Some sa ->
  robot_answers n finger_action (finger self) = true ->
  (control_loop n finger_action state self).1 =
    Ok (match state with
        | Some s => Some s
        | None =>
            first_state (goal self) sa
              (substep_observations n finger_action (finger self))
        end).
Proof.
  revert state self. induction n as [|n IH]; intros state self Hwf Hsa Hrobot.
  - cbn. destruct state; reflexivity.
  - cbn in Hrobot. cbn [substep_observations control_loop].
    destruct (append_desired_action finger_action (finger self))
      as [[t|?] r1] eqn:Happend; [|discriminate].
    destruct (get_observation t r1) as [[o|?] r2] eqn:Hobserve; [|discriminate].
    erewrite bind_ok by (apply call_finger_ok; exact Happend).
    erewrite bind_ok by (apply call_finger_ok; exact Hobserve).
    set (self1 := set_finger r2 (set_finger r1 self)).
    assert (Hwf1 : well_formed self1) by exact Hwf.
    destruct state as [s|].
    + unfold bind at 1, ret at 1.
      unfold bind at 1, getattr at 1.
      destruct (synchronize self1).
      * unfold bind at 1, setattr at 1. rewrite IH; auto.
      * unfold bind at 1, ret at 1. rewrite IH; auto.
    + unfold bind at 1. unfold bind at 1, getattr at 1.
      change (smoothed_action self1) with (smoothed_action self). rewrite Hsa.
      unfold bind at 1, lift at 1, the.
      unfold bind at 1. rewrite (_get_state_runs o sa true self1 Hwf1).
      unfold ret at 1.
      unfold bind at 1, getattr at 1.
      change (synchronize (logged true o self1)) with (synchronize self).
      destruct (synchronize self).
      * unfold bind at 1, setattr at 1. rewrite IH; auto.
      * unfold bind at 1, ret at 1. rewrite IH; auto.
Qed.

End Stepping.

Section Stepping_more.
Context {T : Type} {num : PyNumber T} {platform : Platform T}.
Local Open Scope method_scope.

Lemma robot_answers_observations n finger_action r :
  robot_answers n finger_action r = true ->
  length (substep_observations n finger_action r) = n.
Proof.
  revert r. induction n as [|n IH]; intros r Hr; cbn in *; [reflexivity|].
  destruct (append_desired_action finger_action r) as [[t|?] r1]; [|discriminate].
  destruct (get_observation t r1) as [[o|?] r2]; [|discriminate].
  cbn. rewrite IH; auto.
Qed.

(** [step] up to its control loop, and from there on. *)
Lemma step_unfolds action self :
  step action self =
    bind (control_loop (Z.to_nat (steps_per_control self)) (smoothed self action) None)
      (fun state =>
         g <- getattr goal;;
         rd <- _compute_reward state g;;
         s <- lift (the state);;
         obs_space <- getattr unscaled_observation_space;;
         ret (scale s obs_space, rd.1, rd.2, info_of rd.2))
      (smoothing_done action self).
Proof.
  unfold step, smoothing_done, smoothed.
  cbv [bind getattr setattr lift ret].
  destruct (smoothed_action self) as [previous|] eqn:Hsa; cbn; rewrite ?Hsa; reflexivity.
Qed.

Lemma step_runs action self :
  well_formed self ->
  (0 < steps_per_control self)%Z ->
  robot_answers (Z.to_nat (steps_per_control self)) (smoothed self action)
    (finger self) = true ->
  exists o rest,
    substep_observations (Z.to_nat (steps_per_control self)) (smoothed self action)
      (finger self) = o :: rest
    /\ let s := flat_state (goal self) o (smoothed self action) in
       (step action self).1 =
         Ok (scale s (unscaled_observation_space self),
             num_mul
               (num_opp (compute_distance
                  (forward_kinematics (slice (0, 3 * num_fingers self)%nat s))
                  (goal self)))
               (num_of_Z (steps_per_control self)),
             false, info_of false).
Proof.
  intros Hwf Hpos Hrobot.
  pose proof (robot_answers_observations _ _ _ Hrobot) as Hlen.
  destruct (substep_observations _ _ _) as [|o rest] eqn:Hobs; [cbn in Hlen; lia|].
  exists o, rest. split; [reflexivity|]. cbn zeta.
  rewrite step_unfolds.
  set (self0 := smoothing_done action self).
  assert (Hwf0 : well_formed self0) by exact Hwf.
  pose proof (control_loop_runs (Z.to_nat (steps_per_control self))
                (smoothed self action) (smoothed self action) None self0
                Hwf0 eq_refl Hrobot) as Hrun.
  pose proof (control_loop_preserves configuration
                (Z.to_nat (steps_per_control self)) (smoothed self action) None
                configuration_ignores_robot self0) as Hconf.
  pose proof (control_loop_preserves schedule
                (Z.to_nat (steps_per_control self)) (smoothed self action) None
                schedule_ignores_robot self0) as Hsched.
  change (finger self0) with (finger self) in Hrun. rewrite Hobs in Hrun.
  unfold bind at 1.
  destruct (control_loop _ _ _ self0) as [r self1]. cbn [fst snd] in *.
  subst r.
  assert (Hwf1 : well_formed self1)
    by (eapply well_formed_ignores_robot; [exact Hconf|exact Hwf0]).
  unfold configuration in Hconf. unfold schedule in Hsched.
  injection Hconf as Hn Hsteps _ _ _ Hos _ _ _ _ _ _.
  injection Hsched as _ _ _ Hgoal.
  change (goal self0) with (goal self) in *.
  change (num_fingers self0) with (num_fingers self) in *.
  change (steps_per_control self0) with (steps_per_control self) in *.
  change (unscaled_observation_space self0) with (unscaled_observation_space self) in *.
  unfold bind at 1, getattr at 1. rewrite Hgoal.
  destruct Hwf1 as [_ Hidx].
  unfold bind at 1. cbn [first_state].
  rewrite (_compute_reward_runs _ _ _ _ Hidx).
  unfold bind at 1, lift at 1, the.
  unfold bind at 1, getattr at 1, ret.
  rewrite Hos, Hn, Hsteps. reflexivity.
Qed.

(** Whenever [step] returns, the flag is [False] and [is_success] is 0. *)
Lemma step_done action self o reward done info :
  (step action self).1 = Ok (o, reward, done, info) ->
  done = false /\ info = info_of false.
Proof.
  rewrite step_unfolds. unfold bind at 1.
  destruct (control_loop _ _ _ _) as [[state|?] self1]; [|discriminate].
  unfold bind at 1, getattr at 1. unfold bind at 1.
  pose proof (_compute_reward_done state (goal self1) self1) as Hdone.
  destruct (_compute_reward state (goal self1) self1) as [[[r d]|?] self2];
    [|discriminate].
  specialize (Hdone r d eq_refl). subst d.
  unfold bind at 1, lift at 1.
  destruct (the state); [|discriminate].
  cbn. intros [= <- <- <- <-]. auto.
Qed.

(** With no substep, [step] raises. *)
Lemma step_without_substeps action self :
  (steps_per_control self <= 0)%Z -> is_ok (step action self).1 = false.
Proof.
  intros Hn. rewrite step_unfolds.
  replace (Z.to_nat (steps_per_control self)) with O by lia.
  cbn [control_loop]. unfold bind at 1, ret at 1.
  unfold bind at 1, getattr at 1. unfold bind at 1.
  pose proof (_compute_reward_none (goal (smoothing_done action self))
                (smoothing_done action self)) as Hnone.
  destruct (_compute_reward None _ _) as [[?|?] ?]; [discriminate|reflexivity].
Qed.

End Stepping_more.

Section Resetting.
Context {T : Type} {num : PyNumber T} {platform : Platform T}.
Local Open Scope method_scope.

Lemma freeze_in_place_shape self :
  exists r, (freeze_in_place self).2 = set_finger r self.
Proof.
  unfold freeze_in_place.
  unfold bind at 1, getattr at 1. unfold bind at 1, lift at 1.
  destruct (observation self) as [obs|].
  - unfold bind at 1, call_finger at 1.
    destruct (append_desired_action _ _) as [[t|?] r1].
    + unfold bind at 1, call_finger at 1. cbn [finger set_finger assign].
      destruct (get_observation _ _) as [[?|?] r2]; exists r2; reflexivity.
    + exists r1. reflexivity.
  - exists (finger self). destruct self; reflexivity.
Qed.

Lemma reset_unfolds self :
  reset self = bind synchronise_start (fun _ => reset_episode) self.
Proof. reflexivity. Qed.

Lemma synchronise_start_shape self :
  exists r,
    synchronise_start self =
      (Ok tt,
       assign self r (smoothing_alpha self) (smoothed_action self)
         (episode_count self) (following_start_time self) (observation self)
         (goal self) (synchronisation_events self ++ trace self)).
Proof.
  unfold synchronise_start, synchronisation_events, following_start_time.
  unfold bind at 1, getattr at 1.
  destruct (next_start_time self) as [t|] eqn:Hnst.
  - destruct (freeze_in_place_shape self) as [r0 Hr0]. exists r0.
    unfold bind at 1, try_except_pass.
    destruct (freeze_in_place self) as [[?|?] s1]; cbn [snd] in Hr0; subst s1;
      reflexivity.
  - exists (finger self). unfold ret. f_equal. destruct self; cbn in *.
    rewrite Hnst. reflexivity.
Qed.

Lemma reset_episode_shape self :
  well_formed self ->
  exists obs r g later,
    reset_episode self =
      (Ok obs,
       assign self r (next_alpha self) None (episode_count self + 1)
         (next_start_time self) (observation self) g (later ++ trace self)).
Proof.
  intros Hwf. unfold reset_episode.
  unfold bind at 1. rewrite update_smoothing_runs. cbn zeta.
  fold (next_alpha self).
  cbv [bind getattr setattr ret call_finger_total emit].
  fields.
  destruct (feasible_random_joint_positions_for_reaching _ _) as [action r1].
  destruct (reset_finger_positions_and_velocities _ _) as [obs r2].
  destruct (feasible_random_joint_positions_for_reaching _ _) as [target r3].
  set (g := forward_kinematics target).
  fields.
  destruct (enable_visualization self) eqn:Hvis.
  - exists (scale (flat_state g obs action) (unscaled_observation_space self)),
      r3, g,
      [Logger_new_episode target g; Marker_set_state g;
       Print_smoothing (episode_count self) (next_alpha self)].
    match goal with
    | |- context [_get_state obs action false ?s] =>
        rewrite (_get_state_runs obs action false s Hwf)
    end.
    reflexivity.
  - exists (scale (flat_state g obs action) (unscaled_observation_space self)),
      r3, g,
      [Logger_new_episode target g;
       Print_smoothing (episode_count self) (next_alpha self)].
    match goal with
    | |- context [_get_state obs action false ?s] =>
        rewrite (_get_state_runs obs action false s Hwf)
    end.
    reflexivity.
Qed.

Lemma reset_shape self :
  well_formed self ->
  exists obs r g later,
    reset self =
      (Ok obs,
       assign self r (next_alpha self) None (episode_count self + 1)
         (following_start_time self) (observation self) g
         (later ++ synchronisation_events self ++ trace self)).
Proof.
  intros Hwf. rewrite reset_unfolds.
  destruct (synchronise_start_shape self) as [r0 Hsync].
  unfold bind at 1. rewrite Hsync.
  set (self1 := assign self r0 _ _ _ _ _ _ _).
  destruct (reset_episode_shape self1 Hwf) as (obs & r & g & later & ->).
  exists obs, r, g, later. reflexivity.
Qed.

End Resetting.

Section Constructing.
Context {T : Type} {num : PyNumber T} {platform : Platform T}.
Local Open Scope method_scope.

Lemma pyresult_bind_ok {A B} (r : pyresult A) (k : A -> pyresult B) b :
  pyresult_bind r k = Ok b -> exists a, r = Ok a /\ k a = Ok b.
Proof. destruct r as [a|e]; cbn; [eauto|discriminate]. Qed.

(** What a constructor call that returned has gone through. *)
Lemma init_returns control_rate_s finger_type visualization smoothing_params
    use_real_robot finger_config_suffix sync now self :
  __init__ control_rate_s finger_type visualization smoothing_params
    use_real_robot finger_config_suffix sync now = Ok self ->
  exists pre first,
    derive_steps_per_control control_rate_s
      (time_step_s
         (if use_real_robot
          then RealFinger finger_type finger_config_suffix visualization
          else SimFinger finger_type visualization))
      = Ok (steps_per_control pre)
    /\ smoothing_setup smoothing_params
       = Ok (smoothing_start_episode pre, smoothing_alpha pre,
             smoothing_increase_step pre, smoothing_stop_episode pre)
    /\ well_formed pre
    /\ episode_count pre = 0
    /\ trace pre = []
    /\ reset pre = (Ok first, self).
Proof.
  unfold __init__. intros Hinit.
  apply pyresult_bind_ok in Hinit as (steps & Hsteps & Hinit).
  apply pyresult_bind_ok in Hinit as (smoothing & Hsmoothing & Hinit).
  apply pyresult_bind_ok in Hinit as (nst & Hnst & Hinit).
  match type of Hinit with
  | match reset ?p with _ => _ end = _ => set (pre := p) in *
  end.
  destruct (reset pre) as [[first|e] self'] eqn:Hreset; [|discriminate].
  injection Hinit as ->.
  exists pre, first. split; [exact Hsteps|].
  split; [destruct smoothing as [[[? ?] ?] ?]; exact Hsmoothing|].
  repeat split; auto.
Qed.

Lemma reachable_well_formed smoothing_params self :
  reachable smoothing_params self -> well_formed self.
Proof.
  induction 1 as [? ? ? ? ? ? ? self Hinit|self _ IH|action self _ IH].
  - apply init_returns in Hinit as (pre & first & _ & _ & Hwf & _ & _ & Hreset).
    eapply well_formed_ignores_robot; [|exact Hwf].
    pose proof (reset_configuration pre) as Hc. rewrite Hreset in Hc. exact Hc.
  - eapply well_formed_ignores_robot; [apply reset_configuration|exact IH].
  - eapply well_formed_ignores_robot; [apply step_configuration|exact IH].
Qed.

Lemma reset_returns self :
  well_formed self -> is_ok (reset self).1 = true.
Proof.
  intros Hwf. destruct (reset_shape self Hwf) as (? & ? & ? & ? & ->). reflexivity.
Qed.

Lemma reset_smoothing_alpha self :
  well_formed self -> smoothing_alpha (reset self).2 = next_alpha self.
Proof.
  intros Hwf. destruct (reset_shape self Hwf) as (? & ? & ? & ? & ->). reflexivity.
Qed.

Lemma reset_episode_count self :
  well_formed self -> episode_count (reset self).2 = episode_count self + 1.
Proof.
  intros Hwf. destruct (reset_shape self Hwf) as (? & ? & ? & ? & ->). reflexivity.
Qed.

Lemma reset_smoothed_action self :
  well_formed self -> smoothed_action (reset self).2 = None.
Proof.
  intros Hwf. destruct (reset_shape self Hwf) as (? & ? & ? & ? & ->). reflexivity.
Qed.

(** The schedule of an object in use is the one that the constructor
    derived, and the object has seen at least the reset of the
    constructor. *)
Lemma reachable_schedule smoothing_params self :
  reachable smoothing_params self ->
  (exists alpha0,
     smoothing_setup smoothing_params
     = Ok (smoothing_start_episode self, alpha0,
           smoothing_increase_step self, smoothing_stop_episode self))
  /\ 1 <= episode_count self.
Proof.
  induction 1 as [? ? ? ? ? ? ? self Hinit|self Hr IH|action self Hr IH].
  - apply init_returns in Hinit
      as (pre & first & _ & Hsetup & Hwf & Hcount & _ & Hreset).
    pose proof (reset_configuration pre) as Hc.
    pose proof (reset_episode_count pre Hwf) as He.
    rewrite Hreset in Hc, He. cbn [snd] in Hc, He.
    unfold configuration in Hc. injection Hc as _ _ _ _ _ _ _ -> -> -> _ _.
    split; [eauto|lia].
  - apply reachable_well_formed in Hr as Hwf.
    pose proof (reset_configuration self) as Hc.
    rewrite (reset_episode_count self Hwf).
    unfold configuration in Hc. injection Hc as _ _ _ _ _ _ _ -> -> -> _ _.
    split; [tauto|lia].
  - pose proof (step_configuration action self) as Hc.
    pose proof (step_schedule action self) as Hs.
    unfold configuration in Hc. injection Hc as _ _ _ _ _ _ _ -> -> -> _ _.
    unfold schedule in Hs. injection Hs as _ -> _ _.
    exact IH.
Qed.

(** The schedule that [smoothing_params] without ["is_test"] gives. *)
Lemma smoothing_setup_plain smoothing_params start alpha0 increase stop :
  smoothing_params !! "is_test" = None ->
  smoothing_setup smoothing_params = Ok (start, alpha0, increase, stop) ->
  exists num_episodes stop_after start_after final_alpha n,
    smoothing_params !! "num_episodes" = Some num_episodes
    /\ smoothing_params !! "stop_after" = Some stop_after
    /\ smoothing_params !! "start_after" = Some start_after
    /\ smoothing_params !! "final_alpha" = Some final_alpha
    /\ py_int (num_mul num_episodes stop_after) = Ok n
    /\ py_int (num_mul num_episodes start_after) = Ok start
    /\ stop = Finite n
    /\ alpha0 = num_of_Z 0
    /\ n - start <> 0
    /\ increase = num_div final_alpha (num_of_Z (n - start)).
Proof.
  intros Htest. unfold smoothing_setup. rewrite Htest.
  rewrite bool_decide_eq_false_2 by (intros [? ?]; discriminate).
  unfold dict_get, py_truediv_int.
  destruct (smoothing_params !! "num_episodes") as [ne|]; [|discriminate].
  destruct (smoothing_params !! "stop_after") as [sa|]; [|discriminate].
  cbn [pyresult_bind].
  destruct (py_int (num_mul ne sa)) as [n|] eqn:Hstop; [|discriminate].
  destruct (smoothing_params !! "start_after") as [st|]; [|discriminate].
  cbn [pyresult_bind].
  destruct (py_int (num_mul ne st)) as [m|] eqn:Hstart; [|discriminate].
  destruct (smoothing_params !! "final_alpha") as [fa|]; [|discriminate].
  cbn [pyresult_bind].
  destruct (Z.eqb_spec (n - m) 0) as [|Hn]; [discriminate|].
  cbn. intros [= <- <- <- <-].
  exists ne, sa, st, fa, n. repeat split; auto.
Qed.

End Constructing.

(** ** Binary64: adding what is not negative *)

(** From the specification of the primitive floats ([SpecFloat], and the
    axioms that tie the primitive operations to it). *)

Section Binary64.

Lemma digits2_pos_bounds (m : positive) :
  2 ^ (Z.pos (digits2_pos m) - 1) <= Z.pos m < 2 ^ Z.pos (digits2_pos m).
Proof.
  induction m as [m IH|m IH|]; cbn [digits2_pos].
  - rewrite Pos2Z.inj_succ.
    replace (Z.succ (Z.pos (digits2_pos m)) - 1) with (Z.succ (Z.pos (digits2_pos m) - 1))
      by lia.
    rewrite !Z.pow_succ_r by lia. lia.
  - rewrite Pos2Z.inj_succ.
    replace (Z.succ (Z.pos (digits2_pos m)) - 1) with (Z.succ (Z.pos (digits2_pos m) - 1))
      by lia.
    rewrite !Z.pow_succ_r by lia. lia.
  - cbn. lia.
Qed.

(** A mantissa that is at least [m * 2 ^ k] has at least [k] more digits. *)
Lemma digits2_pos_shifted (m big : positive) (k : Z) :
  0 <= k -> Z.pos m * 2 ^ k <= Z.pos big ->
  Z.pos (digits2_pos m) + k <= Z.pos (digits2_pos big).
Proof.
  intros Hk Hle.
  pose proof (digits2_pos_bounds m) as [Hm _].
  pose proof (digits2_pos_bounds big) as [_ Hb].
  assert (Hpow : 2 ^ (Z.pos (digits2_pos m) - 1 + k) < 2 ^ Z.pos (digits2_pos big)).
  { rewrite Z.pow_add_r by lia.
    eapply Z.le_lt_trans; [|exact Hb].
    eapply Z.le_trans; [|exact Hle].
    apply Z.mul_le_mono_nonneg_r; [apply Z.pow_nonneg; lia|exact Hm]. }
  apply Z.pow_lt_mono_r_iff in Hpow; lia.
Qed.

Lemma iter_xO (m d : positive) : Z.pos (Pos.iter xO m d) = Z.pos m * 2 ^ Z.pos d.
Proof.
  induction d as [|d IH] using Pos.peano_ind.
  - cbn. lia.
  - rewrite Pos.iter_succ, Pos2Z.inj_succ, Z.pow_succ_r by lia.
    rewrite Pos2Z.inj_xO, IH. lia.
Qed.

Lemma shl_align_below (mx : positive) (ex ez : Z) :
  ez <= ex ->
  Z.pos (fst (shl_align mx ex ez)) = Z.pos mx * 2 ^ (ex - ez).
Proof.
  intros Hle. unfold shl_align.
  destruct (ez - ex) as [|d|d] eqn:Hd; cbn [fst]; try lia.
  - replace (ex - ez) with 0 by lia. lia.
  - rewrite iter_xO. f_equal. f_equal. lia.
Qed.

Lemma shr_1_m (mrs : shr_record) :
  0 <= shr_m mrs -> shr_m (shr_1 mrs) = shr_m mrs / 2.
Proof.
  destruct mrs as [m r s]. cbn [shr_m]. intros Hm.
  destruct m as [|[p|p|]|p]; cbn [shr_1 shr_m]; try lia.
  all: destruct (orb r s); cbn [shr_m]; try reflexivity.
  1,2: apply Z.div_unique with (r := 1); lia.
  all: apply Z.div_unique with (r := 0); lia.
Qed.

Lemma iter_shr_1_m (p : positive) (mrs : shr_record) :
  0 <= shr_m mrs ->
  shr_m (SpecFloat.iter_pos shr_1 p mrs) = shr_m mrs / 2 ^ Z.pos p.
Proof.
  revert mrs. induction p as [p IH|p IH|]; intros mrs Hm; cbn [SpecFloat.iter_pos].
  - assert (H1 : 0 <= shr_m (shr_1 mrs))
      by (rewrite shr_1_m by exact Hm; apply Z.div_pos; lia).
    assert (H2 : 0 <= shr_m (SpecFloat.iter_pos shr_1 p (shr_1 mrs)))
      by (rewrite IH by exact H1; apply Z.div_pos; [exact H1|apply Z.pow_pos_nonneg; lia]).
    rewrite IH by exact H2. rewrite IH by exact H1. rewrite shr_1_m by exact Hm.
    rewrite !Z.div_div by (try apply Z.pow_pos_nonneg; try apply Z.mul_pos_pos;
                           try apply Z.pow_pos_nonneg; lia).
    f_equal. replace (Z.pos p~1) with (Z.pos p + Z.pos p + 1) by lia.
    rewrite !Z.pow_add_r by lia. change (2 ^ 1) with 2. ring.
  - assert (H2 : 0 <= shr_m (SpecFloat.iter_pos shr_1 p mrs))
      by (rewrite IH by exact Hm; apply Z.div_pos; [exact Hm|apply Z.pow_pos_nonneg; lia]).
    rewrite IH by exact H2. rewrite IH by exact Hm.
    rewrite Z.div_div by (try apply Z.pow_pos_nonneg; lia).
    f_equal. replace (Z.pos p~0) with (Z.pos p + Z.pos p) by lia.
    rewrite !Z.pow_add_r by lia. reflexivity.
  - rewrite shr_1_m by exact Hm. reflexivity.
Qed.

(** Shifting a positive mantissa to its canonical exponent: what is left of
    the mantissa, which stays positive, and the exponent. *)
Lemma shr_fexp_positive (m : positive) (e : Z) (l : location) :
  SpecFloat.emin prec emax <= e ->
  let E := Z.max e (SpecFloat.fexp prec emax (Z.pos (digits2_pos m) + e)) in
  snd (shr_fexp prec emax (Z.pos m) e l) = E
  /\ shr_m (fst (shr_fexp prec emax (Z.pos m) e l)) = Z.pos m / 2 ^ (E - e)
  /\ 0 < Z.pos m / 2 ^ (E - e).
Proof.
  intros He E. subst E. unfold shr_fexp, shr. cbn [Zdigits2].
  set (d := Z.pos (digits2_pos m)).
  assert (Hd : 1 <= d) by (subst d; lia).
  pose proof (digits2_pos_bounds m) as [Hlow _]. fold d in Hlow.
  assert (Hm0 : 0 <= shr_m (shr_record_of_loc (Z.pos m) l))
    by (destruct l as [|[| |]]; cbn; lia).
  assert (Hm1 : shr_m (shr_record_of_loc (Z.pos m) l) = Z.pos m)
    by (destruct l as [|[| |]]; reflexivity).
  destruct (SpecFloat.fexp prec emax (d + e) - e) as [|k|k] eqn:Hk; cbn [fst snd].
  - replace (Z.max e (SpecFloat.fexp prec emax (d + e))) with e by lia.
    rewrite Z.sub_diag, Hm1, Z.pow_0_r, Z.div_1_r. repeat split; lia.
  - replace (Z.max e (SpecFloat.fexp prec emax (d + e))) with (e + Z.pos k) by lia.
    replace (e + Z.pos k - e) with (Z.pos k) by lia.
    rewrite iter_shr_1_m by exact Hm0. rewrite Hm1.
    split; [reflexivity|]. split; [reflexivity|].
    apply Z.div_str_pos. split; [apply Z.pow_pos_nonneg; lia|].
    eapply Z.le_trans; [|exact Hlow].
    apply Z.pow_le_mono_r; [lia|].
    unfold SpecFloat.fexp, SpecFloat.emin, prec, emax in *. lia.
  - replace (Z.max e (SpecFloat.fexp prec emax (d + e))) with e by lia.
    rewrite Z.sub_diag, Hm1, Z.pow_0_r, Z.div_1_r. repeat split; lia.
Qed.

Lemma round_nearest_even_above (m : Z) (l : location) :
  m <= round_nearest_even m l.
Proof.
  unfold round_nearest_even. destruct l as [|[| |]]; try lia.
  destruct (Z.even m); lia.
Qed.

(** Rounding a positive mantissa at an exponent that is not below [emin]
    gives a positive number (or the positive infinity), whose exponent is
    not below the canonical exponent [E] of the input, and whose mantissa,
    when the exponent is [E], is not below what the shift left of the
    input's. *)
Lemma binary_round_aux_positive (m : positive) (e : Z) (l : location) :
  SpecFloat.emin prec emax <= e ->
  let E := Z.max e (SpecFloat.fexp prec emax (Z.pos (digits2_pos m) + e)) in
  binary_round_aux prec emax false (Z.pos m) e l = S754_infinity false
  \/ exists mf ef,
       binary_round_aux prec emax false (Z.pos m) e l = S754_finite false mf ef
       /\ E <= ef
       /\ (ef = E -> Z.pos m / 2 ^ (E - e) <= Z.pos mf).
Proof.
  intros He E.
  destruct (shr_fexp_positive m e l He) as (He' & Hm' & Hpos). fold E in He', Hm', Hpos.
  unfold binary_round_aux.
  destruct (shr_fexp prec emax (Z.pos m) e l) as [mrs' e'] eqn:Hshift.
  cbn [fst snd] in He', Hm'. subst e'.
  pose proof (round_nearest_even_above (shr_m mrs') (loc_of_shr_record mrs')) as Hround.
  rewrite Hm' in Hround at 1.
  destruct (round_nearest_even (shr_m mrs') (loc_of_shr_record mrs')) as [|m2|m2] eqn:Hr;
    try lia.
  assert (HE : SpecFloat.emin prec emax <= E) by (subst E; lia).
  destruct (shr_fexp_positive m2 E loc_Exact HE) as (He2 & Hm2 & Hpos2).
  destruct (shr_fexp prec emax (Z.pos m2) E loc_Exact) as [mrs2 e2] eqn:Hshift2.
  cbn [fst snd] in He2, Hm2.
  destruct (shr_m mrs2) as [|mf|mf] eqn:Hmf; try lia.
  destruct (e2 <=? emax - prec); [|left; reflexivity].
  right. exists mf, e2. split; [reflexivity|]. split; [lia|].
  intros Heq. rewrite Hm2.
  rewrite <- He2, Heq, Z.sub_diag, Z.pow_0_r, Z.div_1_r. exact Hround.
Qed.

Lemma canonical_exponent (m : positive) (e : Z) :
  bounded prec emax m e = true ->
  SpecFloat.fexp prec emax (Z.pos (digits2_pos m) + e) = e /\ SpecFloat.emin prec emax <= e.
Proof.
  unfold bounded, canonical_mantissa. intros H.
  apply andb_prop in H as [H _]. apply Z.eqb_eq in H.
  split; [exact H|]. unfold SpecFloat.fexp in H. lia.
Qed.

Lemma SFleb_refl_finite (m : positive) (e : Z) :
  SFleb (S754_finite false m e) (S754_finite false m e) = true.
Proof.
  unfold SFleb, SFcompare. rewrite Z.compare_refl, Pos.compare_cont_refl. reflexivity.
Qed.

(** The sum of two positive binary64 numbers is not below the first. *)
Lemma SF64add_positive (m1 : positive) (e1 : Z) (m2 : positive) (e2 : Z) :
  bounded prec emax m1 e1 = true ->
  bounded prec emax m2 e2 = true ->
  let sum := SF64add (S754_finite false m1 e1) (S754_finite false m2 e2) in
  SFleb (S754_finite false m1 e1) sum = true
  /\ SFleb (S754_zero false) sum = true.
Proof.
  intros H1 H2 sum. subst sum.
  apply canonical_exponent in H1 as [Hc1 Hmin1].
  apply canonical_exponent in H2 as [Hc2 Hmin2].
  unfold SF64add, SFadd. cbn [cond_Zopp].
  set (ez := Z.min e1 e2).
  assert (Hez1 : ez <= e1) by (subst ez; lia).
  assert (Hez2 : ez <= e2) by (subst ez; lia).
  assert (Hezmin : SpecFloat.emin prec emax <= ez) by (subst ez; lia).
  pose proof (shl_align_below m1 e1 ez Hez1) as Ha1.
  pose proof (shl_align_below m2 e2 ez Hez2) as Ha2.
  set (a1 := fst (shl_align m1 e1 ez)) in *.
  set (a2 := fst (shl_align m2 e2 ez)) in *.
  set (M := (a1 + a2)%positive).
  change (Z.pos a1 + Z.pos a2) with (Z.pos M). cbn [binary_normalize].
  assert (HM : Z.pos m1 * 2 ^ (e1 - ez) <= Z.pos M) by (subst M; lia).
  pose proof (digits2_pos_shifted m1 M (e1 - ez) ltac:(lia) HM) as Hdig.
  assert (Hfexp : e1 <= SpecFloat.fexp prec emax (Z.pos (digits2_pos M) + ez)).
  { rewrite <- Hc1 at 1. unfold SpecFloat.fexp. lia. }
  unfold binary_round.
  assert (Halign : shl_align M ez (SpecFloat.fexp prec emax (Z.pos (digits2_pos M) + ez)) = (M, ez)).
  { unfold shl_align.
    destruct (SpecFloat.fexp prec emax (Z.pos (digits2_pos M) + ez) - ez) eqn:Hs; try reflexivity.
    lia. }
  rewrite Halign.
  destruct (binary_round_aux_positive M ez loc_Exact Hezmin)
    as [->|(mf & ef & -> & HE & Hmf)]; [split; reflexivity|].
  split; [|reflexivity].
  unfold SFleb, SFcompare.
  destruct (Z.compare_spec e1 ef) as [Heq|Hlt|Hgt]; [|reflexivity|lia].
  assert (HmE : Z.max ez (SpecFloat.fexp prec emax (Z.pos (digits2_pos M) + ez)) = e1) by lia.
  specialize (Hmf ltac:(lia)). rewrite HmE in Hmf.
  assert (Hle : Z.pos m1 <= Z.pos mf).
  { eapply Z.le_trans; [|exact Hmf].
    apply Z.div_le_lower_bound; [apply Z.pow_pos_nonneg; lia|lia]. }
  change (Pos.compare_cont Eq m1 mf) with (m1 ?= mf)%positive.
  destruct (m1 ?= mf)%positive eqn:Hcmp; try reflexivity.
  apply Pos.compare_gt_iff in Hcmp. lia.
Qed.

(** In binary64, adding a number that is not negative to one that is not
    negative gives a number that is not below the first, and not
    negative. *)
Lemma binary64_add_not_below (a b : float) :
  (0 <=? a)%float = true -> (0 <=? b)%float = true ->
  (a <=? a + b)%float = true /\ (0 <=? a + b)%float = true.
Proof.
  rewrite !leb_spec, add_spec.
  change (Prim2SF 0%float) with (S754_zero false).
  pose proof (Prim2SF_valid a) as Ha. pose proof (Prim2SF_valid b) as Hb.
  destruct (Prim2SF a) as [sa|sa| |sa ma ea], (Prim2SF b) as [sb|sb| |sb mb eb];
    cbn [valid_binary SpecFloat.valid_binary] in Ha, Hb;
    try (destruct sa); try (destruct sb); intros Hza Hzb;
    try discriminate Hza; try discriminate Hzb;
    try (split; reflexivity).
  - split; [apply SFleb_refl_finite|reflexivity].
  - split; [apply SFleb_refl_finite|reflexivity].
  - apply SF64add_positive; assumption.
Qed.

Lemma binary64_zero : float_of_Z 0 = 0%float.
Proof. vm_compute. reflexivity. Qed.

Lemma binary64_sum_not_below (a b : float) :
  num_leb (num_of_Z 0) a = true -> num_leb (num_of_Z 0) b = true ->
  num_leb a (num_add a b) = true /\ num_leb (num_of_Z 0) (num_add a b) = true.
Proof.
  cbn [num_leb num_of_Z num_add float_number]. rewrite binary64_zero.
  apply binary64_add_not_below.
Qed.

(** A binary64 number that is not negative is not a NaN. *)
Lemma binary64_leb_refl (a : float) :
  num_leb (num_of_Z 0) a = true -> num_leb a a = true.
Proof.
  cbn [num_leb num_of_Z float_number]. rewrite binary64_zero, !leb_spec.
  change (Prim2SF 0%float) with (S754_zero false).
  destruct (Prim2SF a) as [s|s| |s m e]; try destruct s; try discriminate;
    try reflexivity.
  intros _. apply SFleb_refl_finite.
Qed.

End Binary64.

(** ** The smoothing schedule *)

Section Schedule.
Context {T : Type} {num : PyNumber T} {platform : Platform T}.

Lemma accumulated_succ (n : nat) (increase : T) :
  accumulated (S n) increase = num_add (accumulated n increase) increase.
Proof. reflexivity. Qed.

Lemma next_alpha_accumulated (self : TriFingerReach) start stop :
  smoothing_start_episode self = start ->
  smoothing_stop_episode self = Finite stop ->
  0 <= start ->
  0 <= episode_count self ->
  smoothing_alpha self =
    accumulated (Z.to_nat (increases start stop (episode_count self)))
      (smoothing_increase_step self) ->
  next_alpha self =
    accumulated (Z.to_nat (increases start stop (episode_count self + 1)))
      (smoothing_increase_step self).
Proof.
  intros Hstart Hstop Hs Hc Hinv. unfold next_alpha. rewrite Hstart, Hstop.
  cbn [below]. unfold increases in *.
  destruct (Z.leb_spec start (episode_count self));
    destruct (Z.ltb_spec (episode_count self) stop); cbn [andb].
  - replace (Z.to_nat (Z.max 0 (Z.min (episode_count self + 1) stop - start)))
      with (S (Z.to_nat (Z.max 0 (Z.min (episode_count self) stop - start)))) by lia.
    rewrite accumulated_succ, <- Hinv. reflexivity.
  - replace (Z.max 0 (Z.min (episode_count self + 1) stop - start))
      with (Z.max 0 (Z.min (episode_count self) stop - start)) by lia.
    exact Hinv.
  - replace (Z.max 0 (Z.min (episode_count self + 1) stop - start))
      with (Z.max 0 (Z.min (episode_count self) stop - start)) by lia.
    exact Hinv.
  - replace (Z.max 0 (Z.min (episode_count self + 1) stop - start))
      with (Z.max 0 (Z.min (episode_count self) stop - start)) by lia.
    exact Hinv.
Qed.

(** The coefficient of an object in use is the sum that the resets so far
    have accumulated. *)
Lemma smoothing_alpha_accumulated smoothing_params (self : TriFingerReach) start stop :
  smoothing_params !! "is_test" = None ->
  reachable smoothing_params self ->
  smoothing_start_episode self = start ->
  smoothing_stop_episode self = Finite stop ->
  0 <= start ->
  smoothing_alpha self =
    accumulated (Z.to_nat (increases start stop (episode_count self)))
      (smoothing_increase_step self).
Proof.
  intros Htest Hreach. revert start stop.
  induction Hreach as [? ? ? ? ? ? ? self Hinit|self Hr IH|action self Hr IH];
    intros start stop Hstart Hstop Hs.
  - apply init_returns in Hinit
      as (pre & first & _ & Hsetup & Hwf & Hcount & _ & Hreset).
    pose proof (reset_configuration pre) as Hc.
    pose proof (reset_episode_count pre Hwf) as He.
    pose proof (reset_smoothing_alpha pre Hwf) as Ha.
    rewrite Hreset in Hc, He, Ha. cbn [snd] in Hc, He, Ha.
    unfold configuration in Hc. injection Hc as _ _ _ _ _ _ _ Hc1 Hc2 Hc3 _ _.
    rewrite Ha, He, Hc2.
    apply (smoothing_setup_plain _ _ _ _ _ Htest) in Hsetup
      as (ne & sa & st & fa & n & _ & _ & _ & _ & _ & _ & Hfin & Hzero & _ & _).
    apply next_alpha_accumulated; try congruence; try lia.
    rewrite Hzero, Hcount. unfold increases.
    replace (Z.max 0 (Z.min 0 stop - start)) with 0 by lia.
    reflexivity.
  - apply reachable_well_formed in Hr as Hwf.
    pose proof (reset_configuration self) as Hc.
    unfold configuration in Hc. injection Hc as _ _ _ _ _ _ _ Hc1 Hc2 Hc3 _ _.
    rewrite (reset_episode_count self Hwf), (reset_smoothing_alpha self Hwf), Hc2.
    apply reachable_schedule in Hr as [_ Hcount].
    apply next_alpha_accumulated; try congruence; try lia.
    apply IH; congruence.
  - pose proof (step_configuration action self) as Hc.
    pose proof (step_schedule action self) as Hsc.
    unfold configuration in Hc. injection Hc as _ _ _ _ _ _ _ Hc1 Hc2 Hc3 _ _.
    unfold schedule in Hsc. injection Hsc as Ha He _ _.
    rewrite Ha, He, Hc2. apply IH; congruence.
Qed.

(** From the stop episode on, no number of resets changes the
    coefficient. *)
Lemma resets_rest smoothing_params (self : TriFingerReach) stop n :
  reachable smoothing_params self ->
  smoothing_stop_episode self = Finite stop ->
  stop <= episode_count self ->
  smoothing_alpha (resets n self) = smoothing_alpha self.
Proof.
  revert self. induction n as [|n IH]; intros self Hreach Hstop Hreached;
    [reflexivity|].
  cbn [resets].
  pose proof (reachable_well_formed _ _ Hreach) as Hwf.
  pose proof (reset_configuration self) as Hc.
  unfold configuration in Hc. injection Hc as _ _ _ _ _ _ _ _ _ Hc _ _.
  rewrite IH.
  - rewrite (reset_smoothing_alpha self Hwf). unfold next_alpha.
    rewrite Hstop. cbn [below].
    replace (episode_count self <? stop) with false
      by (symmetry; apply Z.ltb_ge; lia).
    rewrite andb_false_r. reflexivity.
  - apply reachable_reset. exact Hreach.
  - congruence.
  - rewrite (reset_episode_count self Hwf). lia.
Qed.

(** The schedule that the constructor derived from [smoothing_params]
    without ["is_test"], as the object in use has it. *)
Lemma schedule_in_use smoothing_params num_episodes start_after stop_after
    final_alpha (self : TriFingerReach) :
  smoothing_params !! "is_test" = None ->
  smoothing_params !! "num_episodes" = Some num_episodes ->
  smoothing_params !! "start_after" = Some start_after ->
  smoothing_params !! "stop_after" = Some stop_after ->
  smoothing_params !! "final_alpha" = Some final_alpha ->
  reachable smoothing_params self ->
  exists start stop,
    py_int (num_mul num_episodes start_after) = Ok start
    /\ py_int (num_mul num_episodes stop_after) = Ok stop
    /\ stop - start <> 0
    /\ smoothing_start_episode self = start
    /\ smoothing_stop_episode self = Finite stop
    /\ smoothing_increase_step self = num_div final_alpha (num_of_Z (stop - start)).
Proof.
  intros Htest Hne Hst Hsa Hfa Hreach.
  destruct (reachable_schedule _ _ Hreach) as [[alpha0 Hsetup] _].
  apply (smoothing_setup_plain _ _ _ _ _ Htest) in Hsetup
    as (ne & sa & st & fa & n & Hne' & Hsa' & Hst' & Hfa' & Hn & Hm & Hfin & _
        & Hnz & Hinc).
  rewrite Hne in Hne'. rewrite Hsa in Hsa'. rewrite Hst in Hst'. rewrite Hfa in Hfa'.
  injection Hne' as <-. injection Hsa' as <-. injection Hst' as <-.
  injection Hfa' as <-.
  exists (smoothing_start_episode self), n. repeat split; auto.
Qed.

End Schedule.

Section Schedule_in_order.
Context {T : Type} {num : PyNumber T} {platform : Platform T}.

(** What the order of the number type has to give. *)
Hypothesis add_not_below : forall a b : T,
  num_leb (num_of_Z 0) a = true -> num_leb (num_of_Z 0) b = true ->
  num_leb a (num_add a b) = true /\ num_leb (num_of_Z 0) (num_add a b) = true.
Hypothesis leb_refl : forall a : T,
  num_leb (num_of_Z 0) a = true -> num_leb a a = true.
Hypothesis zero_leb : num_leb (num_of_Z 0) (num_of_Z 0 : T) = true.

Lemma next_alpha_not_below (self : TriFingerReach) :
  num_leb (num_of_Z 0) (smoothing_increase_step self) = true ->
  num_leb (num_of_Z 0) (smoothing_alpha self) = true ->
  num_leb (smoothing_alpha self) (next_alpha self) = true
  /\ num_leb (num_of_Z 0) (next_alpha self) = true.
Proof.
  intros Hinc Halpha. unfold next_alpha. destruct (_ && _).
  - apply add_not_below; assumption.
  - split; [apply leb_refl|]; assumption.
Qed.

Lemma smoothing_alpha_not_negative smoothing_params (self : TriFingerReach) :
  smoothing_params !! "is_test" = None ->
  reachable smoothing_params self ->
  num_leb (num_of_Z 0) (smoothing_increase_step self) = true ->
  num_leb (num_of_Z 0) (smoothing_alpha self) = true.
Proof.
  intros Htest Hreach.
  induction Hreach as [? ? ? ? ? ? ? self Hinit|self Hr IH|action self Hr IH];
    intros Hinc.
  - apply init_returns in Hinit
      as (pre & first & _ & Hsetup & Hwf & Hcount & _ & Hreset).
    pose proof (reset_configuration pre) as Hc.
    pose proof (reset_smoothing_alpha pre Hwf) as Ha.
    rewrite Hreset in Hc, Ha. cbn [snd] in Hc, Ha.
    unfold configuration in Hc. injection Hc as _ _ _ _ _ _ _ _ Hc _ _ _.
    rewrite Ha.
    apply (smoothing_setup_plain _ _ _ _ _ Htest) in Hsetup
      as (ne & sa & st & fa & n & _ & _ & _ & _ & _ & _ & _ & Hzero & _ & _).
    apply next_alpha_not_below; [congruence|].
    rewrite Hzero. exact zero_leb.
  - apply reachable_well_formed in Hr as Hwf.
    pose proof (reset_configuration self) as Hc.
    unfold configuration in Hc. injection Hc as _ _ _ _ _ _ _ _ Hc _ _ _.
    rewrite (reset_smoothing_alpha self Hwf).
    apply next_alpha_not_below; [congruence|]. apply IH. congruence.
  - pose proof (step_configuration action self) as Hc.
    pose proof (step_schedule action self) as Hsc.
    unfold configuration in Hc. injection Hc as _ _ _ _ _ _ _ _ Hc _ _ _.
    unfold schedule in Hsc. injection Hsc as Ha _ _ _.
    rewrite Ha. apply IH. congruence.
Qed.

(** The smoothing coefficient of an object in use, constructed without
    ["is_test"]. *)
Lemma smoothing_alpha_in_use smoothing_params num_episodes start_after stop_after
    final_alpha (self : TriFingerReach) :
  smoothing_params !! "is_test" = None ->
  smoothing_params !! "num_episodes" = Some num_episodes ->
  smoothing_params !! "start_after" = Some start_after ->
  smoothing_params !! "stop_after" = Some stop_after ->
  smoothing_params !! "final_alpha" = Some final_alpha ->
  reachable smoothing_params self ->
  exists start stop,
    py_int (num_mul num_episodes start_after) = Ok start
    /\ py_int (num_mul num_episodes stop_after) = Ok stop
    /\ smoothing_start_episode self = start
    /\ smoothing_stop_episode self = Finite stop
    /\ smoothing_increase_step self = num_div final_alpha (num_of_Z (stop - start))
    /\ (forall action, smoothing_alpha (step action self).2 = smoothing_alpha self)
    /\ smoothing_alpha (reset self).2 =
         (if (start <=? episode_count self) && (episode_count self <? stop)
          then num_add (smoothing_alpha self) (smoothing_increase_step self)
          else smoothing_alpha self)
    /\ (num_leb (num_of_Z 0) (smoothing_increase_step self) = true ->
        num_leb (smoothing_alpha self) (smoothing_alpha (reset self).2) = true)
    /\ (stop <= episode_count self ->
        forall n, smoothing_alpha (resets n self) = smoothing_alpha self)
    /\ (0 <= start ->
        smoothing_alpha self =
          accumulated (Z.to_nat (increases start stop (episode_count self)))
            (smoothing_increase_step self)).
Proof.
  intros Htest Hne Hst Hsa Hfa Hreach.
  destruct (schedule_in_use _ _ _ _ _ _ Htest Hne Hst Hsa Hfa Hreach)
    as (start & stop & Hstart & Hstop & Hnz & Hs & Hfin & Hinc).
  pose proof (reachable_well_formed _ _ Hreach) as Hwf.
  exists start, stop.
  split; [exact Hstart|]. split; [exact Hstop|]. split; [exact Hs|].
  split; [exact Hfin|]. split; [exact Hinc|].
  split; [|split; [|split; [|split]]].
  - intros action. pose proof (step_schedule action self) as Hsc.
    unfold schedule in Hsc. injection Hsc as Ha _ _ _. exact Ha.
  - rewrite (reset_smoothing_alpha self Hwf). unfold next_alpha.
    rewrite Hs, Hfin. reflexivity.
  - intros Hpos. rewrite (reset_smoothing_alpha self Hwf).
    apply next_alpha_not_below; [exact Hpos|].
    apply (smoothing_alpha_not_negative smoothing_params); assumption.
  - intros Hreached n. apply (resets_rest smoothing_params _ stop); assumption.
  - intros Hs0. apply (smoothing_alpha_accumulated smoothing_params); assumption.
Qed.

End Schedule_in_order.

(** *** In exact arithmetic *)

Section Schedule_exact.
Context {platform : Platform Q}.

Lemma inject_Z_nonzero n : n <> 0 -> ~ (inject_Z n == 0)%Q.
Proof. unfold Qeq. cbn. lia. Qed.

Lemma accumulated_exact (n : nat) (increase : Q) :
  (accumulated n increase == inject_Z (Z.of_nat n) * increase)%Q.
Proof.
  induction n as [|n IH].
  - cbn. ring.
  - rewrite accumulated_succ. cbn [num_add Q_number].
    rewrite IH, Nat2Z.inj_succ. unfold Z.succ. rewrite inject_Z_plus. ring.
Qed.

Lemma exact_sum_not_below (a b : Q) :
  num_leb (num_of_Z 0) a = true -> num_leb (num_of_Z 0) b = true ->
  num_leb a (num_add a b) = true /\ num_leb (num_of_Z 0) (num_add a b) = true.
Proof.
  cbn [num_leb num_of_Z num_add Q_number]. rewrite !Qle_bool_iff.
  change (inject_Z 0) with 0%Q. intros Ha Hb. split; lra.
Qed.

Lemma exact_leb_refl (a : Q) :
  num_leb (num_of_Z 0) a = true -> num_leb a a = true.
Proof.
  intros _. cbn [num_leb Q_number]. apply Qle_bool_iff. apply Qle_refl.
Qed.

(** In exact arithmetic the sum that has accumulated at the stop episode is
    [final_alpha]. *)
Lemma smoothing_alpha_exact smoothing_params
    num_episodes start_after stop_after final_alpha (self : TriFingerReach) :
  smoothing_params !! "is_test" = None ->
  smoothing_params !! "num_episodes" = Some num_episodes ->
  smoothing_params !! "start_after" = Some start_after ->
  smoothing_params !! "stop_after" = Some stop_after ->
  smoothing_params !! "final_alpha" = Some final_alpha ->
  0 <= Qtruncate (num_episodes * start_after)
    < Qtruncate (num_episodes * stop_after) ->
  reachable smoothing_params self ->
  smoothing_stop_episode self = Finite (Qtruncate (num_episodes * stop_after))
  /\ ((0 <= final_alpha)%Q ->
      (smoothing_alpha self <= smoothing_alpha (reset self).2)%Q)
  /\ (Qtruncate (num_episodes * stop_after) <= episode_count self ->
      (smoothing_alpha self == final_alpha)%Q).
Proof.
  intros Htest Hne Hst Hsa Hfa Horder Hreach.
  destruct (smoothing_alpha_in_use exact_sum_not_below exact_leb_refl eq_refl
              _ _ _ _ _ _ Htest Hne Hst Hsa Hfa Hreach)
    as (start & stop & Hstart & Hstop & Hs & Hfin & Hinc & _ & _ & Hmono & _ & Hsum).
  cbn in Hstart, Hstop. injection Hstart as <-. injection Hstop as <-.
  set (start := Qtruncate (num_episodes * start_after)) in *.
  set (stop := Qtruncate (num_episodes * stop_after)) in *.
  assert (Hd : (0 < inject_Z (stop - start))%Q).
  { replace 0%Q with (inject_Z 0) by reflexivity. rewrite <- Zlt_Qlt. lia. }
  split; [exact Hfin|]. split.
  - intros Hpos. apply Qle_bool_iff. apply Hmono.
    apply Qle_bool_iff. rewrite Hinc. cbn [num_div num_of_Z Q_number].
    apply Qle_shift_div_l; [exact Hd|]. change (inject_Z 0) with 0%Q. lra.
  - intros Hreached. rewrite (Hsum ltac:(lia)), accumulated_exact, Hinc.
    unfold increases.
    replace (Z.max 0 (Z.min (episode_count self) stop - start))
      with (stop - start) by lia.
    rewrite Z2Nat.id by lia.
    cbn [num_div num_of_Z Q_number]. field. lra.
Qed.

End Schedule_exact.

(** C1 (as amended).  On an object in use that was constructed without
    ["is_test"], in binary64, with the start episode and the stop episode
    that [int] gives for the products as the code computes them: [step]
    leaves the smoothing coefficient alone; [reset] adds the increase step
    [final_alpha / (stop - start)] to it when the episode count lies from
    the start to before the stop episode, and leaves it alone otherwise; when
    the increase step is not negative (and no NaN), [reset] does not
    decrease the coefficient; from the stop episode on no number of resets
    changes it; and with a start episode that is not negative the
    coefficient is the sum of the increase steps of the episodes so far,
    added one by one to 0.  In exact arithmetic, with a start episode that
    is not negative and lies before the stop episode, that sum is
    [final_alpha] from the stop episode on, and the coefficient does not
    decrease when [final_alpha] is not negative. *)
Theorem smoothing_alpha_schedule :
  (forall (platform : Platform float) smoothing_params
      num_episodes start_after stop_after final_alpha (self : TriFingerReach),
     smoothing_params !! "is_test" = None ->
     smoothing_params !! "num_episodes" = Some num_episodes ->
     smoothing_params !! "start_after" = Some start_after ->
     smoothing_params !! "stop_after" = Some stop_after ->
     smoothing_params !! "final_alpha" = Some final_alpha ->
     reachable smoothing_params self ->
     exists start stop,
       py_int (num_mul num_episodes start_after) = Ok start
       /\ py_int (num_mul num_episodes stop_after) = Ok stop
       /\ smoothing_start_episode self = start
       /\ smoothing_stop_episode self = Finite stop
       /\ smoothing_increase_step self
          = num_div final_alpha (num_of_Z (stop - start))
       /\ (forall action,
             smoothing_alpha (step action self).2 = smoothing_alpha self)
       /\ smoothing_alpha (reset self).2 =
            (if (start <=? episode_count self) && (episode_count self <? stop)
             then num_add (smoothing_alpha self) (smoothing_increase_step self)
             else smoothing_alpha self)
       /\ (num_leb (num_of_Z 0) (smoothing_increase_step self) = true ->
           num_leb (smoothing_alpha self) (smoothing_alpha (reset self).2) = true)
       /\ (stop <= episode_count self ->
           forall n, smoothing_alpha (resets n self) = smoothing_alpha self)
       /\ (0 <= start ->
           smoothing_alpha self =
             accumulated (Z.to_nat (increases start stop (episode_count self)))
               (smoothing_increase_step self)))
  /\ (forall (platform : Platform Q) smoothing_params
        num_episodes start_after stop_after final_alpha (self : TriFingerReach),
      smoothing_params !! "is_test" = None ->
      smoothing_params !! "num_episodes" = Some num_episodes ->
      smoothing_params !! "start_after" = Some start_after ->
      smoothing_params !! "stop_after" = Some stop_after ->
      smoothing_params !! "final_alpha" = Some final_alpha ->
      0 <= Qtruncate (num_episodes * start_after)
        < Qtruncate (num_episodes * stop_after) ->
      reachable smoothing_params self ->
      smoothing_stop_episode self = Finite (Qtruncate (num_episodes * stop_after))
      /\ ((0 <= final_alpha)%Q ->
          (smoothing_alpha self <= smoothing_alpha (reset self).2)%Q)
      /\ (Qtruncate (num_episodes * stop_after) <= episode_count self ->
          (smoothing_alpha self == final_alpha)%Q)).
Proof.
  split.
  - intros platform. intros.
    eapply (smoothing_alpha_in_use binary64_sum_not_below binary64_leb_refl);
      try eassumption.
    cbn [num_leb num_of_Z float_number]. rewrite binary64_zero. reflexivity.
  - intros platform. intros. eapply smoothing_alpha_exact; eassumption.
Qed.

(** ** Properties of [step] and [reset] *)

Section Step_and_reset.
Context {T : Type} {num : PyNumber T} {platform : Platform T}.
Local Open Scope method_scope.

(** C2 (as amended).  On an object in use with at least one substep per
    step, when the robot returns from its calls and its first observation
    [o] has one joint position per joint, [step] returns the reward
    [-d * steps_per_control], where [d] is the distance to the goal of the
    finger tips that forward kinematics gives for the joint positions of
    [o]: the observation of the first substep alone decides the reward. *)
Theorem reward_of_step smoothing_params action self o rest :
  reachable smoothing_params self ->
  0 < steps_per_control self ->
  robot_answers (Z.to_nat (steps_per_control self)) (smoothed self action)
    (finger self) = true ->
  substep_observations (Z.to_nat (steps_per_control self)) (smoothed self action)
    (finger self) = o :: rest ->
  length (position o) = (3 * num_fingers self)%nat ->
  exists scaled_observation done info,
    (step action self).1 =
      Ok (scaled_observation,
          num_mul (num_opp (distance_at (goal self) o))
            (num_of_Z (steps_per_control self)),
          done, info).
Proof.
  intros Hreach Hpos Hrobot Hobs Hlen.
  apply reachable_well_formed in Hreach as Hwf.
  destruct (step_runs action self Hwf Hpos Hrobot) as (o' & rest' & Hobs' & Hstep).
  rewrite Hobs in Hobs'. injection Hobs' as <- <-.
  cbn zeta in Hstep. rewrite slice_joint_positions in Hstep by exact Hlen.
  eauto.
Qed.

(** X1.  On an object in use with at least one substep per step, when the
    robot returns from its calls, [step] returns with [done] equal to
    [False] and with [info["is_success"]] equal to 0; and whenever [step]
    returns at all, that is what it returns. *)
Theorem step_is_never_done smoothing_params action self :
  reachable smoothing_params self ->
  0 < steps_per_control self ->
  robot_answers (Z.to_nat (steps_per_control self)) (smoothed self action)
    (finger self) = true ->
  (exists scaled_observation reward info,
     (step action self).1 = Ok (scaled_observation, reward, false, info)
     /\ info !! "is_success" = Some (num_of_Z 0))
  /\ (forall scaled_observation reward done info,
        (step action self).1 = Ok (scaled_observation, reward, done, info) ->
        done = false /\ info !! "is_success" = Some (num_of_Z 0)).
Proof.
  intros Hreach Hpos Hrobot.
  apply reachable_well_formed in Hreach as Hwf.
  split.
  - destruct (step_runs action self Hwf Hpos Hrobot) as (o & rest & _ & Hstep).
    cbn zeta in Hstep. eexists _, _, _. split; [exact Hstep|]. reflexivity.
  - intros so reward done info Hstep.
    apply step_done in Hstep as [-> ->]. split; reflexivity.
Qed.

(** C6 (as amended).  On an object in use with at least one substep per
    step, when the robot returns from its calls, [step] returns with [done]
    equal to [False] and with the [info] dict [{"is_success": 0}]; and
    whenever [step] returns at all, that is the flag and the dict it
    returns. *)
Theorem step_reports_not_done smoothing_params action self :
  reachable smoothing_params self ->
  0 < steps_per_control self ->
  robot_answers (Z.to_nat (steps_per_control self)) (smoothed self action)
    (finger self) = true ->
  (exists scaled_observation reward,
     (step action self).1 =
       Ok (scaled_observation, reward, false, {[ "is_success" := num_of_Z 0 ]}))
  /\ (forall scaled_observation reward done info,
        (step action self).1 = Ok (scaled_observation, reward, done, info) ->
        done = false /\ info = {[ "is_success" := num_of_Z 0 ]}).
Proof.
  intros Hreach Hpos Hrobot.
  apply reachable_well_formed in Hreach as Hwf.
  split.
  - destruct (step_runs action self Hwf Hpos Hrobot) as (o & rest & _ & Hstep).
    cbn zeta in Hstep. eexists _, _. exact Hstep.
  - intros so reward done info Hstep.
    apply step_done in Hstep as [-> ->]. split; reflexivity.
Qed.

(** C8.  On an object in use whose [next_start_time] is set, when the
    freeze-in-place step of [reset] raises [e] and leaves the object as
    [frozen], [reset] carries on from [frozen]: it waits for the start
    time, moves the start time on by four seconds and runs the rest of the
    reset, and it returns an observation to its caller. *)
Theorem reset_swallows_freeze_failure smoothing_params self start_time e frozen :
  reachable smoothing_params self ->
  next_start_time self = Some start_time ->
  freeze_in_place self = (Raise e, frozen) ->
  reset self =
    reset_episode
      (set_next_start_time (Some (start_time + 4))
         (set_trace (Sleep_until start_time :: trace frozen) frozen))
  /\ exists scaled_observation later,
       (reset self).1 = Ok scaled_observation
       /\ next_start_time (reset self).2 = Some (start_time + 4)
       /\ trace (reset self).2 = later ++ Sleep_until start_time :: trace self.
Proof.
  intros Hreach Hnst Hfreeze.
  apply reachable_well_formed in Hreach as Hwf.
  split.
  - rewrite reset_unfolds. unfold bind at 1, synchronise_start.
    unfold bind at 1, getattr at 1. rewrite Hnst.
    unfold bind at 1, try_except_pass. rewrite Hfreeze. reflexivity.
  - destruct (reset_shape self Hwf) as (obs & r & g & later & ->).
    exists obs, later. unfold following_start_time, synchronisation_events.
    rewrite Hnst. repeat split.
Qed.

(** X3.  For every number type: from the stop episode on, neither [step]
    nor any number of calls of [reset] changes the smoothing coefficient. *)
Lemma smoothing_alpha_rests smoothing_params self stop :
  reachable smoothing_params self ->
  smoothing_stop_episode self = Finite stop ->
  stop <= episode_count self ->
  (forall action, smoothing_alpha (step action self).2 = smoothing_alpha self)
  /\ (forall n, smoothing_alpha (resets n self) = smoothing_alpha self).
Proof.
  intros Hreach Hstop Hreached. split.
  - intros action. pose proof (step_schedule action self) as Hsc.
    unfold schedule in Hsc. injection Hsc as Ha _ _ _. exact Ha.
  - intros n. revert self Hreach Hstop Hreached.
    induction n as [|n IH]; intros self Hreach Hstop Hreached; [reflexivity|].
    cbn [resets].
    pose proof (reachable_well_formed _ _ Hreach) as Hwf.
    pose proof (reset_configuration self) as Hc.
    unfold configuration in Hc. injection Hc as _ _ _ _ _ _ _ _ _ Hc _ _.
    rewrite IH.
    + rewrite (reset_smoothing_alpha self Hwf). unfold next_alpha.
      rewrite Hstop. cbn [below].
      replace (episode_count self <? stop) with false
        by (symmetry; apply Z.ltb_ge; lia).
      rewrite andb_false_r. reflexivity.
    + apply reachable_reset. exact Hreach.
    + congruence.
    + rewrite (reset_episode_count self Hwf). lia.
Qed.

(** C10 (as amended).  For [smoothing_params] without ["is_test"] that
    have ["num_episodes"], ["stop_after"] and ["start_after"], with
    [int(num_episodes * stop_after)] equal to
    [int(num_episodes * start_after)]: the smoothing setup raises
    [ZeroDivisionError] when ["final_alpha"] is there, and [KeyError] for
    it when it is not; the constructor raises the error of its check of the
    control period when that check fails, and the error of the smoothing
    setup otherwise; in no case does it return an object. *)
Theorem init_zero_smoothing_steps control_rate_s finger_type visualization
    smoothing_params use_real_robot finger_config_suffix sync now
    num_episodes stop_after start_after n :
  smoothing_params !! "is_test" = None ->
  smoothing_params !! "num_episodes" = Some num_episodes ->
  smoothing_params !! "stop_after" = Some stop_after ->
  smoothing_params !! "start_after" = Some start_after ->
  py_int (num_mul num_episodes stop_after) = Ok n ->
  py_int (num_mul num_episodes start_after) = Ok n ->
  let error :=
    match smoothing_params !! "final_alpha" with
    | Some _ => ZeroDivisionError
    | None => KeyError "final_alpha"
    end in
  smoothing_setup smoothing_params = Raise error
  /\ __init__ control_rate_s finger_type visualization smoothing_params
       use_real_robot finger_config_suffix sync now
     = pyresult_bind
         (derive_steps_per_control control_rate_s
            (time_step_s
               (if use_real_robot
                then RealFinger finger_type finger_config_suffix visualization
                else SimFinger finger_type visualization)))
         (fun _ => Raise error)
  /\ is_ok (__init__ control_rate_s finger_type visualization smoothing_params
              use_real_robot finger_config_suffix sync now) = false.
Proof.
  intros Htest Hne Hsa Hst Hstop Hstart error.
  assert (Hsetup : smoothing_setup smoothing_params = Raise error).
  { unfold smoothing_setup. rewrite Htest.
    rewrite bool_decide_eq_false_2 by (intros [? ?]; discriminate).
    unfold dict_get. rewrite Hne, Hsa, Hst. cbn [pyresult_bind].
    rewrite Hstop, Hstart. cbn [pyresult_bind]. subst error.
    destruct (smoothing_params !! "final_alpha"); cbn [pyresult_bind];
      [|reflexivity].
    unfold py_truediv_int. rewrite Z.sub_diag. reflexivity. }
  assert (Hinit : __init__ control_rate_s finger_type visualization smoothing_params
       use_real_robot finger_config_suffix sync now
     = pyresult_bind
         (derive_steps_per_control control_rate_s
            (time_step_s
               (if use_real_robot
                then RealFinger finger_type finger_config_suffix visualization
                else SimFinger finger_type visualization)))
         (fun _ => Raise error)).
  { unfold __init__. rewrite Hsetup. reflexivity. }
  repeat split; auto. rewrite Hinit.
  destruct (derive_steps_per_control _ _); reflexivity.
Qed.

End Step_and_reset.

(** ** The control period, and the first step of an episode *)

Section Control_period.
Context {T : Type} {num : PyNumber T} {platform : Platform T}.
Local Open Scope method_scope.







Lemma step_smoothed_action (action : list T) (self : TriFingerReach) :
  smoothed_action (step action self).2 = Some (smoothed self action).
Proof.
  rewrite step_unfolds.
  assert (Hp : preserves smoothed_action
            (bind (control_loop (Z.to_nat (steps_per_control self))
                     (smoothed self action) None)
               (fun state =>
                  g <- getattr goal;;
                  rd <- _compute_reward state g;;
                  s <- lift (the state);;
                  obs_space <- getattr unscaled_observation_space;;
                  ret (scale s obs_space, rd.1, rd.2, info_of rd.2))%method)).
  { pose proof (fun n a s =>
      control_loop_preserves smoothed_action n a s
        ltac:(repeat split)) as Hloop.
    pose proof (_compute_reward_preserves smoothed_action) as Hreward.
    frame. }
  rewrite Hp. reflexivity.
Qed.

(** The first step of an episode sends the blend of the unscaled action
    with itself. *)
Lemma first_step_blend (self : TriFingerReach) (action : list T) :
  smoothed_action self = None ->
  let unscaled_action := unscale action (unscaled_action_space self) in
  let sent := blend (smoothing_alpha self) unscaled_action unscaled_action in
  step action self =
    bind (control_loop (Z.to_nat (steps_per_control self)) sent None)
      (fun state =>
         g <- getattr goal;;
         rd <- _compute_reward state g;;
         s <- lift (the state);;
         obs_space <- getattr unscaled_observation_space;;
         ret (scale s obs_space, rd.1, rd.2, info_of rd.2))
      (set_smoothed_action (Some sent) self)
  /\ smoothed_action (step action self).2 = Some sent.
Proof.
  intros Hnone unscaled_action sent.
  assert (Hsent : smoothed self action = sent).
  { unfold smoothed. rewrite Hnone. reflexivity. }
  split.
  - rewrite step_unfolds. unfold smoothing_done. rewrite Hsent. reflexivity.
  - rewrite step_smoothed_action. rewrite Hsent. reflexivity.
Qed.

End Control_period.

(** *** In exact arithmetic *)

Section Exact.
Context {platform : Platform Q}.








Lemma blend_same (alpha : Q) (u : list Q) : Forall2 Qeq (blend alpha u u) u.
Proof.
  unfold blend. induction u as [|x u IH]; cbn; constructor; [|exact IH].
  cbn [num_add num_sub num_mul num_of_Z Q_number]. ring.
Qed.

End Exact.

(** *** Multiples of the time step in binary64 *)





(** C9 (as amended).  When [smoothed_action] is [None], as [reset] leaves
    it, [step action] runs its control loop with the blend of the unscaled
    input action with itself, [alpha * u + (1 - alpha) * u] entry by entry
    in the arithmetic of the code, and keeps that as [smoothed_action].  In
    exact arithmetic the blend of [u] with itself is [u], for every
    coefficient. *)
Theorem first_step_sends_unscaled_action :
  (forall (T : Type) (num : PyNumber T) (platform : Platform T)
      (self : TriFingerReach) (action : list T),
     smoothed_action self = None ->
     let unscaled_action := unscale action (unscaled_action_space self) in
     let sent := blend (smoothing_alpha self) unscaled_action unscaled_action in
     step action self =
       bind (control_loop (Z.to_nat (steps_per_control self)) sent None)
         (fun state =>
            g <- getattr goal;;
            rd <- _compute_reward state g;;
            s <- lift (the state);;
            obs_space <- getattr unscaled_observation_space;;
            ret (scale s obs_space, rd.1, rd.2, info_of rd.2))%method
         (set_smoothed_action (Some sent) self)
     /\ smoothed_action (step action self).2 = Some sent)
  /\ (forall (alpha : Q) (u : list Q), Forall2 Qeq (blend alpha u u) u).
Proof.
  split.
  - intros T num platform self action. apply first_step_blend.
  - apply blend_same.
Qed.

Section Reachable_more.
Context {T : Type} {num : PyNumber T} {platform : Platform T}.

Lemma reachable_resets smoothing_params n self :
  reachable smoothing_params self -> reachable smoothing_params (resets n self).
Proof.
  revert self. induction n as [|n IH]; intros self Hr; cbn; [exact Hr|].
  apply IH. apply reachable_reset. exact Hr.
Qed.

End Reachable_more.

(** Binary64 numbers that [eqb] tells apart are different. *)
Lemma float_differ (x y : float) :
  PrimFloat.eqb x x = true -> PrimFloat.eqb x y = false -> x <> y.
Proof. intros Hxx Hxy Heq. rewrite <- Heq in Hxy. congruence. Qed.

(** ** Destruction of collision objects *)

Section Destruction.
Import CollisionObjects.
Context {V : Type}.

(** C7.  Destroying a collision object (of the base class or of any
    subclass) whose client is not connected returns without raising, makes
    no [removeBody] call and leaves the bodies and the clients of the engine
    as they are; and whenever a destruction makes a [removeBody] call, the
    client of the object is connected. *)
Theorem del_removes_only_if_connected (self : BaseCollisionObject) (p : pybullet V) :
  (_pybullet_client_id self ∉ connected p ->
   __del__ self p = (Ok tt, log (Call_isConnected (_pybullet_client_id self)) p)
   /\ removals (calls (__del__ self p).2) = removals (calls p)
   /\ bodies (__del__ self p).2 = bodies p
   /\ connected (__del__ self p).2 = connected p)
  /\ (removals (calls (__del__ self p).2) <> removals (calls p) ->
      _pybullet_client_id self ∈ connected p).
Proof.
  split.
  - intros Hgone. unfold __del__, isConnected.
    rewrite bool_decide_eq_false_2 by exact Hgone.
    repeat split.
  - intros Hremoved.
    destruct (decide (_pybullet_client_id self ∈ connected p)) as [|Hgone];
      [assumption|].
    exfalso. apply Hremoved. unfold __del__, isConnected.
    rewrite bool_decide_eq_false_2 by exact Hgone. reflexivity.
Qed.

End Destruction.

(** ** More of [step], [reset] and the constructor *)

Section Loop.
Context {T : Type} {num : PyNumber T} {platform : Platform T}.
Local Open Scope method_scope.

Lemma robot_answers_failure n finger_action r :
  robot_answers n finger_action r = true <-> robot_failure n finger_action r = None.
Proof.
  revert r. induction n as [|n IH]; intros r; cbn; [tauto|].
  destruct (append_desired_action finger_action r) as [[t|?] r1];
    [|split; discriminate].
  destruct (get_observation t r1) as [[o|?] r2]; [apply IH|split; discriminate].
Qed.

Lemma assign_same (self : TriFingerReach) :
  assign self (finger self) (smoothing_alpha self) (smoothed_action self)
    (episode_count self) (next_start_time self) (observation self) (goal self)
    (trace self) = self.
Proof. destruct self; reflexivity. Qed.

Lemma control_loop_state n finger_action sa state self :
  well_formed self ->
  smoothed_action self = Some sa ->
  (control_loop n finger_action state self).2 =
    (let obs := substep_observations n finger_action (finger self) in
     assign self (robot_after n finger_action (finger self))
       (smoothing_alpha self) (smoothed_action self) (episode_count self)
       (next_start_time self) (kept_observation self obs) (goal self)
       (match state with
        | Some _ => trace self
        | None => trace_after self obs
        end)).
Proof.
  revert state self. induction n as [|n IH]; intros state self Hwf Hsa.
  - cbn. unfold kept_observation, trace_after. cbn.
    replace (if synchronize self then observation self else observation self)
      with (observation self) by (destruct (synchronize self); reflexivity).
    destruct state; rewrite assign_same; reflexivity.
  - cbn [substep_observations control_loop robot_after].
    assert (Hkeep : kept_observation self [] = observation self).
    { unfold kept_observation. destruct (synchronize self); reflexivity. }
    destruct (append_desired_action finger_action (finger self))
      as [[t|e1] r1] eqn:Happend.
    2:{ unfold bind at 1, call_finger at 1. rewrite Happend.
        cbn zeta. rewrite Hkeep. cbn [trace_after snd].
        destruct state; reflexivity. }
    erewrite bind_ok by (apply call_finger_ok; exact Happend).
    destruct (get_observation t r1) as [[o|e1] r2] eqn:Hobserve.
    2:{ unfold bind at 1, call_finger at 1. cbn [finger set_finger assign].
        rewrite Hobserve. cbn zeta. rewrite Hkeep. cbn [trace_after snd].
        destruct state; reflexivity. }
    erewrite bind_ok by (apply call_finger_ok; exact Hobserve).
    set (self1 := set_finger r2 (set_finger r1 self)).
    assert (Hwf1 : well_formed self1) by exact Hwf.
    cbn zeta. unfold kept_observation. rewrite last_cons.
    destruct state as [s|].
    + unfold bind at 1, ret at 1.
      unfold bind at 1, getattr at 1.
      change (synchronize self1) with (synchronize self).
      destruct (synchronize self) eqn:Hsync.
      * unfold bind at 1, setattr at 1. rewrite IH; auto.
        cbn zeta. unfold kept_observation. subst self1. fields. rewrite Hsync.
        destruct (last _); reflexivity.
      * unfold bind at 1, ret at 1. rewrite IH; auto.
        cbn zeta. unfold kept_observation. subst self1. fields. rewrite Hsync.
        reflexivity.
    + unfold bind at 1. unfold bind at 1, getattr at 1.
      change (smoothed_action self1) with (smoothed_action self). rewrite Hsa.
      unfold bind at 1, lift at 1, the.
      unfold bind at 1. rewrite (_get_state_runs o sa true self1 Hwf1).
      unfold ret at 1.
      unfold bind at 1, getattr at 1.
      change (synchronize (logged true o self1)) with (synchronize self).
      destruct (synchronize self) eqn:Hsync.
      * unfold bind at 1, setattr at 1. rewrite IH; auto.
        cbn zeta. unfold kept_observation, trace_after, logged. subst self1. fields.
        rewrite Hsync, Hsa. destruct (last _); reflexivity.
      * unfold bind at 1, ret at 1. rewrite IH; auto.
        cbn zeta. unfold kept_observation, trace_after, logged. subst self1. fields.
        rewrite Hsync, Hsa. reflexivity.
Qed.

Lemma control_loop_raises n finger_action sa state self e :
  well_formed self ->
  smoothed_action self = Some sa ->
  robot_failure n finger_action (finger self) = Some e ->
  (control_loop n finger_action state self).1 = Raise e.
Proof.
  revert state self. induction n as [|n IH]; intros state self Hwf Hsa Hrobot.
  - discriminate.
  - cbn in Hrobot. cbn [control_loop].
    destruct (append_desired_action finger_action (finger self))
      as [[t|e1] r1] eqn:Happend.
    2:{ injection Hrobot as ->. unfold bind at 1, call_finger at 1.
        rewrite Happend. reflexivity. }
    erewrite bind_ok by (apply call_finger_ok; exact Happend).
    destruct (get_observation t r1) as [[o|e1] r2] eqn:Hobserve.
    2:{ injection Hrobot as ->. unfold bind at 1, call_finger at 1.
        cbn [finger set_finger assign].
        rewrite Hobserve. reflexivity. }
    erewrite bind_ok by (apply call_finger_ok; exact Hobserve).
    set (self1 := set_finger r2 (set_finger r1 self)).
    assert (Hwf1 : well_formed self1) by exact Hwf.
    destruct state as [s|].
    + unfold bind at 1, ret at 1.
      unfold bind at 1, getattr at 1.
      destruct (synchronize self1).
      * unfold bind at 1, setattr at 1. eapply IH; eauto.
      * unfold bind at 1, ret at 1. eapply IH; eauto.
    + unfold bind at 1. unfold bind at 1, getattr at 1.
      change (smoothed_action self1) with (smoothed_action self). rewrite Hsa.
      unfold bind at 1, lift at 1, the.
      unfold bind at 1. rewrite (_get_state_runs o sa true self1 Hwf1).
      unfold ret at 1.
      unfold bind at 1, getattr at 1.
      change (synchronize (logged true o self1)) with (synchronize self).
      destruct (synchronize self).
      * unfold bind at 1, setattr at 1. eapply IH; eauto.
      * unfold bind at 1, ret at 1. eapply IH; eauto.
Qed.

Lemma step_state action self :
  well_formed self ->
  (step action self).2 =
    (let obs :=
       substep_observations (Z.to_nat (steps_per_control self))
         (smoothed self action) (finger self) in
     assign self
       (robot_after (Z.to_nat (steps_per_control self)) (smoothed self action)
          (finger self))
       (smoothing_alpha self) (Some (smoothed self action)) (episode_count self)
       (next_start_time self) (kept_observation self obs) (goal self)
       (trace_after self obs)).
Proof.
  intros Hwf. rewrite step_unfolds.
  set (self0 := smoothing_done action self).
  assert (Hwf0 : well_formed self0) by exact Hwf.
  pose proof (control_loop_state (Z.to_nat (steps_per_control self))
                (smoothed self action) (smoothed self action) None self0
                Hwf0 eq_refl) as Hstate.
  unfold bind at 1.
  destruct (control_loop _ _ _ self0) as [[state|e] self1]; cbn [snd] in Hstate.
  - etransitivity; [|exact Hstate].
    assert (Hrest : preserves (fun s => s)
              (g <- getattr goal;;
               rd <- _compute_reward state g;;
               s <- lift (the state);;
               obs_space <- getattr unscaled_observation_space;;
               ret (scale s obs_space, rd.1, rd.2, info_of rd.2))).
    { pose proof (_compute_reward_preserves (fun s : TriFingerReach => s)). frame. }
    apply Hrest.
  - exact Hstate.
Qed.

Lemma step_raises action self e :
  well_formed self ->
  robot_failure (Z.to_nat (steps_per_control self)) (smoothed self action)
    (finger self) = Some e ->
  (step action self).1 = Raise e.
Proof.
  intros Hwf Hfail. rewrite step_unfolds.
  set (self0 := smoothing_done action self).
  assert (Hwf0 : well_formed self0) by exact Hwf.
  pose proof (control_loop_raises (Z.to_nat (steps_per_control self))
                (smoothed self action) (smoothed self action) None self0 e
                Hwf0 eq_refl Hfail) as Hraise.
  unfold bind at 1.
  destruct (control_loop _ _ _ self0) as [[state|e'] self1]; cbn [fst] in Hraise;
    [discriminate|].
  injection Hraise as ->. reflexivity.
Qed.

Lemma step_type_error action self :
  well_formed self ->
  steps_per_control self <= 0 -> (step action self).1 = Raise TypeError.
Proof.
  intros [_ Hidx] Hn. rewrite step_unfolds.
  replace (Z.to_nat (steps_per_control self)) with O by lia.
  cbn [control_loop]. unfold bind at 1, ret at 1.
  unfold bind at 1, getattr at 1. unfold bind at 1.
  unfold _compute_reward.
  unfold bind at 1, getattr at 1. unfold bind at 1, lift at 1, dict_get.
  change (spaces (smoothing_done action self)) with (spaces self).
  rewrite Hidx. reflexivity.
Qed.

End Loop.

Section More_of_step.
Context {T : Type} {num : PyNumber T} {platform : Platform T}.
Local Open Scope method_scope.

(** X4.  How [step] fails on an object in use, for an action of the shape
    of the action space (with kinematics and a distance that return): when
    a robot call of its control loop raises, [step] raises that exception;
    without a substep it raises [TypeError]; so when [step] returns, there
    is at least one substep per step and the robot has returned from every
    call of the control loop. *)
Theorem step_passes_on_errors smoothing_params action self :
  reachable smoothing_params self ->
  length action = length (low (unscaled_action_space self)) ->
  let n := Z.to_nat (steps_per_control self) in
  let finger_action := smoothed self action in
  (forall e, robot_failure n finger_action (finger self) = Some e ->
     (step action self).1 = Raise e)
  /\ (steps_per_control self <= 0 -> (step action self).1 = Raise TypeError)
  /\ (is_ok (step action self).1 = true ->
      0 < steps_per_control self
      /\ robot_failure n finger_action (finger self) = None).
Proof.
  intros Hreach _ n finger_action.
  apply reachable_well_formed in Hreach as Hwf.
  split; [|split].
  - intros e. apply step_raises. exact Hwf.
  - apply step_type_error. exact Hwf.
  - intros Hok. split.
    + destruct (Z.lt_ge_cases 0 (steps_per_control self)) as [|Hle]; [assumption|].
      rewrite step_type_error in Hok by (auto; lia). discriminate.
    + destruct (robot_failure n finger_action (finger self)) as [e|] eqn:Hfail;
        [|reflexivity].
      rewrite (step_raises action self e Hwf Hfail) in Hok. discriminate.
Qed.

(** X5.  What [step] leaves behind on an object in use, whether it returns
    or raises: the robot after the calls of the control loop, the smoothed
    action that it sent, in [observation] the last observation of the loop
    when the environment is synchronised (and the old one otherwise), one
    more entry in the log, for the first observation of the loop, and every
    other attribute as it was. *)
Theorem step_leaves smoothing_params action self :
  reachable smoothing_params self ->
  let n := Z.to_nat (steps_per_control self) in
  let obs := substep_observations n (smoothed self action) (finger self) in
  (step action self).2 =
    assign self (robot_after n (smoothed self action) (finger self))
      (smoothing_alpha self) (Some (smoothed self action)) (episode_count self)
      (next_start_time self) (kept_observation self obs) (goal self)
      (trace_after self obs).
Proof.
  intros Hreach. apply reachable_well_formed in Hreach.
  apply step_state. exact Hreach.
Qed.

(** X20.  On an object in use with at least one substep per step whose
    robot returns from its calls, the observation that [step] returns is the
    scaled flat state of the first substep: the joint positions and
    velocities that the robot reported after the first of its steps, the
    goal, and the smoothed action.  The later substeps move the robot on but
    do not enter the returned observation. *)
Theorem step_returns_first_observation smoothing_params action self o rest :
  reachable smoothing_params self ->
  0 < steps_per_control self ->
  robot_answers (Z.to_nat (steps_per_control self)) (smoothed self action)
    (finger self) = true ->
  substep_observations (Z.to_nat (steps_per_control self)) (smoothed self action)
    (finger self) = o :: rest ->
  exists reward,
    (step action self).1 =
      Ok (scale
            (position o ++ velocity o ++ concat (goal self) ++ smoothed self action)
            (unscaled_observation_space self),
          reward, false, info_of false).
Proof.
  intros Hreach Hpos Hrobot Hobs.
  apply reachable_well_formed in Hreach as Hwf.
  destruct (step_runs action self Hwf Hpos Hrobot) as (o' & rest' & Hobs' & Hstep).
  rewrite Hobs in Hobs'. injection Hobs' as <- <-.
  cbn zeta in Hstep. rewrite Hstep. unfold flat_state. eauto.
Qed.

End More_of_step.


Section More_of_reset.
Context {T : Type} {num : PyNumber T} {platform : Platform T}.
Local Open Scope method_scope.

Lemma reachable_run smoothing_params calls self :
  reachable smoothing_params self -> reachable smoothing_params (run calls self).
Proof.
  revert self. induction calls as [|[|action] calls IH]; intros self Hreach; cbn [run].
  - exact Hreach.
  - apply IH, reachable_reset, Hreach.
  - apply IH, reachable_step, Hreach.
Qed.

Lemma run_counts calls self :
  well_formed self ->
  episode_count (run calls self) = episode_count self + count_resets calls
  /\ next_start_time (run calls self) =
       match next_start_time self with
       | Some t => Some (t + 4 * count_resets calls)
       | None => None
       end.
Proof.
  unfold count_resets.
  revert self. induction calls as [|[|action] calls IH]; intros self Hwf;
    cbn [run List.filter is_reset length].
  - rewrite Z.add_0_r. split; [reflexivity|].
    destruct (next_start_time self); [|reflexivity].
    f_equal. lia.
  - assert (Hwf' : well_formed (reset self).2)
      by (eapply well_formed_ignores_robot; [apply reset_configuration|exact Hwf]).
    destruct (IH _ Hwf') as [-> ->].
    rewrite (reset_episode_count self Hwf).
    destruct (reset_shape self Hwf) as (? & ? & ? & ? & ->). fields.
    unfold following_start_time.
    split; [lia|]. destruct (next_start_time self); [|reflexivity].
    f_equal. lia.
  - assert (Hwf' : well_formed (step action self).2)
      by (eapply well_formed_ignores_robot; [apply step_configuration|exact Hwf]).
    destruct (IH _ Hwf') as [-> ->].
    pose proof (step_schedule action self) as Hs.
    unfold schedule in Hs. injection Hs as _ -> -> _. split; reflexivity.
Qed.

(** X7.  The episode count is the number of calls of [reset], the one of
    the constructor included: a constructed object counts 1, every [reset]
    adds 1 and no [step] changes it, whether the calls return or raise. *)
Theorem episode_count_counts_resets control_rate_s finger_type visualization
    smoothing_params use_real_robot finger_config_suffix sync now self calls :
  __init__ control_rate_s finger_type visualization smoothing_params
    use_real_robot finger_config_suffix sync now = Ok self ->
  episode_count (run calls self) = 1 + count_resets calls.
Proof.
  intros Hinit.
  pose proof (reachable_init _ _ _ _ _ _ _ _ _ Hinit) as Hreach.
  apply reachable_well_formed in Hreach as Hwf.
  destruct (run_counts calls self Hwf) as [-> _].
  apply init_returns in Hinit as (pre & first & _ & _ & Hwfp & Hcount & _ & Hreset).
  pose proof (reset_episode_count pre Hwfp) as He. rewrite Hreset in He.
  cbn [snd] in He. lia.
Qed.

(** X8.  Synchronised episodes start four seconds apart, from the start of
    the minute after construction: on an object constructed with
    [synchronize] the next start time is that minute plus four seconds for
    each [reset] so far, the one of the constructor included, and on one
    constructed without it there is none. *)
Theorem start_times_four_seconds_apart control_rate_s finger_type visualization
    smoothing_params use_real_robot finger_config_suffix (sync : bool) now self calls :
  __init__ control_rate_s finger_type visualization smoothing_params
    use_real_robot finger_config_suffix sync now = Ok self ->
  synchronize (run calls self) = sync
  /\ next_start_time (run calls self) =
       (if sync
        then Some ((now / 60 + 1) * 60 + 4 * (1 + count_resets calls))
        else None).
Proof.
  intros Hinit.
  pose proof (reachable_init _ _ _ _ _ _ _ _ _ Hinit) as Hreach.
  apply reachable_well_formed in Hreach as Hwf.
  destruct (run_counts calls self Hwf) as [_ ->].
  assert (Hsync : forall calls s, synchronize (run calls s) = synchronize s).
  { clear. induction calls as [|[|action] calls IH]; intros s; cbn [run].
    - reflexivity.
    - rewrite IH. pose proof (reset_configuration s) as Hc.
      unfold configuration in Hc. injection Hc as _ _ _ _ _ _ _ _ _ _ _ Hc. exact Hc.
    - rewrite IH. pose proof (step_configuration action s) as Hc.
      unfold configuration in Hc. injection Hc as _ _ _ _ _ _ _ _ _ _ _ Hc. exact Hc. }
  rewrite Hsync.
  unfold __init__ in Hinit.
  apply pyresult_bind_ok in Hinit as (steps & Hsteps & Hinit).
  apply pyresult_bind_ok in Hinit as (smoothing & Hsmoothing & Hinit).
  apply pyresult_bind_ok in Hinit as (nst & Hnst & Hinit).
  match type of Hinit with
  | match reset ?p with _ => _ end = _ => set (pre := p) in *
  end.
  assert (Hwfp : well_formed pre) by (split; reflexivity).
  pose proof (reset_configuration pre) as Hc.
  destruct (reset_shape pre Hwfp) as (? & ? & ? & ? & Hreset).
  rewrite Hreset in Hinit, Hc. injection Hinit as <-. fields.
  unfold following_start_time. fields.
  destruct sync.
  - unfold next_minute in Hnst. destruct (_ =? 59); [discriminate|].
    injection Hnst as <-. split; [reflexivity|]. f_equal. lia.
  - injection Hnst as <-. split; reflexivity.
Qed.

End More_of_reset.

Section More_of_init.
Context {T : Type} {num : PyNumber T} {platform : Platform T}.
Local Open Scope method_scope.

(** The constructor runs its three checks in order, and then a [reset] that
    returns. *)
Lemma init_unfolds control_rate_s finger_type visualization smoothing_params
    (use_real_robot : bool) finger_config_suffix (sync : bool) now :
  is_ok (__init__ control_rate_s finger_type visualization smoothing_params
           use_real_robot finger_config_suffix sync now)
  = is_ok
      (pyresult_bind
         (derive_steps_per_control control_rate_s
            (time_step_s
               (if use_real_robot
                then RealFinger finger_type finger_config_suffix visualization
                else SimFinger finger_type visualization)))
         (fun _ =>
            pyresult_bind (smoothing_setup smoothing_params)
              (fun _ => if sync then next_minute now else Ok 0)))
  /\ forall e,
       __init__ control_rate_s finger_type visualization smoothing_params
         use_real_robot finger_config_suffix sync now = Raise e
       <-> pyresult_bind
             (derive_steps_per_control control_rate_s
                (time_step_s
                   (if use_real_robot
                    then RealFinger finger_type finger_config_suffix visualization
                    else SimFinger finger_type visualization)))
             (fun _ =>
                pyresult_bind (smoothing_setup smoothing_params)
                  (fun _ => if sync then next_minute now else Ok 0))
           = Raise e.
Proof.
  unfold __init__.
  destruct (derive_steps_per_control _ _) as [steps|e0]; cbn [pyresult_bind];
    [|split; [reflexivity|intros e; split; intros [= ->]; reflexivity]].
  destruct (smoothing_setup smoothing_params) as [smoothing|e0];
    cbn [pyresult_bind];
    [|split; [reflexivity|intros e; split; intros [= ->]; reflexivity]].
  assert (Hreset : forall (z : Z) (pre : TriFingerReach),
            observations_keys pre =
              ["joint_positions"; "joint_velocities"; "goal_position";
               "action_joint_positions"] ->
            key_to_index (spaces pre) !! "joint_positions"
              = Some (0, 3 * num_fingers pre)%nat ->
            is_ok match reset pre with
                  | (Ok _, self') => Ok self'
                  | (Raise e, _) => Raise e
                  end = true
            /\ forall e, match reset pre with
                         | (Ok _, self') => Ok self'
                         | (Raise e, _) => Raise e
                         end = Raise e <-> Ok z = Raise e).
  { intros z pre Hkeys Hidx.
    destruct (reset_shape pre (conj Hkeys Hidx)) as (first & ? & ? & ? & ->).
    split; [reflexivity|intros e; split; discriminate]. }
  destruct sync; cbn [pyresult_bind].
  - destruct (next_minute now) as [t|e0]; cbn [pyresult_bind];
      [|split; [reflexivity|intros e; split; intros [= ->]; reflexivity]].
    apply Hreset; reflexivity.
  - apply Hreset; reflexivity.
Qed.

Lemma smoothing_setup_key_error smoothing_params k :
  smoothing_setup smoothing_params = Raise (KeyError k) ->
  smoothing_params !! k = None
  /\ k ∈ ["final_alpha"; "num_episodes"; "stop_after"; "start_after"]
  /\ (is_Some (smoothing_params !! "is_test") -> k = "final_alpha").
Proof.
  unfold smoothing_setup, dict_get.
  destruct (bool_decide_reflect (is_Some (smoothing_params !! "is_test")))
    as [Htest|Htest].
  - destruct (smoothing_params !! "final_alpha") eqn:Hfa; [discriminate|].
    cbn. intros [= <-]. repeat split; auto. set_solver.
  - destruct (smoothing_params !! "num_episodes") eqn:Hne; cbn [pyresult_bind].
    2:{ intros [= <-]. split; [exact Hne|]. split; [set_solver|tauto]. }
    destruct (smoothing_params !! "stop_after") eqn:Hsa; cbn [pyresult_bind].
    2:{ intros [= <-]. split; [exact Hsa|]. split; [set_solver|tauto]. }
    unfold py_int, converted.
    destruct (num_int _); cbn [pyresult_bind]; [|discriminate..].
    destruct (smoothing_params !! "start_after") eqn:Hst; cbn [pyresult_bind].
    2:{ intros [= <-]. split; [exact Hst|]. split; [set_solver|tauto]. }
    destruct (num_int _); cbn [pyresult_bind]; [|discriminate..].
    destruct (smoothing_params !! "final_alpha") eqn:Hfa; cbn [pyresult_bind].
    2:{ intros [= <-]. split; [exact Hfa|]. split; [set_solver|tauto]. }
    unfold py_truediv_int. destruct (_ =? 0); discriminate.
Qed.

Lemma derive_steps_no_key_error control_rate_s time_step k :
  derive_steps_per_control control_rate_s time_step <> Raise (KeyError k).
Proof.
  unfold derive_steps_per_control, py_truediv, py_round, converted.
  destruct (num_eqb _ _); cbn [pyresult_bind]; [discriminate|].
  destruct (num_round _); cbn [pyresult_bind]; [|discriminate..].
  destruct (num_leb _ _); discriminate.
Qed.


(** X10.  A [KeyError] of the constructor names a key that
    [smoothing_params] lacks: ["final_alpha"], ["num_episodes"],
    ["stop_after"] or ["start_after"], and with ["is_test"] present none but
    ["final_alpha"]. *)
Theorem init_key_error control_rate_s finger_type visualization smoothing_params
    (use_real_robot : bool) finger_config_suffix (sync : bool) now k :
  __init__ control_rate_s finger_type visualization smoothing_params
    use_real_robot finger_config_suffix sync now = Raise (KeyError k) ->
  smoothing_params !! k = None
  /\ k ∈ ["final_alpha"; "num_episodes"; "stop_after"; "start_after"]
  /\ (is_Some (smoothing_params !! "is_test") -> k = "final_alpha").
Proof.
  intros Hinit.
  apply (init_unfolds control_rate_s finger_type visualization smoothing_params
           use_real_robot finger_config_suffix sync now) in Hinit.
  pose proof (derive_steps_no_key_error control_rate_s
    (time_step_s
       (if use_real_robot
        then RealFinger finger_type finger_config_suffix visualization
        else SimFinger finger_type visualization)) k) as Hd.
  destruct (derive_steps_per_control _ _); [|contradiction].
  cbn [pyresult_bind] in Hinit.
  destruct (smoothing_setup smoothing_params) as [s|e] eqn:Hsetup.
  - cbn [pyresult_bind] in Hinit. destruct sync; [|discriminate].
    unfold next_minute in Hinit. destruct (_ =? 59); discriminate.
  - injection Hinit as ->. apply smoothing_setup_key_error. exact Hsetup.
Qed.

Lemma smoothing_setup_test smoothing_params start alpha0 increase stop :
  is_Some (smoothing_params !! "is_test") ->
  smoothing_setup smoothing_params = Ok (start, alpha0, increase, stop) ->
  smoothing_params !! "final_alpha" = Some alpha0
  /\ start = 0 /\ increase = num_of_Z 0 /\ stop = Infinite.
Proof.
  intros Htest. unfold smoothing_setup, dict_get.
  rewrite bool_decide_eq_true_2 by exact Htest.
  destruct (smoothing_params !! "final_alpha"); [|discriminate].
  cbn. intros [= <- <- <- <-]. auto.
Qed.

End More_of_init.

Section More_exact.
Context {platform : Platform Q}.

(** X11.  In exact arithmetic, an object in use that was constructed with
    ["is_test"] smooths with [final_alpha] from the first episode on, for
    good: the schedule starts at episode 0 and has no stop episode, and the
    smoothing coefficient is [final_alpha] after every call of [reset] and
    [step].  Among the keys of [smoothing_params] only ["final_alpha"] is
    read. *)
Theorem smoothing_alpha_under_test smoothing_params (self : TriFingerReach) :
  is_Some (smoothing_params !! "is_test") ->
  reachable smoothing_params self ->
  exists final_alpha,
    smoothing_params !! "final_alpha" = Some final_alpha
    /\ smoothing_setup smoothing_params = Ok (0, final_alpha, 0%Q, Infinite)
    /\ (smoothing_alpha self == final_alpha)%Q
    /\ smoothing_start_episode self = 0
    /\ smoothing_stop_episode self = Infinite.
Proof.
  intros Htest Hreach.
  assert (Hnext : forall s : TriFingerReach,
            (smoothing_increase_step s == 0)%Q ->
            (next_alpha s == smoothing_alpha s)%Q).
  { intros s Hz. unfold next_alpha. destruct (_ && _); [|reflexivity].
    cbn [num_add Q_number]. rewrite Hz. ring. }
  destruct (reachable_schedule _ _ Hreach) as [[alpha0 Hsetup] _].
  destruct (smoothing_setup_test _ _ _ _ _ Htest Hsetup)
    as (Hfa & Hstart & Hinc & Hstop).
  exists alpha0. split; [exact Hfa|].
  split; [rewrite Hsetup, Hstart, Hinc, Hstop; reflexivity|].
  split; [|auto].
  clear Hsetup Hstart Hstop.
  induction Hreach as [? ? ? ? ? ? ? self Hinit|self Hr IH|action self Hr IH].
  - apply init_returns in Hinit
      as (pre & first & _ & Hsetup & Hwf & _ & _ & Hreset).
    destruct (smoothing_setup_test _ _ _ _ _ Htest Hsetup) as (Hfa' & _ & Hi & _).
    pose proof (reset_smoothing_alpha pre Hwf) as Ha.
    rewrite Hreset in Ha. cbn [snd] in Ha. rewrite Ha.
    rewrite Hnext by (rewrite Hi; reflexivity).
    rewrite Hfa in Hfa'. injection Hfa' as <-. reflexivity.
  - apply reachable_well_formed in Hr as Hwf.
    pose proof (reset_configuration self) as Hc.
    unfold configuration in Hc. injection Hc as _ _ _ _ _ _ _ _ Hc _ _ _.
    rewrite (reset_smoothing_alpha self Hwf).
    rewrite Hnext by (rewrite <- Hc, Hinc; reflexivity).
    apply IH. congruence.
  - pose proof (step_configuration action self) as Hc.
    pose proof (step_schedule action self) as Hsc.
    unfold configuration in Hc. injection Hc as _ _ _ _ _ _ _ _ Hc _ _ _.
    unfold schedule in Hsc. injection Hsc as Ha _ _ _.
    rewrite Ha. apply IH. congruence.
Qed.

(** X19.  In exact arithmetic, with a distance that is never negative, the
    reward that [step] returns on an object in use is never positive. *)
Theorem reward_is_never_positive smoothing_params (self : TriFingerReach) action
    scaled_observation reward done info :
  (forall a b, (0 <= compute_distance a b)%Q) ->
  reachable smoothing_params self ->
  (step action self).1 = Ok (scaled_observation, reward, done, info) ->
  (reward <= 0)%Q.
Proof.
  intros Hdist Hreach Hstep.
  apply reachable_well_formed in Hreach as Hwf.
  destruct (Z.lt_ge_cases 0 (steps_per_control self)) as [Hpos|Hle].
  2:{ rewrite step_type_error in Hstep by (auto; lia). discriminate. }
  destruct (robot_failure (Z.to_nat (steps_per_control self)) (smoothed self action)
              (finger self)) as [e|] eqn:Hfail.
  { rewrite (step_raises action self e Hwf Hfail) in Hstep. discriminate. }
  apply robot_answers_failure in Hfail.
  destruct (step_runs action self Hwf Hpos Hfail) as (o & rest & _ & Hruns).
  cbn zeta in Hruns. rewrite Hruns in Hstep. injection Hstep as _ <- _ _.
  cbn [num_mul num_opp num_of_Z Q_number].
  match goal with
  | |- (- compute_distance ?a ?b * _ <= 0)%Q => pose proof (Hdist a b) as Hd
  end.
  assert (Hn : (0 < inject_Z (steps_per_control self))%Q).
  { replace 0%Q with (inject_Z 0) by reflexivity. rewrite <- Zlt_Qlt. exact Hpos. }
  revert Hd Hn. generalize (inject_Z (steps_per_control self)).
  match goal with
  | |- forall _, (0 <= ?d)%Q -> _ => generalize d
  end.
  intros d n Hd Hn.
  assert (Hprod : (0 <= d * n)%Q) by (apply Qmult_le_0_compat; lra).
  lra.
Qed.

Lemma manhattan_not_negative (a b : list (list Q)) : (0 <= manhattan a b)%Q.
Proof.
  unfold manhattan. generalize (concat a) (concat b). clear.
  induction l as [|x l IH]; intros [|y l'];
    cbn [zip_with foldr num_add num_abs num_sub num_of_Z Q_number];
    try apply Qle_refl.
  apply (Qle_trans _ (0 + 0)); [apply Qle_refl|].
  apply Qplus_le_compat; [apply Qabs_nonneg|apply IH].
Qed.

Lemma Qround_half_even_floor (x : Q) : Qfloor x <= Qround_half_even x.
Proof.
  unfold Qround_half_even. destruct (Qcompare _ _); [|lia..].
  destruct (Z.even _); lia.
Qed.

(** X14.  In exact arithmetic, a control period that is no shorter than a
    positive physics time step gives at least one substep per step: when
    the constructor returns, [steps_per_control] is at least 1, and it stays
    so under every call of [reset] and [step]. *)
Theorem steps_per_control_positive (control_rate_s : Q) finger_type
    visualization smoothing_params (use_real_robot : bool) finger_config_suffix
    sync now self calls :
  let time_step :=
    time_step_s
      (if use_real_robot
       then RealFinger finger_type finger_config_suffix visualization
       else SimFinger finger_type visualization) in
  (0 < time_step)%Q ->
  (time_step <= control_rate_s)%Q ->
  __init__ control_rate_s finger_type visualization smoothing_params
    use_real_robot finger_config_suffix sync now = Ok self ->
  1 <= steps_per_control (run calls self).
Proof.
  intros time_step Hpos Hle Hinit.
  assert (Hrun : forall calls (s : TriFingerReach),
            steps_per_control (run calls s) = steps_per_control s).
  { clear. induction calls as [|[|action] calls IH]; intros s; cbn [run].
    - reflexivity.
    - rewrite IH. pose proof (reset_configuration s) as Hc.
      unfold configuration in Hc. injection Hc as _ Hc _ _ _ _ _ _ _ _ _ _.
      exact Hc.
    - rewrite IH. pose proof (step_configuration action s) as Hc.
      unfold configuration in Hc. injection Hc as _ Hc _ _ _ _ _ _ _ _ _ _.
      exact Hc. }
  rewrite Hrun.
  apply init_returns in Hinit as (pre & first & Hd & _ & _ & _ & _ & Hreset).
  pose proof (reset_configuration pre) as Hc. rewrite Hreset in Hc.
  unfold configuration in Hc. injection Hc as _ Hs _ _ _ _ _ _ _ _ _ _.
  cbn [snd] in Hs. rewrite Hs.
  fold time_step in Hd. revert Hd.
  unfold derive_steps_per_control, py_truediv, py_round.
  cbn [num_eqb num_of_Z num_div num_round num_leb num_abs num_sub num_mul
       Q_number converted pyresult_bind].
  destruct (Qeq_bool time_step (inject_Z 0)); [discriminate|].
  cbn [pyresult_bind]. destruct (Qle_bool _ _); [|discriminate].
  intros [= <-].
  etransitivity; [|apply Qround_half_even_floor].
  rewrite <- (Qfloor_Z 1). apply Qfloor_resp_le.
  apply Qle_shift_div_l; [exact Hpos|].
  change (inject_Z 1) with 1%Q. rewrite Qmult_1_l. exact Hle.
Qed.

End More_exact.

(** ** Collision objects in a connected engine *)

Section Collision_objects.
Import CollisionObjects.
Context {V : Type}.

Lemma createCollisionShape_connected client (p : pybullet V) :
  client ∈ connected p ->
  exists q,
    createCollisionShape client p = (Ok (next_of (next_collision_shape p) client), q)
    /\ connected q = connected p
    /\ next_body q = next_body p
    /\ calls q = Call_createCollisionShape client :: calls p.
Proof.
  intros Hconn. unfold createCollisionShape. cbn [log connected].
  rewrite (bool_decide_eq_true_2 _ Hconn). eexists. split; [reflexivity|].
  repeat split.
Qed.

Lemma createVisualShape_connected client (p : pybullet V) :
  client ∈ connected p ->
  exists q,
    createVisualShape client p = (Ok (next_of (next_visual_shape p) client), q)
    /\ connected q = connected p
    /\ next_body q = next_body p
    /\ calls q = Call_createVisualShape client :: calls p.
Proof.
  intros Hconn. unfold createVisualShape. cbn [log connected].
  rewrite (bool_decide_eq_true_2 _ Hconn). eexists. split; [reflexivity|].
  repeat split.
Qed.

Lemma create_body_connected c at_pose client (p : pybullet V) :
  client ∈ connected p ->
  exists q,
    create_body c at_pose client p = (Ok (next_of (next_body p) client), q)
    /\ connected q = connected p
    /\ calls q = c :: calls p.
Proof.
  intros Hconn. unfold create_body. cbn [log connected].
  rewrite (bool_decide_eq_true_2 _ Hconn). eexists. split; [reflexivity|].
  repeat split.
Qed.

Lemma changeDynamics_connected body client (p : pybullet V) :
  client ∈ connected p ->
  changeDynamics body client p = (Ok tt, log (Call_changeDynamics body client) p).
Proof.
  intros Hconn. unfold changeDynamics. cbn [log connected].
  rewrite (bool_decide_eq_true_2 _ Hconn). reflexivity.
Qed.

Lemma Cuboid_connected position orientation half_extents mass color_rgba client
    (p : pybullet V) :
  client ∈ connected p ->
  let body := next_of (next_body p) client in
  exists self q,
    Cuboid position orientation half_extents mass color_rgba client p
      = (Ok tt, self, q)
    /\ _pybullet_client_id self = client
    /\ _object_id self = Some body
    /\ connected q = connected p
    /\ calls q =
         engine_calls (New_Cuboid position orientation half_extents mass color_rgba)
           body client ++ calls p.
Proof.
  intros Hconn body. unfold Cuboid.
  destruct (createCollisionShape_connected client p Hconn)
    as (q1 & -> & Hc1 & Hb1 & Hl1).
  destruct color_rgba as [rgba|].
  - destruct (createVisualShape_connected client q1) as (q2 & -> & Hc2 & Hb2 & Hl2);
      [rewrite Hc1; exact Hconn|].
    destruct (create_body_connected (Call_createMultiBody client)
                (position, orientation) client q2) as (q3 & -> & Hc3 & Hl3);
      [rewrite Hc2, Hc1; exact Hconn|].
    rewrite changeDynamics_connected by (rewrite Hc3, Hc2, Hc1; exact Hconn).
    eexists _, _. split; [reflexivity|]. cbn [_pybullet_client_id _object_id].
    rewrite Hb2, Hb1. split; [reflexivity|]. split; [reflexivity|].
    cbn [log connected calls]. rewrite Hc3, Hc2, Hc1, Hl3, Hl2, Hl1.
    split; reflexivity.
  - destruct (create_body_connected (Call_createMultiBody client)
                (position, orientation) client q1) as (q3 & -> & Hc3 & Hl3);
      [rewrite Hc1; exact Hconn|].
    rewrite changeDynamics_connected by (rewrite Hc3, Hc1; exact Hconn).
    eexists _, _. split; [reflexivity|]. cbn [_pybullet_client_id _object_id].
    rewrite Hb1. split; [reflexivity|]. split; [reflexivity|].
    cbn [log connected calls]. rewrite Hc3, Hc1, Hl3, Hl1.
    split; reflexivity.
Qed.

Lemma construct_connected (c : constructor V) client (p : pybullet V) :
  client ∈ connected p ->
  let body := next_of (next_body p) client in
  exists self q,
    construct c client p = (Ok tt, self, q)
    /\ _pybullet_client_id self = client
    /\ _object_id self = Some body
    /\ connected q = connected p
    /\ calls q = engine_calls c body client ++ calls p.
Proof.
  intros Hconn body.
  destruct c as [position orientation half_extents mass color
                |position orientation half_width mass color
                |position orientation];
    cbn [construct].
  - apply Cuboid_connected. exact Hconn.
  - unfold Cube.
    destruct (Cuboid_connected position orientation (replicate 3 half_width) mass
                color client p Hconn) as (self & q & -> & Hclient & Hid & Hc & Hl).
    eexists _, _. split; [reflexivity|]. auto.
  - unfold ColoredCubeV2.
    destruct (create_body_connected (Call_loadURDF client)
                (position, orientation) client p Hconn) as (q & -> & Hc & Hl).
    eexists _, _. split; [reflexivity|]. auto.
Qed.

Lemma construct_not_connected (c : constructor V) client (p : pybullet V) :
  client ∉ connected p ->
  exists self first,
    construct c client p = (Raise not_connected, self, log first p)
    /\ _pybullet_client_id self = client
    /\ _object_id self = None
    /\ is_removal first = false.
Proof.
  intros Hgone.
  destruct c as [position orientation half_extents mass color
                |position orientation half_width mass color
                |position orientation];
    cbn [construct];
    unfold Cube, Cuboid, ColoredCubeV2, createCollisionShape, create_body;
    cbn [log connected]; rewrite (bool_decide_eq_false_2 _ Hgone);
    eexists _, _; (split; [reflexivity|]); repeat split.
Qed.

Lemma removals_engine_calls (c : constructor V) body client :
  removals (engine_calls c body client) = [].
Proof.
  destruct c as [? ? ? ? [?|]| ? ? ? ? [?|]|]; reflexivity.
Qed.

(** X15.  The life of a collision object in a connected engine.  Each of
    the constructors [Cuboid], [Cube] and [ColoredCubeV2] returns; its
    engine calls are, in order, for a cuboid or cube the creation of the
    collision shape, with a colour the creation of the visual shape, the
    creation of the body and the change of its dynamics, and for the
    coloured cube the loading of its description; none is a [removeBody].
    The object has as [_object_id] the identifier that the engine gave to
    the body.  Destroying the object returns without raising, after an
    [isConnected] call and one [removeBody] call, for that body and the
    client of the object. *)
Theorem construct_then_destroy (c : constructor V) client (p : pybullet V) :
  client ∈ connected p ->
  let created := construct c client p in
  let self := created.1.2 in
  let destroyed := __del__ self created.2 in
  let body := next_of (next_body p) client in
  created.1.1 = Ok tt
  /\ _pybullet_client_id self = client
  /\ _object_id self = Some body
  /\ calls created.2 = engine_calls c body client ++ calls p
  /\ removals (calls created.2) = removals (calls p)
  /\ destroyed.1 = Ok tt
  /\ calls destroyed.2
     = Call_removeBody body client :: Call_isConnected client :: calls created.2
  /\ removals (calls destroyed.2)
     = Call_removeBody body client :: removals (calls p).
Proof.
  intros Hconn created self destroyed body.
  destruct (construct_connected c client p Hconn)
    as (self' & q & Hc & Hclient & Hid & Hq & Hl).
  fold body in Hid, Hl.
  subst destroyed self created. rewrite Hc. cbn [fst snd].
  split; [reflexivity|]. split; [exact Hclient|]. split; [exact Hid|].
  split; [exact Hl|].
  assert (Hrem : removals (calls q) = removals (calls p)).
  { rewrite Hl. unfold removals. rewrite List.filter_app.
    fold (removals (engine_calls c body client)).
    rewrite removals_engine_calls. reflexivity. }
  split; [exact Hrem|].
  unfold __del__, isConnected, removeBody. rewrite Hclient, Hid.
  cbn [log connected]. rewrite Hq, (bool_decide_eq_true_2 _ Hconn).
  cbn [fst snd set_bodies log calls].
  split; [reflexivity|]. split; [reflexivity|].
  unfold removals in *. cbn [List.filter is_removal]. rewrite Hrem. reflexivity.
Qed.

(** X16.  A constructor of a collision object that is called for a client
    that is not connected raises the error of the engine at its first
    engine call, which is no [removeBody], and leaves an object without
    [_object_id]; destroying that object returns without raising and makes
    no [removeBody] call; the bodies of the engine stay as they were. *)
Theorem construct_without_connection (c : constructor V) client (p : pybullet V) :
  client ∉ connected p ->
  let created := construct c client p in
  let self := created.1.2 in
  let destroyed := __del__ self created.2 in
  created.1.1 = Raise not_connected
  /\ _object_id self = None
  /\ destroyed.1 = Ok tt
  /\ removals (calls destroyed.2) = removals (calls p)
  /\ bodies destroyed.2 = bodies p.
Proof.
  intros Hgone created self destroyed.
  destruct (construct_not_connected c client p Hgone)
    as (self' & first & Hc & Hclient & Hid & Hfirst).
  subst destroyed self created. rewrite Hc. cbn [fst snd].
  split; [reflexivity|]. split; [exact Hid|].
  unfold __del__, isConnected. rewrite Hclient. cbn [log connected].
  rewrite (bool_decide_eq_false_2 _ Hgone). cbn [fst snd log calls bodies].
  split; [reflexivity|]. split; [|reflexivity].
  unfold removals. cbn [List.filter is_removal]. rewrite Hfirst. reflexivity.
Qed.

(** X18.  An object without [_object_id] (the base class used directly, as
    its documentation warns against, or a subclass whose constructor
    raised): [set_state] and [get_state] raise [AttributeError] and make no
    engine call, and destroying the object raises [AttributeError] exactly
    when its client is connected, after the [isConnected] call alone. *)
Theorem methods_without_object_id (self : BaseCollisionObject) position orientation
    (p : pybullet V) :
  _object_id self = None ->
  set_state self position orientation p = (Raise (AttributeError "_object_id"), p)
  /\ get_state self p = (Raise (AttributeError "_object_id"), p)
  /\ (__del__ self p).2 = log (Call_isConnected (_pybullet_client_id self)) p
  /\ ((__del__ self p).1 = Raise (AttributeError "_object_id")
      <-> _pybullet_client_id self ∈ connected p)
  /\ ((__del__ self p).1 = Ok tt <-> _pybullet_client_id self ∉ connected p).
Proof.
  intros Hid. unfold set_state, get_state, __del__, isConnected. rewrite Hid.
  split; [reflexivity|]. split; [reflexivity|].
  destruct (bool_decide_reflect (_pybullet_client_id self ∈ connected p))
    as [Hconn|Hgone]; cbn [fst snd].
  - split; [reflexivity|]. split; [tauto|].
    split; [discriminate|]. intros Hgone. contradiction.
  - split; [reflexivity|]. split; [|tauto].
    split; [discriminate|]. intros Hconn. contradiction.
Qed.

End Collision_objects.

(** ** The definitions at work: witnesses and counterexamples *)

(** Decimal literals and conversions in binary64 are those of Python. *)
Example literal_binary64 :
  literal (1 # 1000000) = 0.000001%float
  /\ literal (4 # 1000) = 0.004%float
  /\ literal (8 # 10) = 0.8%float.
Proof. repeat split; vm_compute; reflexivity. Qed.

Example conversions_binary64 :
  py_round 2.5%float = Ok 2 /\ py_round 3.5%float = Ok 4
  /\ py_round (-0.5)%float = Ok 0 /\ py_round 4.9999999%float = Ok 5
  /\ py_int (-2.75)%float = Ok (-2) /\ py_int 7.99%float = Ok 7
  /\ py_round PrimFloat.nan = Raise ValueError
  /\ py_round PrimFloat.infinity = Raise OverflowError.
Proof. repeat split; vm_compute; reflexivity. Qed.

(** In binary64, on control periods computed as multiples of the time step
    0.004, the derived substep count is the multiple; 0.021 is not within
    the tolerance of a multiple. *)
Example derive_steps_binary64 :
  Forall (fun k => derive_steps_per_control
                     (num_mul (num_of_Z k) 0.004%float) 0.004%float = Ok k)
    [0; 1; 2; 3; 5; 7; 10; 25; 250; 1000003]
  /\ derive_steps_per_control 0.02%float 0.004%float = Ok 5
  /\ derive_steps_per_control 0.021%float 0.004%float = Raise AssertionError
  /\ derive_steps_per_control 0.02%float 0%float = Raise ZeroDivisionError.
Proof.
  split; [repeat constructor|repeat split]; vm_compute; reflexivity.
Qed.

(** At the edge of the tolerance binary64 and exact arithmetic part: the
    control periods 0.035999 and 0.004001 miss nine steps and one step of
    0.004 by a millionth in exact arithmetic, and by more in binary64. *)
Example derive_steps_at_the_edge :
  derive_steps_per_control 0.035999%float 0.004%float = Raise AssertionError
  /\ derive_steps_per_control (35999 # 1000000)%Q (4 # 1000)%Q = Ok 9
  /\ derive_steps_per_control 0.004001%float 0.004%float = Raise AssertionError
  /\ derive_steps_per_control (4001 # 1000000)%Q (4 # 1000)%Q = Ok 1.
Proof. repeat split; vm_compute; reflexivity. Qed.

(** C1 as stated fails: in binary64 ten increases of [0.8 / 10] add up to
    0.7999999999999999, not to 0.8; and in exact arithmetic a stop episode
    before the start episode leaves the coefficient at 0 for ever. *)
Lemma smoothing_alpha_misses_final_alpha :
  (exists self : TriFingerReach (platform := binary64_platform),
     reachable (plain_params 10 0 1 0.8)%float self
     /\ smoothing_stop_episode self = Finite 10
     /\ episode_count self = 10
     /\ smoothing_alpha self = 0.79999999999999993%float
     /\ smoothing_alpha self <> 0.8%float)
  /\ (exists self : TriFingerReach (platform := exact_platform),
     reachable (plain_params 10 (4 # 5) (1 # 5) (1 # 2))%Q self
     /\ smoothing_start_episode self = 8
     /\ smoothing_stop_episode self = Finite 2
     /\ episode_count self = 2
     /\ (smoothing_alpha self == 0)%Q
     /\ ~ (smoothing_alpha self == 1 # 2)%Q).
Proof.
  split.
  - eexists. split; [|split; [|split; [|split]]].
    + apply (reachable_resets _ 9).
      eapply (reachable_init _ 0.02%float "fingerone" false false "0" false 0).
      vm_compute. reflexivity.
    + vm_compute. reflexivity.
    + vm_compute. reflexivity.
    + vm_compute. reflexivity.
    + apply float_differ; vm_compute; reflexivity.
  - eexists. split; [|split; [|split; [|split; [|split]]]].
    + apply (reachable_resets _ 1).
      eapply (reachable_init _ (1 # 50)%Q "fingerone" false false "0" false 0).
      vm_compute. reflexivity.
    + vm_compute. reflexivity.
    + vm_compute. reflexivity.
    + vm_compute. reflexivity.
    + vm_compute. reflexivity.
    + vm_compute. discriminate.
Qed.

Section Binary64_steps.
Local Existing Instance binary64_platform.

(** The schedule of ten episodes from the first to the last, towards 0.8,
    in binary64: the object after ten episodes, and in exact arithmetic the
    same with 4/5. *)
Lemma smoothing_alpha_schedule_witness :
  (exists self : TriFingerReach,
     reachable (plain_params 10 0 1 0.8)%float self
     /\ episode_count self = 10
     /\ smoothing_start_episode self = 0
     /\ smoothing_stop_episode self = Finite 10
     /\ smoothing_increase_step self = (0.8 / 10)%float
     /\ (forall action, smoothing_alpha (step action self).2 = smoothing_alpha self)
     /\ num_leb (smoothing_alpha self) (smoothing_alpha (reset self).2) = true
     /\ (forall n, smoothing_alpha (resets n self) = smoothing_alpha self)
     /\ smoothing_alpha self = accumulated 10 (0.8 / 10)%float)
  /\ (exists self : TriFingerReach (platform := exact_platform),
     reachable (plain_params 10 0 1 (4 # 5))%Q self
     /\ episode_count self = 10
     /\ smoothing_stop_episode self = Finite 10
     /\ (smoothing_alpha self <= smoothing_alpha (reset self).2)%Q
     /\ (smoothing_alpha self == 4 # 5)%Q).
Proof.
  split.
  - assert (Hkeys : (plain_params 10 0 1 0.8)%float !! "is_test" = None
                    /\ (plain_params 10 0 1 0.8)%float !! "num_episodes" = Some 10%float
                    /\ (plain_params 10 0 1 0.8)%float !! "start_after" = Some 0%float
                    /\ (plain_params 10 0 1 0.8)%float !! "stop_after" = Some 1%float
                    /\ (plain_params 10 0 1 0.8)%float !! "final_alpha" = Some 0.8%float)
      by (repeat split; vm_compute; reflexivity).
    destruct Hkeys as (Htest & Hnumber & Hafter & Hbefore & Hfinal).
    assert (Hstart0 : py_int (num_mul 10 0)%float = Ok 0)
      by (vm_compute; reflexivity).
    assert (Hstop0 : py_int (num_mul 10 1)%float = Ok 10)
      by (vm_compute; reflexivity).
    assert (Hten : float_of_Z (10 - 0) = 10%float) by (vm_compute; reflexivity).
    assert (Hpositive : num_leb (num_of_Z 0) (0.8 / 10)%float = true)
      by (vm_compute; reflexivity).
    assert (Hall : forall self : TriFingerReach,
              reachable (plain_params 10 0 1 0.8)%float self ->
              episode_count self = 10 ->
              smoothing_start_episode self = 0
              /\ smoothing_stop_episode self = Finite 10
              /\ smoothing_increase_step self = (0.8 / 10)%float
              /\ (forall action,
                    smoothing_alpha (step action self).2 = smoothing_alpha self)
              /\ num_leb (smoothing_alpha self) (smoothing_alpha (reset self).2)
                 = true
              /\ (forall n, smoothing_alpha (resets n self) = smoothing_alpha self)
              /\ smoothing_alpha self = accumulated 10 (0.8 / 10)%float).
    { intros self Hreach Hcount.
      destruct (proj1 smoothing_alpha_schedule binary64_platform
                  (plain_params 10 0 1 0.8)%float 10%float 0%float 1%float
                  0.8%float self Htest Hnumber Hafter Hbefore Hfinal Hreach)
        as (start & stop & Hstart & Hstop & Hfirst & Hlast & Hincrease & Hstep
            & _ & Hgrows & Hrests & Hsum).
      rewrite Hstart0 in Hstart. injection Hstart as <-.
      rewrite Hstop0 in Hstop. injection Hstop as <-.
      cbn [num_div num_of_Z float_number] in Hincrease.
      rewrite Hten in Hincrease.
      rewrite Hincrease in Hgrows, Hsum. rewrite Hcount in Hrests, Hsum.
      specialize (Hgrows Hpositive).
      specialize (Hrests ltac:(lia)).
      specialize (Hsum ltac:(lia)).
      exact (conj Hfirst (conj Hlast (conj Hincrease (conj Hstep
               (conj Hgrows (conj Hrests Hsum)))))). }
    eexists.
    eassert (Hreach : reachable (plain_params 10 0 1 0.8)%float _).
    { apply (reachable_resets _ 9).
      eapply (reachable_init _ 0.02%float "fingerone" false false "0" false 0).
      vm_compute. reflexivity. }
    split; [exact Hreach|].
    lazymatch goal with
    | |- ?A /\ _ => assert (Hcount : A) by (vm_compute; reflexivity)
    end.
    exact (conj Hcount (Hall _ Hreach Hcount)).
  - assert (Hkeys : (plain_params 10 0 1 (4 # 5))%Q !! "is_test" = None
                    /\ (plain_params 10 0 1 (4 # 5))%Q !! "num_episodes" = Some 10%Q
                    /\ (plain_params 10 0 1 (4 # 5))%Q !! "start_after" = Some 0%Q
                    /\ (plain_params 10 0 1 (4 # 5))%Q !! "stop_after" = Some 1%Q
                    /\ (plain_params 10 0 1 (4 # 5))%Q !! "final_alpha"
                       = Some (4 # 5)%Q)
      by (repeat split; vm_compute; reflexivity).
    destruct Hkeys as (Htest & Hnumber & Hafter & Hbefore & Hfinal).
    assert (Horder : 0 <= Qtruncate (10 * 0) < Qtruncate (10 * 1))
      by (vm_compute; split; [discriminate|reflexivity]).
    assert (Hstop0 : Qtruncate (10 * 1) = 10) by (vm_compute; reflexivity).
    assert (Hall : forall self : TriFingerReach (platform := exact_platform),
              reachable (plain_params 10 0 1 (4 # 5))%Q self ->
              episode_count self = 10 ->
              smoothing_stop_episode self = Finite 10
              /\ (smoothing_alpha self <= smoothing_alpha (reset self).2)%Q
              /\ (smoothing_alpha self == 4 # 5)%Q).
    { intros self Hreach Hcount.
      destruct (proj2 smoothing_alpha_schedule exact_platform
                  (plain_params 10 0 1 (4 # 5))%Q 10%Q 0%Q 1%Q (4 # 5)%Q self
                  Htest Hnumber Hafter Hbefore Hfinal Horder Hreach)
        as (Hlast & Hgrows & Hend).
      rewrite Hstop0 in Hlast, Hend. rewrite Hcount in Hend.
      specialize (Hgrows ltac:(vm_compute; discriminate)).
      specialize (Hend ltac:(lia)).
      exact (conj Hlast (conj Hgrows Hend)). }
    eexists.
    eassert (Hreach : reachable (platform := exact_platform)
                        (plain_params 10 0 1 (4 # 5))%Q _).
    { apply (reachable_resets _ 9).
      eapply (reachable_init (platform := exact_platform) _ (1 # 50)%Q
                "fingerone" false false "0" false 0).
      vm_compute. reflexivity. }
    split; [exact Hreach|].
    lazymatch goal with
    | |- ?A /\ _ => assert (Hcount : A) by (vm_compute; reflexivity)
    end.
    exact (conj Hcount (Hall _ Hreach Hcount)).
Defined.

(** In binary64 the coefficient rests at 0.7999999999999999 from episode 10
    on. *)
Lemma smoothing_alpha_rests_witness :
  exists self : TriFingerReach,
    reachable (plain_params 10 0 1 0.8)%float self
    /\ episode_count self = 10
    /\ smoothing_alpha self = 0.79999999999999993%float
    /\ (forall action, smoothing_alpha (step action self).2 = smoothing_alpha self)
    /\ (forall n, smoothing_alpha (resets n self) = smoothing_alpha self).
Proof.
  eexists.
  eassert (Hreach : reachable (plain_params 10 0 1 0.8)%float _).
  { apply (reachable_resets _ 9).
    eapply (reachable_init _ 0.02%float "fingerone" false false "0" false 0).
    vm_compute. reflexivity. }
  split; [exact Hreach|].
  split; [vm_compute; reflexivity|].
  split; [vm_compute; reflexivity|].
  apply (smoothing_alpha_rests _ _ 10 Hreach).
  - vm_compute. reflexivity.
  - vm_compute. discriminate.
Defined.

(** Two substeps towards the target [1; 0; 0] from rest, the goal at the
    origin: the tip is 0.5 away at the first substep and 0.75 at the
    second. *)
Lemma reward_of_step_witness :
  exists (self : TriFingerReach (platform := binary64_platform)) o rest,
    reachable (test_params 0%float) self
    /\ substep_observations 2 (smoothed self [1; 0; 0]%float) (finger self) = o :: rest
    /\ distance_at (goal self) o = 0.5%float
    /\ exists scaled_observation done info,
         (step [1; 0; 0]%float self).1 =
           Ok (scaled_observation,
               num_mul (num_opp (distance_at (goal self) o))
                 (num_of_Z (steps_per_control self)),
               done, info).
Proof.
  eexists _, _, _.
  eassert (Hreach : reachable (test_params 0%float) _).
  { eapply (reachable_init _ 0.008%float "fingerone" false false "0" false 0).
    vm_compute. reflexivity. }
  split; [exact Hreach|].
  split; [vm_compute; reflexivity|].
  split; [vm_compute; reflexivity|].
  eapply (reward_of_step _ [1; 0; 0]%float _ _ _ Hreach).
  - vm_compute. reflexivity.
  - vm_compute. reflexivity.
  - vm_compute. reflexivity.
  - vm_compute. reflexivity.
Defined.

(** C2 as stated fails: on the same step the reward is [-0.5 * 2 = -1];
    minus the sum of the distances at the two substeps is [-1.25], and that
    times the substep count is [-2.5]. *)
Lemma reward_is_not_sum_over_substeps :
  exists (self : TriFingerReach (platform := binary64_platform))
      scaled_observation reward done info,
    reachable (test_params 0%float) self
    /\ steps_per_control self = 2
    /\ (step [1; 0; 0]%float self).1 = Ok (scaled_observation, reward, done, info)
    /\ reward = (-1)%float
    /\ map (distance_at (goal self))
         (substep_observations 2 (smoothed self [1; 0; 0]%float) (finger self))
       = [0.5; 0.75]%float
    /\ negative_sum_of_distances (goal self)
         (substep_observations 2 (smoothed self [1; 0; 0]%float) (finger self))
       = (-1.25)%float
    /\ reward <>
       negative_sum_of_distances (goal self)
         (substep_observations 2 (smoothed self [1; 0; 0]%float) (finger self))
    /\ reward <>
       num_mul
         (negative_sum_of_distances (goal self)
            (substep_observations 2 (smoothed self [1; 0; 0]%float) (finger self)))
         (num_of_Z (steps_per_control self)).
Proof.
  eexists _, _, _, _, _.
  split.
  { eapply (reachable_init _ 0.008%float "fingerone" false false "0" false 0).
    vm_compute. reflexivity. }
  split; [vm_compute; reflexivity|].
  split; [vm_compute; reflexivity|].
  split; [reflexivity|].
  split; [vm_compute; reflexivity|].
  split; [vm_compute; reflexivity|].
  split; apply float_differ; vm_compute; reflexivity.
Qed.

(** A step of the same object. *)
Lemma step_is_never_done_witness :
  exists self : TriFingerReach (platform := binary64_platform),
    reachable (test_params 0%float) self
    /\ (exists scaled_observation reward info,
          (step [1; 0; 0]%float self).1 = Ok (scaled_observation, reward, false, info)
          /\ info !! "is_success" = Some 0%float)
    /\ (forall scaled_observation reward done info,
          (step [1; 0; 0]%float self).1 = Ok (scaled_observation, reward, done, info) ->
          done = false /\ info !! "is_success" = Some 0%float).
Proof.
  eexists.
  eassert (Hreach : reachable (test_params 0%float) _).
  { eapply (reachable_init _ 0.008%float "fingerone" false false "0" false 0).
    vm_compute. reflexivity. }
  split; [exact Hreach|].
  apply (step_is_never_done _ [1; 0; 0]%float _ Hreach).
  - vm_compute. reflexivity.
  - vm_compute. reflexivity.
Defined.

(** A step of the same object, with the whole [info] dict. *)
Lemma step_reports_not_done_witness :
  exists self : TriFingerReach (platform := binary64_platform),
    reachable (test_params 0%float) self
    /\ (exists scaled_observation reward,
          (step [1; 0; 0]%float self).1 =
            Ok (scaled_observation, reward, false, {[ "is_success" := 0%float ]}))
    /\ (forall scaled_observation reward done info,
          (step [1; 0; 0]%float self).1 = Ok (scaled_observation, reward, done, info) ->
          done = false /\ info = {[ "is_success" := 0%float ]}).
Proof.
  eexists.
  eassert (Hreach : reachable (test_params 0%float) _).
  { eapply (reachable_init _ 0.008%float "fingerone" false false "0" false 0).
    vm_compute. reflexivity. }
  split; [exact Hreach|].
  apply (step_reports_not_done _ [1; 0; 0]%float _ Hreach).
  - vm_compute. reflexivity.
  - vm_compute. reflexivity.
Defined.

(** C6 as stated fails: [step] does not return on every object in use.  On
    a robot whose backend has stopped it raises the error of the robot; and
    a control period of zero passes the assertion of the constructor with
    no substep per step, after which [step] raises [TypeError] on the state
    that its loop never assigned. *)
Lemma step_does_not_always_return :
  (exists self : TriFingerReach (platform := frail_platform),
     reachable (test_params 0%float) self
     /\ steps_per_control self = 2
     /\ (step [1; 0; 0]%float self).1
        = Raise (RuntimeError "robot backend stopped"))
  /\ (exists self : TriFingerReach (platform := binary64_platform),
     reachable (test_params 0%float) self
     /\ __init__ 0%float "fingerone" false (test_params 0%float) false "0" false 0
        = Ok self
     /\ steps_per_control self = 0
     /\ (step [1; 0; 0]%float self).1 = Raise TypeError).
Proof.
  split.
  - eexists. split.
    { eapply (reachable_init (platform := frail_platform) _ 0.008%float
                "fingerone" false false "0" false 0).
      vm_compute. reflexivity. }
    split; vm_compute; reflexivity.
  - eexists.
    eassert (Hinit : __init__ 0%float "fingerone" false
                      (test_params 0%float) false "0" false 0 = Ok _).
    { vm_compute. reflexivity. }
    split; [eapply reachable_init; exact Hinit|].
    split; [exact Hinit|].
    split; vm_compute; reflexivity.
Qed.

End Binary64_steps.

Section Binary64_failures.
Local Existing Instance frail_platform.

(** A synchronised environment on a robot whose backend stops after two
    steps: the one substep of [step] is answered and its observation kept;
    in the freeze-in-place step of the next [reset] the robot takes the
    action and then raises on the request for the observation, and [reset]
    goes on to wait for second 64 and returns. *)
Lemma reset_swallows_freeze_failure_witness :
  exists self frozen : TriFingerReach,
    reachable (test_params 0%float) self
    /\ next_start_time self = Some 64
    /\ freeze_in_place self = (Raise (RuntimeError "robot backend stopped"), frozen)
    /\ ticks (finger frozen) = 2
    /\ reset self =
         reset_episode
           (set_next_start_time (Some 68)
              (set_trace (Sleep_until 64 :: trace frozen) frozen))
    /\ exists scaled_observation later,
         (reset self).1 = Ok scaled_observation
         /\ next_start_time (reset self).2 = Some 68
         /\ trace (reset self).2 = later ++ Sleep_until 64 :: trace self.
Proof.
  eexists _, _.
  eassert (Hreach : reachable (test_params 0%float) _).
  { apply (reachable_step _ [1; 0; 0]%float).
    eapply (reachable_init _ 0.004%float "fingerone" false false "0" true 0).
    vm_compute. reflexivity. }
  split; [exact Hreach|].
  split; [vm_compute; reflexivity|].
  split; [vm_compute; reflexivity|].
  split; [vm_compute; reflexivity|].
  apply (reset_swallows_freeze_failure _ _ 64
           (RuntimeError "robot backend stopped") _ Hreach).
  - vm_compute. reflexivity.
  - vm_compute. reflexivity.
Defined.

End Binary64_failures.

Section Binary64_first_step.
Local Existing Instance binary64_platform.

(** C9 as stated fails: with the coefficient 0.1 the blend of
    0.30000000000000004 with itself is 0.3000000000000001 in binary64. *)
Lemma first_step_rounds_action :
  exists self : TriFingerReach,
    reachable (test_params 0.1%float) self
    /\ smoothed_action self = None
    /\ smoothing_alpha self = 0.1%float
    /\ unscale [0.3; 0.5; 0.7]%float (unscaled_action_space self)
       = [0.30000000000000004; 0.5; 0.7]%float
    /\ smoothed self [0.3; 0.5; 0.7]%float = [0.3000000000000001; 0.5; 0.7]%float
    /\ smoothed_action (step [0.3; 0.5; 0.7]%float self).2
       = Some [0.3000000000000001; 0.5; 0.7]%float
    /\ blend 0.1%float [0.30000000000000004%float] [0.30000000000000004%float]
       = [0.3000000000000001%float]
    /\ smoothed self [0.3; 0.5; 0.7]%float
       <> unscale [0.3; 0.5; 0.7]%float (unscaled_action_space self).
Proof.
  eexists.
  split.
  { eapply (reachable_init _ 0.004%float "fingerone" false false "0" false 0).
    vm_compute. reflexivity. }
  split; [vm_compute; reflexivity|].
  split; [vm_compute; reflexivity|].
  split; [vm_compute; reflexivity|].
  split; [vm_compute; reflexivity|].
  split; [vm_compute; reflexivity|].
  split; [vm_compute; reflexivity|].
  intros Heq.
  apply (f_equal (fun l => PrimFloat.eqb (hd 0%float l) 0.3000000000000001%float))
    in Heq.
  vm_compute in Heq. discriminate.
Qed.

(** The first step of a fresh environment with the coefficient 0.1, and
    the blend of a vector with itself in exact arithmetic. *)
Lemma first_step_sends_unscaled_action_witness :
  (exists self : TriFingerReach,
     reachable (test_params 0.1%float) self
     /\ smoothed_action self = None
     /\ smoothed_action (step [0.3; 0.5; 0.7]%float self).2
        = Some (blend (smoothing_alpha self)
                  (unscale [0.3; 0.5; 0.7]%float (unscaled_action_space self))
                  (unscale [0.3; 0.5; 0.7]%float (unscaled_action_space self))))
  /\ Forall2 Qeq (blend (2 # 25)%Q [1 # 3; 0; 1]%Q [1 # 3; 0; 1]%Q) [1 # 3; 0; 1]%Q.
Proof.
  split; [|exact (proj2 first_step_sends_unscaled_action (2 # 25)%Q [1 # 3; 0; 1]%Q)].
  eexists.
  split.
  { eapply (reachable_init _ 0.004%float "fingerone" false false "0" false 0).
    vm_compute. reflexivity. }
  lazymatch goal with
  | |- ?A /\ _ => assert (Hnone : A) by (vm_compute; reflexivity)
  end.
  split; [exact Hnone|].
  exact (proj2 (proj1 first_step_sends_unscaled_action float _ binary64_platform
                  _ [0.3; 0.5; 0.7]%float Hnone)).
Defined.

(** Equal start and stop episodes, [int(10 * 0.5)] twice: with
    ["final_alpha"] the division by zero, without it the missing key. *)
Lemma init_zero_smoothing_steps_witness :
  (smoothing_setup (plain_params 10 0.5 0.5 0.8)%float = Raise ZeroDivisionError
   /\ __init__ 0.02%float "fingerone" false (plain_params 10 0.5 0.5 0.8)%float
        false "0" false 0 = Raise ZeroDivisionError)
  /\ (let smoothing_params : gmap string float :=
        <["num_episodes" := 10%float]>
          (<["start_after" := 0.5%float]> (<["stop_after" := 0.5%float]> ∅)) in
      smoothing_setup smoothing_params = Raise (KeyError "final_alpha")
      /\ __init__ 0.02%float "fingerone" false smoothing_params
           false "0" false 0 = Raise (KeyError "final_alpha")).
Proof.
  split.
  - destruct (init_zero_smoothing_steps 0.02%float "fingerone" false
                (plain_params 10 0.5 0.5 0.8)%float false "0" false 0
                10%float 0.5%float 0.5%float 5)
      as (Hsetup & Hinit & _).
    + reflexivity.
    + reflexivity.
    + reflexivity.
    + reflexivity.
    + vm_compute. reflexivity.
    + vm_compute. reflexivity.
    + split; [exact Hsetup|]. rewrite Hinit. vm_compute. reflexivity.
  - intros smoothing_params.
    destruct (init_zero_smoothing_steps 0.02%float "fingerone" false
                smoothing_params false "0" false 0
                10%float 0.5%float 0.5%float 5)
      as (Hsetup & Hinit & _).
    + reflexivity.
    + reflexivity.
    + reflexivity.
    + reflexivity.
    + vm_compute. reflexivity.
    + vm_compute. reflexivity.
    + split; [exact Hsetup|]. rewrite Hinit. vm_compute. reflexivity.
Defined.

(** C10 as stated fails: with equal start and stop episodes the constructor
    raises [AssertionError] when the control period fails its check, which
    comes first, and [KeyError] when ["final_alpha"] is missing; it raises
    [ZeroDivisionError] in neither case. *)
Lemma init_raises_other_errors :
  py_int (num_mul 10 0.5)%float = Ok 5
  /\ (plain_params 10 0.5 0.5 0.8)%float !! "is_test" = None
  /\ __init__ 0.021%float "fingerone" false (plain_params 10 0.5 0.5 0.8)%float
       false "0" false 0 = Raise AssertionError
  /\ __init__ 0.02%float "fingerone" false
       (<["num_episodes" := 10%float]>
          (<["start_after" := 0.5%float]> (<["stop_after" := 0.5%float]> ∅)))
       false "0" false 0 = Raise (KeyError "final_alpha").
Proof. repeat split; vm_compute; reflexivity. Qed.





End Binary64_first_step.

Section Exact_examples.
Local Existing Instance exact_platform.


End Exact_examples.

(** A cube is created for client 0, the client disconnects, and the cube is
    destroyed. *)
Lemma del_removes_only_if_connected_witness :
  let created :=
    CollisionObjects.Cube [15 # 100; 0; 425 # 10000]%Q [0; 0; 0; 1]%Q
      (325 # 10000)%Q (8 # 100)%Q None 0 empty_world in
  let cube := created.1.2 in
  let after := CollisionObjects.disconnect 0 created.2 in
  created.1.1 = Ok tt
  /\ CollisionObjects._object_id cube = Some 0
  /\ CollisionObjects.__del__ cube after
     = (Ok tt, CollisionObjects.log (CollisionObjects.Call_isConnected 0) after)
  /\ CollisionObjects.removals
       (CollisionObjects.calls (CollisionObjects.__del__ cube after).2) = [].
Proof.
  intros created cube after.
  assert (Hgone : CollisionObjects._pybullet_client_id cube
                  ∉ CollisionObjects.connected after).
  { cbn. apply not_elem_of_difference. right. apply elem_of_singleton. reflexivity. }
  destruct (del_removes_only_if_connected cube after) as [Hdel _].
  destruct (Hdel Hgone) as (Hrun & Hcalls & _ & _).
  split; [reflexivity|]. split; [reflexivity|]. split; [exact Hrun|].
  rewrite Hcalls. reflexivity.
Defined.

(** ** More of the definitions at work *)

Section Binary64_more.
Local Existing Instance binary64_platform.

(** A synchronised environment with two substeps per step: the step
    towards [1; 0; 0] leaves the robot after two robot steps, the second
    observation as [observation] and the first one in the log. *)
Lemma step_leaves_witness :
  exists self : TriFingerReach,
    reachable (test_params 0%float) self
    /\ synchronize self = true
    /\ map position
         (substep_observations 2 (smoothed self [1; 0; 0]%float) (finger self))
       = [[0.5; 0; 0]; [0.75; 0; 0]]%float
    /\ (step [1; 0; 0]%float self).2 =
         assign self (robot_after 2 (smoothed self [1; 0; 0]%float) (finger self))
           (smoothing_alpha self) (Some (smoothed self [1; 0; 0]%float))
           (episode_count self) (next_start_time self)
           (kept_observation self
              (substep_observations 2 (smoothed self [1; 0; 0]%float) (finger self)))
           (goal self)
           (trace_after self
              (substep_observations 2 (smoothed self [1; 0; 0]%float) (finger self))).
Proof.
  eexists.
  eassert (Hreach : reachable (test_params 0%float) _).
  { eapply (reachable_init _ 0.008%float "fingerone" false false "0" true 0).
    vm_compute. reflexivity. }
  split; [exact Hreach|].
  split; [vm_compute; reflexivity|].
  split; [vm_compute; reflexivity|].
  exact (step_leaves _ [1; 0; 0]%float _ Hreach).
Defined.

(** Two substeps towards [1; 0; 0] from rest: the returned observation has
    the joint positions [0.5; 0; 0] of the first substep (scaled by 8), and
    the robot ends at [0.75; 0; 0]. *)
Lemma step_returns_first_observation_witness :
  exists (self : TriFingerReach) o rest,
    reachable (test_params 0%float) self
    /\ substep_observations 2 (smoothed self [1; 0; 0]%float) (finger self)
       = o :: rest
    /\ position o = [0.5; 0; 0]%float
    /\ joints (finger (step [1; 0; 0]%float self).2) = [0.75; 0; 0]%float
    /\ exists reward,
         (step [1; 0; 0]%float self).1 =
           Ok (scale
                 (position o ++ velocity o ++ concat (goal self)
                    ++ smoothed self [1; 0; 0]%float)
                 (unscaled_observation_space self),
               reward, false, info_of false).
Proof.
  eexists _, _, _.
  eassert (Hreach : reachable (test_params 0%float) _).
  { eapply (reachable_init _ 0.008%float "fingerone" false false "0" false 0).
    vm_compute. reflexivity. }
  split; [exact Hreach|].
  lazymatch goal with
  | |- ?A /\ _ => assert (Hobs : A) by (vm_compute; reflexivity)
  end.
  split; [exact Hobs|].
  split; [vm_compute; reflexivity|].
  split; [vm_compute; reflexivity|].
  refine (step_returns_first_observation _ [1; 0; 0]%float _ _ _ Hreach _ _ Hobs).
  - vm_compute. reflexivity.
  - vm_compute. reflexivity.
Defined.

(** Two resets and a step after construction: three episodes. *)
Lemma episode_count_counts_resets_witness :
  exists self : TriFingerReach,
    __init__ 0.008%float "fingerone" false (test_params 0%float) false "0" false 0
      = Ok self
    /\ episode_count (run [Call_reset; Call_step [1; 0; 0]%float; Call_reset] self)
       = 3.
Proof.
  eexists.
  eassert (Hinit : __init__ 0.008%float "fingerone" false (test_params 0%float)
                     false "0" false 0 = Ok _).
  { vm_compute. reflexivity. }
  split; [exact Hinit|].
  exact (episode_count_counts_resets _ _ _ _ _ _ _ _ _
           [Call_reset; Call_step [1; 0; 0]%float; Call_reset] Hinit).
Defined.

(** Construction at second 0 with [synchronize]: the first episode waits
    for second 60, and after two more resets the next one starts at second
    72. *)
Lemma start_times_four_seconds_apart_witness :
  exists self : TriFingerReach,
    __init__ 0.008%float "fingerone" false (test_params 0%float) false "0" true 0
      = Ok self
    /\ next_start_time self = Some 64
    /\ synchronize
         (run [Call_reset; Call_step [1; 0; 0]%float; Call_reset] self) = true
    /\ next_start_time
         (run [Call_reset; Call_step [1; 0; 0]%float; Call_reset] self) = Some 72.
Proof.
  eexists.
  eassert (Hinit : __init__ 0.008%float "fingerone" false (test_params 0%float)
                     false "0" true 0 = Ok _).
  { vm_compute. reflexivity. }
  split; [exact Hinit|].
  split; [vm_compute; reflexivity|].
  exact (start_times_four_seconds_apart _ _ _ _ _ _ _ _ _
           [Call_reset; Call_step [1; 0; 0]%float; Call_reset] Hinit).
Defined.


(** [smoothing_params] without ["stop_after"]. *)
Lemma init_key_error_witness :
  let smoothing_params : gmap string float :=
    <["num_episodes" := 10%float]>
      (<["start_after" := 0%float]> (<["final_alpha" := 0.8%float]> ∅)) in
  __init__ 0.008%float "fingerone" false smoothing_params false "0" false 0
    = Raise (KeyError "stop_after")
  /\ smoothing_params !! "stop_after" = None
  /\ "stop_after" ∈ ["final_alpha"; "num_episodes"; "stop_after"; "start_after"]
  /\ (is_Some (smoothing_params !! "is_test") -> "stop_after" = "final_alpha").
Proof.
  intros smoothing_params.
  assert (Hinit : __init__ 0.008%float "fingerone" false smoothing_params
                    false "0" false 0 = Raise (KeyError "stop_after")).
  { vm_compute. reflexivity. }
  exact (conj Hinit (init_key_error _ _ _ _ _ _ _ _ _ Hinit)).
Defined.

End Binary64_more.

Section Binary64_frail.
Local Existing Instance frail_platform.

(** Two substeps per step on a robot whose backend stops after two steps:
    the second request for an observation raises, and so does [step]. *)
Lemma step_passes_on_errors_witness :
  exists self : TriFingerReach,
    reachable (test_params 0%float) self
    /\ length [1; 0; 0]%float = length (low (unscaled_action_space self))
    /\ steps_per_control self = 2
    /\ robot_failure 2 (smoothed self [1; 0; 0]%float) (finger self)
       = Some (RuntimeError "robot backend stopped")
    /\ (step [1; 0; 0]%float self).1 = Raise (RuntimeError "robot backend stopped").
Proof.
  eexists.
  eassert (Hreach : reachable (test_params 0%float) _).
  { eapply (reachable_init _ 0.008%float "fingerone" false false "0" false 0).
    vm_compute. reflexivity. }
  split; [exact Hreach|].
  lazymatch goal with
  | |- ?A /\ _ => assert (Hshape : A) by (vm_compute; reflexivity)
  end.
  split; [exact Hshape|].
  split; [vm_compute; reflexivity|].
  lazymatch goal with
  | |- ?A /\ _ => assert (Hfail : A) by (vm_compute; reflexivity)
  end.
  split; [exact Hfail|].
  destruct (step_passes_on_errors _ [1; 0; 0]%float _ Hreach Hshape)
    as (Hraise & _).
  exact (Hraise _ Hfail).
Defined.

End Binary64_frail.

Section Exact_more.
Local Existing Instance exact_platform.

(** With ["is_test"] and the final coefficient 1/2, after three more
    episodes. *)
Lemma smoothing_alpha_under_test_witness :
  exists self : TriFingerReach,
    reachable (test_params (1 # 2)%Q) self
    /\ episode_count self = 4
    /\ exists final_alpha,
         test_params (1 # 2)%Q !! "final_alpha" = Some final_alpha
         /\ smoothing_setup (test_params (1 # 2)%Q) = Ok (0, final_alpha, 0%Q, Infinite)
         /\ (smoothing_alpha self == final_alpha)%Q
         /\ smoothing_start_episode self = 0
         /\ smoothing_stop_episode self = Infinite.
Proof.
  eexists.
  eassert (Hreach : reachable (test_params (1 # 2)%Q) _).
  { apply (reachable_resets _ 3).
    eapply (reachable_init _ (1 # 50)%Q "fingerone" false false "0" false 0).
    vm_compute. reflexivity. }
  split; [exact Hreach|].
  split; [vm_compute; reflexivity|].
  assert (Htest : is_Some (test_params (1 # 2)%Q !! "is_test"))
    by (eexists; vm_compute; reflexivity).
  exact (smoothing_alpha_under_test _ _ Htest Hreach).
Defined.

(** The control period 1/50 on the time step 4/1000. *)
Lemma steps_per_control_positive_witness :
  exists self : TriFingerReach,
    __init__ (1 # 50)%Q "fingerone" false (test_params 0%Q) false "0" false 0
      = Ok self
    /\ 1 <= steps_per_control (run [Call_step [1; 0; 0]%Q; Call_reset] self).
Proof.
  eexists.
  eassert (Hinit : __init__ (1 # 50)%Q "fingerone" false (test_params 0%Q)
                     false "0" false 0 = Ok _).
  { vm_compute. reflexivity. }
  split; [exact Hinit|].
  refine (steps_per_control_positive (1 # 50)%Q "fingerone" false (test_params 0%Q)
            false "0" false 0 _ [Call_step [1; 0; 0]%Q; Call_reset] _ _ Hinit).
  - vm_compute. reflexivity.
  - vm_compute. discriminate.
Defined.

(** A step with the sum of absolute differences as the distance. *)
Lemma reward_is_never_positive_witness :
  exists (self : TriFingerReach) scaled_observation reward done info,
    reachable (test_params 0%Q) self
    /\ (step [1; 0; 0]%Q self).1 = Ok (scaled_observation, reward, done, info)
    /\ (reward <= 0)%Q.
Proof.
  eexists _, _, _, _, _.
  eassert (Hreach : reachable (test_params 0%Q) _).
  { eapply (reachable_init _ (1 # 50)%Q "fingerone" false false "0" false 0).
    vm_compute. reflexivity. }
  split; [exact Hreach|].
  lazymatch goal with
  | |- ?A /\ _ => assert (Hstep : A) by (vm_compute; reflexivity)
  end.
  split; [exact Hstep|].
  exact (reward_is_never_positive _ _ _ _ _ _ _
           manhattan_not_negative Hreach Hstep).
Defined.

End Exact_more.

Section Collision_examples.
Import CollisionObjects.

(** A red cube is created for client 0 of an engine without bodies, and
    destroyed. *)
Lemma construct_then_destroy_witness :
  let c := New_Cube [15 # 100; 0; 425 # 10000]%Q [0; 0; 0; 1]%Q
             (325 # 10000)%Q (8 # 100)%Q (Some [1; 0; 0; 1]%Q) in
  let created := construct c 0 empty_world in
  let self := created.1.2 in
  let destroyed := __del__ self created.2 in
  created.1.1 = Ok tt
  /\ _pybullet_client_id self = 0
  /\ _object_id self = Some 0
  /\ calls created.2
     = [Call_changeDynamics 0 0; Call_createMultiBody 0; Call_createVisualShape 0;
        Call_createCollisionShape 0]
  /\ removals (calls created.2) = []
  /\ destroyed.1 = Ok tt
  /\ calls destroyed.2
     = Call_removeBody 0 0 :: Call_isConnected 0 :: calls created.2
  /\ removals (calls destroyed.2) = [Call_removeBody 0 0].
Proof.
  intros c created self destroyed.
  apply (construct_then_destroy c 0 empty_world).
  apply elem_of_singleton. reflexivity.
Defined.

(** A coloured cube for a client of an engine without clients. *)
Lemma construct_without_connection_witness :
  let world : pybullet Q := disconnect 0 empty_world in
  let created := construct (New_ColoredCubeV2 [0; 0; 0]%Q [0; 0; 0; 1]%Q) 0 world in
  let self := created.1.2 in
  let destroyed := __del__ self created.2 in
  created.1.1 = Raise not_connected
  /\ _object_id self = None
  /\ destroyed.1 = Ok tt
  /\ removals (calls destroyed.2) = removals (calls world)
  /\ bodies destroyed.2 = bodies world.
Proof.
  intros world.
  apply (construct_without_connection
           (New_ColoredCubeV2 [0; 0; 0]%Q [0; 0; 0; 1]%Q) 0 world).
  cbn. apply not_elem_of_difference. right. apply elem_of_singleton. reflexivity.
Defined.

(** The base class, used directly in a connected engine. *)
Lemma methods_without_object_id_witness :
  let self := BaseCollisionObject_init 0 in
  set_state self [0; 0; 0]%Q [0; 0; 0; 1]%Q empty_world
    = (Raise (AttributeError "_object_id"), empty_world)
  /\ get_state self empty_world = (Raise (AttributeError "_object_id"), empty_world)
  /\ (__del__ self empty_world).1 = Raise (AttributeError "_object_id").
Proof.
  intros self.
  destruct (methods_without_object_id self [0; 0; 0]%Q [0; 0; 0; 1]%Q empty_world
              eq_refl) as (Hset & Hget & _ & Hdel & _).
  split; [exact Hset|]. split; [exact Hget|].
  apply Hdel. apply elem_of_singleton. reflexivity.
Defined.

End Collision_examples.
